(** * financial-theory-tester: the rule-based signal and backtest engine

    A shallow embedding of [strategy_backtester.py] (rule parser, RSI,
    condition evaluation, backtest loop) and of the mean-reversion,
    value-investing and technical checks of [financial_theory_tester.py],
    with the properties of the specification proved about it.

    Number model.  Python and pandas compute on binary64 floats.  Here a
    float is an exact rational extended with the IEEE special values that
    the code can produce by dividing by zero ([xnum]); rounding error is
    not modelled and the two signed zeros are identified.  Close prices,
    cash and thresholds are finite ([Q]); the results of divisions are
    [xnum].  pandas' "undefined" entries are [NaN].

    Frame model.  A price frame is the list of its bars in index order; a
    bar is addressed by its position, and the label slice [df.loc[:index]]
    is the prefix that ends at that position (the index is strictly
    increasing and has no duplicates).

    Text model.  Strategy text is ASCII: [str.lower], [\d] and [\s] are
    modelled on code points below 128.

    Exceptions are explicit: a function that can raise returns a [result]. *)

From Stdlib Require Import String Ascii List ZArith QArith Qround Bool Lia Lqa.
Import ListNotations.

Set Implicit Arguments.

(** ** Exceptions *)

Inductive exn : Type :=
| IndexError | KeyError | OverflowError | ValueError | TypeError.

Inductive result (A : Type) : Type :=
| Ok (a : A)
| Raise (e : exn).

Arguments Ok {A} a.
Arguments Raise {A} e.

Definition bind {A B : Type} (m : result A) (f : A -> result B) : result B :=
  match m with
  | Ok a => f a
  | Raise e => Raise e
  end.

Notation "x <- m ;; k" := (bind m (fun x => k))
  (at level 61, m at next level, right associativity).

(** ** Floats: rationals extended with the IEEE special values *)

Module Float.

Inductive xnum : Type :=
| Fin (q : Q)
| PInf
| NInf
| NaN.

Definition Qeqb0 (q : Q) : bool := Z.eqb (Qnum q) 0.
Definition Qpos (q : Q) : bool := Z.ltb 0 (Qnum q).
Definition Qneg (q : Q) : bool := Z.ltb (Qnum q) 0.

Definition xopp (x : xnum) : xnum :=
  match x with
  | Fin q => Fin (- q)
  | PInf => NInf
  | NInf => PInf
  | NaN => NaN
  end.

Definition xadd (x y : xnum) : xnum :=
  match x, y with
  | NaN, _ | _, NaN => NaN
  | Fin a, Fin b => Fin (a + b)
  | PInf, NInf | NInf, PInf => NaN
  | PInf, _ | _, PInf => PInf
  | NInf, _ | _, NInf => NInf
  end.

Definition xsub (x y : xnum) : xnum := xadd x (xopp y).

(** Infinity with the sign of [q]; [0 * inf] is NaN. *)
Definition inf_signed (q : Q) (positive : bool) : xnum :=
  if Qeqb0 q then NaN
  else if Bool.eqb (Qpos q) positive then PInf else NInf.

Definition xmul (x y : xnum) : xnum :=
  match x, y with
  | NaN, _ | _, NaN => NaN
  | Fin a, Fin b => Fin (a * b)
  | Fin a, PInf | PInf, Fin a => inf_signed a true
  | Fin a, NInf | NInf, Fin a => inf_signed a false
  | PInf, PInf | NInf, NInf => PInf
  | PInf, NInf | NInf, PInf => NInf
  end.

(** Division as numpy performs it: a finite number over zero is an
    infinity of the sign of the numerator, [0 / 0] is NaN, nothing raises. *)
Definition xdiv (x y : xnum) : xnum :=
  match x, y with
  | NaN, _ | _, NaN => NaN
  | Fin a, Fin b =>
      if Qeqb0 b then inf_signed a true else Fin (a / b)
  | Fin _, PInf | Fin _, NInf => Fin 0
  | PInf, Fin b => if Qneg b then NInf else PInf
  | NInf, Fin b => if Qneg b then PInf else NInf
  | _, _ => NaN
  end.

(** Comparisons: every comparison with NaN is false. *)
Definition xltb (x y : xnum) : bool :=
  match x, y with
  | NaN, _ | _, NaN => false
  | Fin a, Fin b => negb (Qle_bool b a)
  | NInf, Fin _ | NInf, PInf | Fin _, PInf => true
  | _, _ => false
  end.

Definition xleb (x y : xnum) : bool :=
  match x, y with
  | NaN, _ | _, NaN => false
  | Fin a, Fin b => Qle_bool a b
  | NInf, _ | _, PInf => true
  | _, _ => false
  end.

Definition xgtb (x y : xnum) : bool := xltb y x.
Definition xgeb (x y : xnum) : bool := xleb y x.

Definition is_nan (x : xnum) : bool :=
  match x with NaN => true | _ => false end.

Definition Qltb (a b : Q) : bool := negb (Qle_bool b a).
Definition Qgtb (a b : Q) : bool := Qltb b a.

(** [int(x)]: truncation toward zero; raises on the special values. *)
Definition Qtrunc (q : Q) : Z := Z.quot (Qnum q) (Zpos (Qden q)).

Definition py_int (x : xnum) : result Z :=
  match x with
  | Fin q => Ok (Qtrunc q)
  | PInf | NInf => Raise OverflowError
  | NaN => Raise ValueError
  end.

(** A pandas cell that is either a finite number or missing. *)
Definition of_option (o : option Q) : xnum :=
  match o with Some q => Fin q | None => NaN end.

End Float.
Import Float.

(** ** Price frames and pandas series operations *)

Record bar : Type := mkBar { date : Z; close : Q }.

Definition frame : Type := list bar.

(** [df.loc[index, 'Close']] *)
Definition loc_close (df : frame) (index : nat) : result Q :=
  match nth_error df index with
  | Some b => Ok (close b)
  | None => Raise KeyError
  end.

(** [df.loc[:index, 'Close']]: the closes up to and including [index]. *)
Definition loc_upto (df : frame) (index : nat) : list Q :=
  map close (firstn (S index) df).

(** [s.iloc[-1]] *)
Definition iloc_last {A : Type} (s : list A) : result A :=
  match rev s with
  | x :: _ => Ok x
  | [] => Raise IndexError
  end.

(** The trailing window of [w] entries that ends at position [i], when
    [w] entries exist ([min_periods] is the window length). *)
Definition window_at {A : Type} (w i : nat) (s : list A) : option (list A) :=
  if Nat.ltb (S i) w then None
  else Some (firstn w (skipn (S i - w) s)).

(** [s.rolling(window=w).agg()] on a series without missing entries. *)
Definition rolling (w : nat) (agg : list Q -> Q) (s : list Q) : list (option Q) :=
  map (fun i => option_map agg (window_at w i s)) (seq 0 (length s)).

Definition Qsum (l : list Q) : Q := fold_right Qplus 0 l.

Definition Qmean (l : list Q) : Q := Qsum l / inject_Z (Z.of_nat (length l)).

Fixpoint Qmaximum (l : list Q) : Q :=
  match l with
  | [] => 0
  | [x] => x
  | x :: tl => let m := Qmaximum tl in if Qle_bool m x then x else m
  end.

(** [s.diff()]: the first entry is missing. *)
Fixpoint diff_from (prev : Q) (s : list Q) : list (option Q) :=
  match s with
  | [] => []
  | x :: tl => Some (x - prev) :: diff_from x tl
  end.

Definition diff (s : list Q) : list (option Q) :=
  match s with
  | [] => []
  | x :: tl => None :: diff_from x tl
  end.

(** [delta.where(delta > 0, 0)]: a missing delta compares false and is
    replaced as well. *)
Definition where_pos (d : option Q) : Q :=
  match d with
  | Some x => if Qpos x then x else 0
  | None => 0
  end.

(** [-delta.where(delta < 0, 0)] *)
Definition neg_where_neg (d : option Q) : Q :=
  match d with
  | Some x => if Qneg x then - x else - 0
  | None => - 0
  end.

(** ** calculate_rsi *)

Definition rsi_of (gain loss : option Q) : xnum :=
  let rs := xdiv (of_option gain) (of_option loss) in
  xsub (Fin 100) (xdiv (Fin 100) (xadd (Fin 1) rs)).

Definition calculate_rsi (prices : list Q) (period : nat) : list xnum :=
  let delta := diff prices in
  let gain := rolling period Qmean (map where_pos delta) in
  let loss := rolling period Qmean (map neg_where_neg delta) in
  map (fun gl => rsi_of (fst gl) (snd gl)) (combine gain loss).

(** ** Strategies *)

(** The six condition dictionaries, by their ['type'] key. *)
Inductive condition : Type :=
| Dip (percent : Q)
| PriceBelow (price : Q)
| RsiBelow (value : Q)
| Rise (percent : Q)
| PriceAbove (price : Q)
| RsiAbove (value : Q).

Record StrategySpec : Type := mkStrategy {
  buy_conditions : list condition;
  sell_conditions : list condition;
  initial_capital : Q;
  description : string
}.

(** The reason strings, by their template and the numbers they format. *)
Inductive reason : Type :=
| PriceDropped (drop_percent : xnum)
| PriceIsBelow (current_price price : Q)
| RsiIsBelow (current_rsi : xnum) (value : Q)
| PriceRose (gain_percent : xnum)
| PriceIsAbove (current_price price : Q)
| RsiIsAbove (current_rsi : xnum) (value : Q).

(** ** check_buy_conditions and check_sell_conditions *)

(** One iteration of the loop over [strategy['buy_conditions']]: [Some]
    reason when the condition returns from the function. *)
Definition eval_buy (df : frame) (index : nat) (current_price : Q)
    (rolling_window : nat) (c : condition) : result (option reason) :=
  match c with
  | Dip percent =>
      recent_high <-
        iloc_last (rolling rolling_window Qmaximum (loc_upto df index)) ;;
      let recent_high := of_option recent_high in
      let drop_percent :=
        xmul (xdiv (xsub recent_high (Fin current_price)) recent_high)
             (Fin 100) in
      Ok (if xgeb drop_percent (Fin percent)
          then Some (PriceDropped drop_percent) else None)
  | PriceBelow price =>
      Ok (if Qltb current_price price
          then Some (PriceIsBelow current_price price) else None)
  | RsiBelow value =>
      current_rsi <- iloc_last (calculate_rsi (loc_upto df index) 14) ;;
      Ok (if xltb current_rsi (Fin value)
          then Some (RsiIsBelow current_rsi value) else None)
  | _ => Ok None
  end.

Fixpoint scan_buy (df : frame) (index : nat) (current_price : Q)
    (rolling_window : nat) (conds : list condition)
    : result (bool * option reason) :=
  match conds with
  | [] => Ok (false, None)
  | c :: rest =>
      fired <- eval_buy df index current_price rolling_window c ;;
      match fired with
      | Some why => Ok (true, Some why)
      | None => scan_buy df index current_price rolling_window rest
      end
  end.

Definition check_buy_conditions (df : frame) (index : nat)
    (strategy : StrategySpec) (rolling_window : nat)
    : result (bool * option reason) :=
  current_price <- loc_close df index ;;
  scan_buy df index current_price rolling_window (buy_conditions strategy).

Definition eval_sell (df : frame) (index : nat) (current_price entry_price : Q)
    (c : condition) : result (option reason) :=
  match c with
  | Rise percent =>
      let gain_percent :=
        xmul (xdiv (Fin (current_price - entry_price)) (Fin entry_price))
             (Fin 100) in
      Ok (if xgeb gain_percent (Fin percent)
          then Some (PriceRose gain_percent) else None)
  | PriceAbove price =>
      Ok (if Qgtb current_price price
          then Some (PriceIsAbove current_price price) else None)
  | RsiAbove value =>
      current_rsi <- iloc_last (calculate_rsi (loc_upto df index) 14) ;;
      Ok (if xgtb current_rsi (Fin value)
          then Some (RsiIsAbove current_rsi value) else None)
  | _ => Ok None
  end.

Fixpoint scan_sell (df : frame) (index : nat) (current_price entry_price : Q)
    (conds : list condition) : result (bool * option reason) :=
  match conds with
  | [] => Ok (false, None)
  | c :: rest =>
      fired <- eval_sell df index current_price entry_price c ;;
      match fired with
      | Some why => Ok (true, Some why)
      | None => scan_sell df index current_price entry_price rest
      end
  end.

Definition check_sell_conditions (df : frame) (index : nat)
    (strategy : StrategySpec) (entry_price : Q)
    : result (bool * option reason) :=
  current_price <- loc_close df index ;;
  scan_sell df index current_price entry_price (sell_conditions strategy).

(** ** backtest_strategy *)

Inductive trade_type : Type := BUY | SELL.

Record Trade : Type := mkTrade {
  trade_date : Z;
  trade_kind : trade_type;
  trade_price : Q;
  trade_shares : Z;
  trade_reason : option reason
}.

(** The local variables of [backtest_strategy]. *)
Record SimState : Type := mkState {
  cash : Q;
  shares : Z;
  portfolio_value : list Q;
  trades : list Trade;
  in_position : bool;
  entry_price : Q
}.

Definition initial_state (strategy : StrategySpec) : SimState :=
  {| cash := initial_capital strategy;
     shares := 0;
     portfolio_value := [];
     trades := [];
     in_position := false;
     entry_price := 0 |}.

(** The [if not in_position: ... else: ...] statement of the loop body. *)
Definition trade_step (df : frame) (strategy : StrategySpec) (i : nat)
    (row : bar) (st : SimState) : result SimState :=
  let current_price := close row in
  if negb (in_position st) then
    check <- check_buy_conditions df i strategy 20 ;;
    if fst check then
      new_shares <- py_int (xdiv (Fin (cash st)) (Fin current_price)) ;;
      Ok {| cash := cash st - inject_Z new_shares * current_price;
            shares := new_shares;
            portfolio_value := portfolio_value st;
            trades := trades st ++
              [mkTrade (date row) BUY current_price new_shares (snd check)];
            in_position := true;
            entry_price := current_price |}
    else Ok st
  else
    check <- check_sell_conditions df i strategy (entry_price st) ;;
    if fst check then
      Ok {| cash := cash st + inject_Z (shares st) * current_price;
            shares := 0;
            portfolio_value := portfolio_value st;
            trades := trades st ++
              [mkTrade (date row) SELL current_price (shares st) (snd check)];
            in_position := false;
            entry_price := entry_price st |}
    else Ok st.

(** [portfolio_value.append(cash + (shares * current_price))] *)
Definition append_value (row : bar) (st : SimState) : SimState :=
  {| cash := cash st;
     shares := shares st;
     portfolio_value :=
       portfolio_value st ++ [cash st + inject_Z (shares st) * close row];
     trades := trades st;
     in_position := in_position st;
     entry_price := entry_price st |}.

(** The whole loop body: the trade decision, then the append to
    [portfolio_value]. *)
Definition bar_step (df : frame) (strategy : StrategySpec) (i : nat)
    (row : bar) (st : SimState) : result SimState :=
  st' <- trade_step df strategy i row st ;;
  Ok (append_value row st').

(** [for i, (date, row) in enumerate(df.iterrows())], from position [i]
    over the remaining [rows]. *)
Fixpoint loop (df : frame) (strategy : StrategySpec) (i : nat)
    (rows : list bar) (st : SimState) : result SimState :=
  match rows with
  | [] => Ok st
  | row :: rest =>
      st' <- bar_step df strategy i row st ;;
      loop df strategy (S i) rest st'
  end.

Definition total_return_of (final_value capital : Q) : xnum :=
  xmul (xdiv (Fin (final_value - capital)) (Fin capital)) (Fin 100).

Definition backtest_strategy (df : frame) (strategy : StrategySpec)
    : result (list Q * list Trade * Q * xnum) :=
  st <- loop df strategy 0 df (initial_state strategy) ;;
  final_value <- iloc_last (portfolio_value st) ;;
  let total_return :=
    total_return_of final_value (initial_capital strategy) in
  Ok (portfolio_value st, trades st, final_value, total_return).

(** The state after the whole loop, and after its first [n] iterations. *)
Definition run (df : frame) (strategy : StrategySpec) : result SimState :=
  loop df strategy 0 df (initial_state strategy).

Definition run_upto (df : frame) (strategy : StrategySpec) (n : nat)
    : result SimState :=
  loop df strategy 0 (firstn n df) (initial_state strategy).

(** ** Text: [str.lower], [in], [str.find], [str.split] on ASCII text *)

Definition text : Type := list ascii.

Definition is_digit (c : ascii) : bool :=
  let n := nat_of_ascii c in Nat.leb 48 n && Nat.leb n 57.

(** [str.isspace] below code point 128. *)
Definition is_space (c : ascii) : bool :=
  let n := nat_of_ascii c in
  (Nat.leb 9 n && Nat.leb n 13) || (Nat.leb 28 n && Nat.leb n 32).

Definition lower_char (c : ascii) : ascii :=
  let n := nat_of_ascii c in
  if Nat.leb 65 n && Nat.leb n 90 then ascii_of_nat (n + 32) else c.

Definition lower (s : text) : text := map lower_char s.

(** The rest of [s] after the prefix [p], when [s] starts with [p]. *)
Fixpoint strip_prefix (p s : text) : option text :=
  match p, s with
  | [], _ => Some s
  | a :: p', b :: s' => if Ascii.eqb a b then strip_prefix p' s' else None
  | _ :: _, [] => None
  end.

Fixpoint find_from (needle hay : text) (i : Z) : Z :=
  match strip_prefix needle hay with
  | Some _ => i
  | None =>
      match hay with
      | [] => (-1)%Z
      | _ :: rest => find_from needle rest (i + 1)%Z
      end
  end.

(** [hay.find(needle)]: the first index, or -1. *)
Definition find (needle : string) (hay : text) : Z :=
  find_from (list_ascii_of_string needle) hay 0%Z.

(** [needle in hay] *)
Definition contains (needle : string) (hay : text) : bool :=
  Z.leb 0 (find needle hay).

(** [hay.split(sep)[0]] *)
Definition split_head (sep : string) (hay : text) : text :=
  let i := find sep hay in
  if Z.ltb i 0 then hay else firstn (Z.to_nat i) hay.

(** ** Regular expressions: the fragment of [re] that the parser uses *)

Module Re.

Inductive cls : Type :=
| Digit                       (* \d *)
| Space                       (* \s *)
| AnyChar                     (* .  : anything but a newline *)
| OneOf (chars : list ascii). (* [...] *)

Definition cls_match (k : cls) (c : ascii) : bool :=
  match k with
  | Digit => is_digit c
  | Space => is_space c
  | AnyChar => negb (Ascii.eqb c "010"%char)
  | OneOf chars => existsb (Ascii.eqb c) chars
  end.

(** Quantifiers are greedy and, in every pattern of the parser, apply to a
    single character class or (for [?]) to a sub-pattern. *)
Inductive re : Type :=
| Lit (s : text)
| Class (k : cls)
| Seq (r1 r2 : re)
| Alt (r1 r2 : re)
| Star (k : cls)
| Plus (k : cls)
| Opt (r : re)
| Group (n : nat) (r : re).

(** The groups that took part in a match, latest first. *)
Definition captures : Type := list (nat * text).

Definition consumed (s rest : text) : text :=
  firstn (length s - length rest) s.

Section Backtracking.

Variable R : Type.

(** Greedy [k*]: take one more character first, give it back on failure. *)
Fixpoint star (k : cls) (s : text) (cont : text -> option R) : option R :=
  match s with
  | c :: s' =>
      if cls_match k c then
        match star k s' cont with
        | Some r => Some r
        | None => cont s
        end
      else cont s
  | [] => cont []
  end.

(** Match [r] at the head of [s], then hand the rest and the groups to the
    continuation; [None] makes the matcher backtrack. *)
Fixpoint match_here (r : re) (s : text) (g : captures)
    (cont : text -> captures -> option R) : option R :=
  match r with
  | Lit l =>
      match strip_prefix l s with
      | Some rest => cont rest g
      | None => None
      end
  | Class k =>
      match s with
      | c :: rest => if cls_match k c then cont rest g else None
      | [] => None
      end
  | Seq r1 r2 => match_here r1 s g (fun rest g' => match_here r2 rest g' cont)
  | Alt r1 r2 =>
      match match_here r1 s g cont with
      | Some x => Some x
      | None => match_here r2 s g cont
      end
  | Star k => star k s (fun rest => cont rest g)
  | Plus k =>
      match s with
      | c :: s' =>
          if cls_match k c then star k s' (fun rest => cont rest g) else None
      | [] => None
      end
  | Opt r1 =>
      match match_here r1 s g cont with
      | Some x => Some x
      | None => cont s g
      end
  | Group n r1 =>
      match_here r1 s g (fun rest g' => cont rest ((n, consumed s rest) :: g'))
  end.

End Backtracking.

Definition match_at (r : re) (s : text) : option captures :=
  match_here r s [] (fun _ g => Some g).

(** [re.search(r, s)]: the match at the leftmost position that has one. *)
Fixpoint search (r : re) (s : text) : option captures :=
  match match_at r s with
  | Some g => Some g
  | None =>
      match s with
      | [] => None
      | _ :: rest => search r rest
      end
  end.

(** [match.group(n)]: [None] when the group took no part in the match. *)
Fixpoint group (n : nat) (g : captures) : option text :=
  match g with
  | [] => None
  | (k, t) :: rest => if Nat.eqb k n then Some t else group n rest
  end.

Definition lit (s : string) : re := Lit (list_ascii_of_string s).

(** The pattern [\d+ \.? \d*] (patterns are shown with blanks between
    their tokens). *)
Definition number : re :=
  Seq (Plus Digit) (Seq (Opt (Class (OneOf ["."%char]))) (Star Digit)).

(** [( \d+ \.? \d* ) \s* [%]  |  ( \d+ \.? \d* ) \s* percent] *)
Definition percent_re : re :=
  Alt (Seq (Group 1 number) (Seq (Star Space) (Class (OneOf ["%"%char]))))
      (Seq (Group 2 number) (Seq (Star Space) (lit "percent"))).

(** [rsi .* below \s* ( \d+ )] *)
Definition rsi_below_re : re :=
  Seq (lit "rsi") (Seq (Star AnyChar) (Seq (lit "below")
    (Seq (Star Space) (Group 1 (Plus Digit))))).

(** [below \s* [\$\\\$]? ( \d+ \.? \d* )] *)
Definition price_below_re : re :=
  Seq (lit "below") (Seq (Star Space)
    (Seq (Opt (Class (OneOf ["$"%char; "\"%char; "$"%char])))
         (Group 1 number))).

(** [rsi .* above \s* ( \d+ )] *)
Definition rsi_above_re : re :=
  Seq (lit "rsi") (Seq (Star AnyChar) (Seq (lit "above")
    (Seq (Star Space) (Group 1 (Plus Digit))))).

(** [above \s* [\$\\\$]? ( \d+ \.? \d* )] *)
Definition price_above_re : re :=
  Seq (lit "above") (Seq (Star Space)
    (Seq (Opt (Class (OneOf ["$"%char; "\"%char; "$"%char])))
         (Group 1 number))).

(** [\$? ( \d+ \.? \d* ) \s*
     (?: initial | starting | capital | money | with | invest )] *)
Definition capital_re : re :=
  Seq (Opt (Class (OneOf ["$"%char])))
    (Seq (Group 1 number) (Seq (Star Space)
      (Alt (lit "initial") (Alt (lit "starting") (Alt (lit "capital")
        (Alt (lit "money") (Alt (lit "with") (lit "invest")))))))).

(** The declarative reading of a pattern: [matches r t g] when [r] matches
    exactly the text [t] and binds the groups [g] on the way (latest
    first). *)
Inductive matches : re -> text -> captures -> Prop :=
| MLit l : matches (Lit l) l []
| MClass k c : cls_match k c = true -> matches (Class k) [c] []
| MSeq r1 r2 a b g1 g2 :
    matches r1 a g1 -> matches r2 b g2 -> matches (Seq r1 r2) (a ++ b) (g2 ++ g1)
| MAltL r1 r2 a g : matches r1 a g -> matches (Alt r1 r2) a g
| MAltR r1 r2 a g : matches r2 a g -> matches (Alt r1 r2) a g
| MStar k a : forallb (cls_match k) a = true -> matches (Star k) a []
| MPlus k c a :
    cls_match k c = true -> forallb (cls_match k) a = true ->
    matches (Plus k) (c :: a) []
| MOptNone r : matches (Opt r) [] []
| MOptSome r a g : matches r a g -> matches (Opt r) a g
| MGroup n r a g : matches r a g -> matches (Group n r) a ((n, a) :: g).


End Re.

(** ** [float] on the text of a group *)

Definition digit_value (c : ascii) : Z := Z.of_nat (nat_of_ascii c - 48).

(** The number written by a run of decimal digits. *)
Definition digits_value (ds : text) : Z :=
  fold_left (fun acc c => (10 * acc + digit_value c)%Z) ds 0%Z.

Fixpoint span_digits (s : text) : text * text :=
  match s with
  | c :: rest =>
      if is_digit c then
        let (ds, tl) := span_digits rest in (c :: ds, tl)
      else ([], s)
  | [] => ([], [])
  end.

(** [float(t)] for [t] a decimal literal: digits, optionally a point and
    more digits, at least one digit in all.  The other literals that
    Python accepts (sign, exponent, blanks, underscores, inf, nan) are
    outside this model and reported as a [ValueError]; [float(None)] is a
    [TypeError]. *)
Definition float_of_text (t : text) : result Q :=
  let (ip, rest) := span_digits t in
  match rest with
  | [] =>
      match ip with
      | [] => Raise ValueError
      | _ => Ok (inject_Z (digits_value ip))
      end
  | c :: fp =>
      if Ascii.eqb c "."%char then
        let (fd, tl) := span_digits fp in
        match tl, ip ++ fd with
        | [], _ :: _ =>
            Ok (Qred (inject_Z (digits_value ip) +
                      inject_Z (digits_value fd) /
                        inject_Z (10 ^ Z.of_nat (length fd))))
        | _, _ => Raise ValueError
        end
      else Raise ValueError
  end.

Definition float (t : option text) : result Q :=
  match t with
  | Some t => float_of_text t
  | None => Raise TypeError
  end.

(** [a or b] on two groups: [None] and the empty string are falsy. *)
Definition group_or (a b : option text) : option text :=
  match a with
  | Some (_ :: _) => a
  | _ => b
  end.

(** ** parse_strategy *)

Definition extract_percentage (t : text) : result (option Q) :=
  match Re.search Re.percent_re t with
  | Some m =>
      x <- float (group_or (Re.group 1 m) (Re.group 2 m)) ;;
      Ok (Some x)
  | None => Ok None
  end.

(** [if percent:] is false for [None] and for zero. *)
Definition truthy (x : option Q) : bool :=
  match x with
  | Some q => negb (Qeqb0 q)
  | None => false
  end.

(** The six [if] blocks of [parse_strategy], each as the list of
    conditions that it appends. *)
Definition dip_rule (t : text) : result (list condition) :=
  if contains "dip" t || contains "drop" t || contains "fall" t
     || contains "decline" t
  then
    dip_percent <- extract_percentage t ;;
    Ok (match dip_percent with
        | Some p => if truthy dip_percent then [Dip p] else []
        | None => []
        end)
  else Ok [].

Definition rsi_below_rule (t : text) : result (list condition) :=
  if contains "rsi" t && contains "below" t then
    let rsi_index := find "rsi" (lower t) in
    let below_index := find "below" (lower t) in
    if Z.ltb rsi_index below_index then
      match Re.search Re.rsi_below_re t with
      | Some m => rsi_value <- float (Re.group 1 m) ;; Ok [RsiBelow rsi_value]
      | None => Ok []
      end
    else Ok []
  else Ok [].

Definition price_below_rule (t : text) : result (list condition) :=
  if contains "below" t
     && (negb (contains "rsi" t)
         || Z.gtb (find "rsi" (lower t)) (find "below" (lower t)))
  then
    match Re.search Re.price_below_re t with
    | Some m => price <- float (Re.group 1 m) ;; Ok [PriceBelow price]
    | None => Ok []
    end
  else Ok [].

Definition rise_rule (t : text) : result (list condition) :=
  if contains "rise" t || contains "gain" t || contains "increase" t
     || contains "profit" t
  then
    rise_percent <- extract_percentage t ;;
    Ok (match rise_percent with
        | Some p => if truthy rise_percent then [Rise p] else []
        | None => []
        end)
  else Ok [].

Definition rsi_above_rule (t : text) : result (list condition) :=
  if contains "rsi" t && contains "above" t then
    match Re.search Re.rsi_above_re t with
    | Some m => rsi_value <- float (Re.group 1 m) ;; Ok [RsiAbove rsi_value]
    | None => Ok []
    end
  else Ok [].

Definition price_above_rule (t : text) : result (list condition) :=
  if contains "above" t
     && negb (contains "rsi" (split_head "above" (lower t)))
  then
    match Re.search Re.price_above_re t with
    | Some m => price <- float (Re.group 1 m) ;; Ok [PriceAbove price]
    | None => Ok []
    end
  else Ok [].

Definition capital_rule (t : text) : result Q :=
  match Re.search Re.capital_re t with
  | Some m => float (Re.group 1 m)
  | None => Ok 10000
  end.

Definition parse_strategy (strategy_text : string) : result StrategySpec :=
  let t := lower (list_ascii_of_string strategy_text) in
  dip <- dip_rule t ;;
  rsi_below <- rsi_below_rule t ;;
  price_below <- price_below_rule t ;;
  rise <- rise_rule t ;;
  rsi_above <- rsi_above_rule t ;;
  price_above <- price_above_rule t ;;
  capital <- capital_rule t ;;
  Ok {| buy_conditions := dip ++ rsi_below ++ price_below;
        sell_conditions := rise ++ rsi_above ++ price_above;
        initial_capital := capital;
        description := strategy_text |}.

(** ** The theory checks of [FinancialTheoryTester] *)

(** The values of a result dictionary. *)
Inductive pyval : Type :=
| PNum (x : xnum)
| PStr (s : string)
| PBool (b : bool)
| PNone.

Definition dict : Type := list (string * pyval).

(** [key in d] *)
Definition has_key (key : string) (d : dict) : bool :=
  existsb (fun kv => String.eqb (fst kv) key) d.

(** [d[key]] *)
Fixpoint lookup (key : string) (d : dict) : option pyval :=
  match d with
  | [] => None
  | (k, v) :: rest => if String.eqb k key then Some v else lookup key rest
  end.

(** [round(q, n)]: to the nearest multiple of [10^-n], ties to even. *)
Definition round_ndigits (q : Q) (n : nat) : Q :=
  let scale := inject_Z (10 ^ Z.of_nat n) in
  let y := q * scale in
  let f := Qfloor y in
  let r := y - inject_Z f in
  let up :=
    if Qltb (1 # 2) r then true
    else if Qltb r (1 # 2) then false
    else Z.odd f in
  Qred (inject_Z (if up then f + 1 else f) / scale).

Definition xround (x : xnum) (n : nat) : xnum :=
  match x with
  | Fin q => Fin (round_ndigits q n)
  | _ => x
  end.

(** The sample variance of a window ([ddof = 1]); [rolling(..).std()] is
    its square root. *)
Definition sample_var (l : list Q) : Q :=
  let m := Qmean l in
  Qsum (map (fun x => (x - m) * (x - m)) l) /
    inject_Z (Z.of_nat (length l) - 1).

(** [z > k] and [z < -k] for [k >= 0], where
    [z = (price - mean) / sqrt(var)].  The square root is not computed:
    the comparison is made on the squares, with the sign of [price - mean].
    A zero variance makes [z] the NaN [0 / 0], which compares false, as
    does a missing mean or variance. *)
Definition z_above (price : Q) (mean var : option Q) (k : Q) : bool :=
  match mean, var with
  | Some m, Some v =>
      Qpos v && Qpos (price - m) &&
      Qltb (k * k * v) ((price - m) * (price - m))
  | _, _ => false
  end.

Definition z_below (price : Q) (mean var : option Q) (k : Q) : bool :=
  match mean, var with
  | Some m, Some v =>
      Qpos v && Qneg (price - m) &&
      Qltb (k * k * v) ((price - m) * (price - m))
  | _, _ => false
  end.

(** [prices.pct_change(lag).shift(-lag)]: at position [i] the change from
    bar [i] to bar [i + lag], missing for the last [lag] bars. *)
Definition future_change (prices : list Q) (lag i : nat) : xnum :=
  match nth_error prices i, nth_error prices (i + lag) with
  | Some p, Some p' => xsub (xdiv (Fin p') (Fin p)) (Fin 1)
  | _, _ => NaN
  end.

(** [s[mask]] *)
Fixpoint select {A : Type} (s : list A) (mask : list bool) : list A :=
  match s, mask with
  | x :: s', b :: mask' =>
      if b then x :: select s' mask' else select s' mask'
  | _, _ => []
  end.

(** [s.mean()]: missing entries are skipped; no entry left gives NaN. *)
Definition nanmean (s : list xnum) : xnum :=
  let vals := filter (fun x => negb (is_nan x)) s in
  match vals with
  | [] => NaN
  | _ =>
      xdiv (fold_right xadd (Fin 0) vals)
           (Fin (inject_Z (Z.of_nat (length vals))))
  end.

(** [mask.any()] *)
Definition any (mask : list bool) : bool := existsb (fun b => b) mask.

Definition closes (df : frame) : list Q := map close df.

Definition no_data : dict := [("error"%string, PStr "No data available")].

Definition z_extremes (prices : list Q) : list bool * list bool :=
  let rolling_mean := rolling 20 Qmean prices in
  let rolling_var := rolling 20 sample_var prices in
  let cells := combine prices (combine rolling_mean rolling_var) in
  (map (fun c => z_above (fst c) (fst (snd c)) (snd (snd c)) 2) cells,
   map (fun c => z_below (fst c) (fst (snd c)) (snd (snd c)) 2) cells).

Definition test_mean_reversion (data : option frame) : dict :=
  match data with
  | None => no_data
  | Some df =>
      let prices := closes df in
      let extreme_high := fst (z_extremes prices) in
      let extreme_low := snd (z_extremes prices) in
      let future_returns :=
        map (future_change prices 5) (seq 0 (length prices)) in
      let reversion_high :=
        if any extreme_high then nanmean (select future_returns extreme_high)
        else Fin 0 in
      let reversion_low :=
        if any extreme_low then nanmean (select future_returns extreme_low)
        else Fin 0 in
      let shows_reversion :=
        xltb reversion_high (Fin 0) && xgtb reversion_low (Fin 0) in
      [("theory"%string, PStr "Mean Reversion");
       ("reversion_after_high"%string, PNum (xround reversion_high 4));
       ("reversion_after_low"%string, PNum (xround reversion_low 4));
       ("shows_reversion"%string, PBool shows_reversion);
       ("interpretation"%string,
        PStr (if shows_reversion then "Stock shows mean reversion"
              else "No clear mean reversion"));
       ("makes_sense"%string, PBool shows_reversion)]
  end.

(** [self.info]: the two fundamentals that the value check reads. *)
Record Info : Type := mkInfo {
  forwardPE : option Q;
  priceToBook : option Q
}.

(** [round(x, 2) if x else None] *)
Definition rounded_or_none (x : option Q) : pyval :=
  match x with
  | Some q => if truthy x then PNum (Fin (round_ndigits q 2)) else PNone
  | None => PNone
  end.

Definition iloc_first {A : Type} (s : list A) : result A :=
  match s with
  | x :: _ => Ok x
  | [] => Raise IndexError
  end.

Definition test_value_investing (data : option frame) (info : Info)
    : result dict :=
  let pe_ratio := forwardPE info in
  let pb_ratio := priceToBook info in
  match pe_ratio with
  | None => Ok [("error"%string, PStr "P/E ratio not available")]
  | Some pe =>
      let is_value_stock := Qltb pe 15 in
      value_works <-
        match data with
        | Some df =>
            if Nat.ltb 252 (length df) then
              last_close <- iloc_last (closes df) ;;
              first_close <- iloc_first (closes df) ;;
              let annual_return :=
                xsub (xdiv (Fin last_close) (Fin first_close)) (Fin 1) in
              Ok (is_value_stock && xgtb annual_return (Fin (1 # 10)))
            else Ok is_value_stock
        | None => Ok is_value_stock
        end ;;
      Ok [("theory"%string, PStr "Value Investing");
          ("pe_ratio"%string, rounded_or_none pe_ratio);
          ("pb_ratio"%string, rounded_or_none pb_ratio);
          ("is_value_stock"%string, PBool is_value_stock);
          ("interpretation"%string,
           PStr (if is_value_stock then "Stock appears undervalued"
                 else "Stock appears overvalued"));
          ("makes_sense"%string, PBool value_works)]
  end.

(** [float(s.iloc[-1])] under [try ... except (IndexError, KeyError): pass],
    keeping [default] when the series is empty. *)
Definition last_or {A : Type} (default : A) (s : list A) : A :=
  match iloc_last s with
  | Ok x => x
  | Raise _ => default
  end.

Definition _get_technical_interpretation
    (golden_cross price_above_mas oversold overbought : bool) : string :=
  if oversold then "Oversold - potential buy signal"
  else if overbought then "Overbought - potential sell signal"
  else if golden_cross && price_above_mas then "Bullish trend - golden cross"
  else if negb golden_cross && negb price_above_mas
  then "Bearish trend - below MAs"
  else "Neutral technical position".

(** The RSI lines of [test_technical_analysis]. *)
Definition technical_rsi (prices : list Q) : list xnum :=
  let delta := diff prices in
  let gain := rolling 14 Qmean (map where_pos delta) in
  let loss := rolling 14 Qmean (map neg_where_neg delta) in
  map (fun gl =>
         let rs := xdiv (of_option (fst gl)) (of_option (snd gl)) in
         xsub (Fin 100) (xdiv (Fin 100) (xadd (Fin 1) rs)))
      (combine gain loss).

Definition test_technical_analysis (data : option frame) : result dict :=
  match data with
  | None => Ok no_data
  | Some df =>
      let prices := closes df in
      let sma_50_series := map of_option (rolling 50 Qmean prices) in
      let sma_200_series := map of_option (rolling 200 Qmean prices) in
      let sma_50 := last_or (Fin 0) sma_50_series in
      let sma_200 := last_or (Fin 0) sma_200_series in
      current_price <- iloc_last prices ;;
      let golden_cross := xgtb sma_50 sma_200 in
      let price_above_mas :=
        xgtb (Fin current_price) sma_50 && xgtb (Fin current_price) sma_200 in
      let current_rsi := last_or (Fin 50) (technical_rsi prices) in
      let oversold := xltb current_rsi (Fin 30) in
      let overbought := xgtb current_rsi (Fin 70) in
      Ok [("theory"%string, PStr "Technical Analysis");
          ("current_price"%string, PNum (Fin (round_ndigits current_price 2)));
          ("sma_50"%string, PNum (xround sma_50 2));
          ("sma_200"%string, PNum (xround sma_200 2));
          ("golden_cross"%string, PBool golden_cross);
          ("price_above_mas"%string, PBool price_above_mas);
          ("rsi"%string, PNum (xround current_rsi 2));
          ("oversold"%string, PBool oversold);
          ("overbought"%string, PBool overbought);
          ("interpretation"%string,
           PStr (_get_technical_interpretation
                   golden_cross price_above_mas oversold overbought));
          ("makes_sense"%string, PBool (price_above_mas && negb overbought))]
  end.

Section AllTests.

(** The two correlation checks are parameters: Pearson correlation is
    outside the number model.  [fetch_data] is the fetched frame and
    fundamentals, or [None] when nothing could be fetched. *)
Variable test_efficient_market_hypothesis : option frame -> result dict.
Variable test_momentum_theory : option frame -> result dict.

Definition run_all_tests (fetch_data : option (frame * Info))
    : result (list dict) :=
  match fetch_data with
  | None => Ok []
  | Some (df, info) =>
      let data := Some df in
      emh <- test_efficient_market_hypothesis data ;;
      momentum <- test_momentum_theory data ;;
      let reversion := test_mean_reversion data in
      value <- test_value_investing data info ;;
      technical <- test_technical_analysis data ;;
      let tests := [emh; momentum; reversion; value; technical] in
      Ok (filter (fun t => negb (has_key "error" t)) tests)
  end.

End AllTests.

(** ** Invariant of the trade log *)


(** ** Well-formed strategies *)

Definition is_buy_kind (c : condition) : bool :=
  match c with
  | Dip _ | PriceBelow _ | RsiBelow _ => true
  | _ => false
  end.

Definition is_sell_kind (c : condition) : bool :=
  match c with
  | Rise _ | PriceAbove _ | RsiAbove _ => true
  | _ => false
  end.


(** [p] is the number of the first percentage literal of [t]: the percent
    pattern matches at position [k] of [t] and at no earlier position, and
    [p] is the float of the group that matched there. *)
Definition first_percentage (t : text) (p : Q) : Prop :=
  exists m k,
    Re.search Re.percent_re t = Some m /\
    Re.match_at Re.percent_re (skipn k t) = Some m /\
    (forall j, (j < k)%nat -> Re.match_at Re.percent_re (skipn j t) = None) /\
    float (group_or (Re.group 1 m) (Re.group 2 m)) = Ok p.


(** * Further parts of the code

    The chart and [main] of [strategy_backtester.py], [print_results] of
    [financial_theory_tester.py], and the indicators, the signals and the
    technical panel of [financial_theory_visualizer.py], with the
    vocabulary that their properties use. *)

(** ** plot_backtest_results: the trades that it marks *)

Definition is_buy (t : Trade) : bool :=
  match trade_kind t with BUY => true | SELL => false end.

(** [[t for t in trades if t['type'] == 'BUY']] and its SELL twin. *)
Definition buy_trades (log : list Trade) : list Trade := filter is_buy log.

Definition sell_trades (log : list Trade) : list Trade :=
  filter (fun t => negb (is_buy t)) log.

(** ** Vocabulary for the trade log *)

(** A log of closed round trips: each BUY is followed by the SELL of the
    same number of shares. *)
Inductive round_trips : list Trade -> Prop :=
| RT_nil : round_trips []
| RT_snoc log b s :
    round_trips log ->
    trade_kind b = BUY -> trade_kind s = SELL ->
    trade_shares s = trade_shares b ->
    round_trips (log ++ [b; s]).

(** The log of a state: closed round trips, and while a position is open
    the BUY that opened it, which holds the shares and the entry price of
    the state. *)
Definition log_shape (st : SimState) : Prop :=
  if in_position st then
    exists log b,
      trades st = log ++ [b] /\ round_trips log /\
      trade_kind b = BUY /\
      trade_shares b = shares st /\ trade_price b = entry_price st
  else round_trips (trades st) /\ shares st = 0%Z.

(** The cash that a trade moves: out at a BUY, in at a SELL. *)
Definition trade_cash_flow (t : Trade) : Q :=
  match trade_kind t with
  | BUY => - (inject_Z (trade_shares t) * trade_price t)
  | SELL => inject_Z (trade_shares t) * trade_price t
  end.

Definition cash_flow (log : list Trade) : Q := Qsum (map trade_cash_flow log).

(** ** Kinds of conditions *)

Definition is_price_below (c : condition) : bool :=
  match c with PriceBelow _ => true | _ => false end.

(** The number of a condition has the sign that the patterns allow: a
    percentage is positive, a price or an RSI level is not negative. *)
Definition number_in_range (c : condition) : Prop :=
  match c with
  | Dip p | Rise p => 0 < p
  | PriceBelow p | PriceAbove p => 0 <= p
  | RsiBelow v | RsiAbove v => 0 <= v
  end.

(** ** [plot_backtest_results] and [main] of [strategy_backtester.py] *)



(** What the saved chart shows: the BUY and the SELL markers of the upper
    panel as (date, price) pairs, the text box of the lower panel with its
    colour, and the name of the file. *)
Record Chart : Type := mkChart {
  buy_markers : list (Z * Q);
  sell_markers : list (Z * Q);
  shown_final_value : Q;
  shown_total_return : xnum;
  box_color : string;
  filename : string
}.

(** [ax.plot(x, y)]: matplotlib raises [ValueError] when [x] and [y] do
    not have the same length. *)
Definition ax_plot {A B : Type} (x : list A) (y : list B) : result unit :=
  if Nat.eqb (length x) (length y) then Ok tt else Raise ValueError.

(** The drawing calls are kept for what they can raise and for what they
    are given; [portfolio_value[-1]] raises [IndexError] on the empty
    list.  The values are numpy floats, as [backtest_strategy] produces
    them, so the division of the return does not raise. *)
Definition plot_backtest_results (df : frame) (values : list Q)
    (log : list Trade) (ticker : string) (strategy : StrategySpec)
    : result Chart :=
  price_line <- ax_plot df (closes df) ;;
  let buys := buy_trades log in
  let sells := sell_trades log in
  value_line <- ax_plot df values ;;
  final_value <- iloc_last values ;;
  let total_return :=
    xmul (xdiv (Fin (final_value - initial_capital strategy))
               (Fin (initial_capital strategy))) (Fin 100) in
  let color : string :=
    if xgeb total_return (Fin 0) then "green"%string else "red"%string in
  Ok {| buy_markers := map (fun t => (trade_date t, trade_price t)) buys;
        sell_markers := map (fun t => (trade_date t, trade_price t)) sells;
        shown_final_value := final_value;
        shown_total_return := total_return;
        box_color := color;
        filename := (ticker ++ "_strategy_backtest.png")%string |}.


Section Main.

(** [get_stock_data] reads the network; it catches every exception and
    returns a frame or [None]. *)
Variable get_stock_data : string -> option frame.


End Main.

(** ** The indicators and the signals of [FinancialTheoryVisualizer] *)

Module Visualizer.

(** [s.shift(1)]: every entry moves one row down, the first is missing. *)
Definition shift1 (s : list xnum) : list xnum :=
  match s with
  | [] => []
  | _ :: _ => NaN :: removelast s
  end.

(** An operator applied row by row to two columns of the frame. *)
Fixpoint zip_with {A B C : Type} (f : A -> B -> C)
    (a : list A) (b : list B) : list C :=
  match a, b with
  | x :: a', y :: b' => f x y :: zip_with f a' b'
  | _, _ => []
  end.

(** The columns of [self.data] that the signals and the technical panel
    read.  [Z_Score] keeps the price, the rolling mean and the rolling
    variance of each row: the comparisons of the score with 2 and -2 are
    made on these, as in [z_above] and [z_below]. *)
Record Indicators : Type := mkIndicators {
  Close : list Q;
  SMA_50 : list xnum;
  SMA_200 : list xnum;
  RSI : list xnum;
  Z_Score : list (Q * (option Q * option Q))
}.

(** [calculate_indicators] on a fetched frame. *)
Definition calculate_indicators (df : frame) : Indicators :=
  let prices := closes df in
  let delta := diff prices in
  let gain := rolling 14 Qmean (map where_pos delta) in
  let loss := rolling 14 Qmean (map neg_where_neg delta) in
  let rolling_mean := rolling 20 Qmean prices in
  let rolling_var := rolling 20 sample_var prices in
  {| Close := prices;
     SMA_50 := map of_option (rolling 50 Qmean prices);
     SMA_200 := map of_option (rolling 200 Qmean prices);
     RSI :=
       map (fun gl =>
              let rs := xdiv (of_option (fst gl)) (of_option (snd gl)) in
              xsub (Fin 100) (xdiv (Fin 100) (xadd (Fin 1) rs)))
           (combine gain loss);
     Z_Score := combine prices (combine rolling_mean rolling_var) |}.

(** The [if ... elif ...] chain of the loop of
    [generate_buy_sell_signals]: the values assigned to [Signal] and
    [Signal_Reason] at one row, or the initial ['HOLD'] and [''] when no
    branch is taken. *)
Definition signal_row
    (golden_cross death_cross oversold overbought extreme_low extreme_high
       : bool) : string * string :=
  (if golden_cross then ("BUY", "Golden Cross")
   else if death_cross then ("SELL", "Death Cross")
   else if oversold then ("BUY", "RSI Oversold")
   else if overbought then ("SELL", "RSI Overbought")
   else if extreme_low then ("BUY", "Mean Reversion (Low)")
   else if extreme_high then ("SELL", "Mean Reversion (High)")
   else ("HOLD", ""))%string.

(** The crossing masks. *)
Definition golden_cross_mask (data : Indicators) : list bool :=
  zip_with andb
    (zip_with xgtb (SMA_50 data) (SMA_200 data))
    (zip_with xleb (shift1 (SMA_50 data)) (shift1 (SMA_200 data))).

Definition death_cross_mask (data : Indicators) : list bool :=
  zip_with andb
    (zip_with xltb (SMA_50 data) (SMA_200 data))
    (zip_with xgeb (shift1 (SMA_50 data)) (shift1 (SMA_200 data))).

(** [generate_buy_sell_signals]: the [Signal] and [Signal_Reason] columns
    after the loop, the assignments through [.iloc[i]] writing into the
    frame.  The two momentum masks are computed by the source and not
    read. *)
Definition generate_buy_sell_signals (data : Indicators)
    : list (string * string) :=
  let golden_cross := golden_cross_mask data in
  let death_cross := death_cross_mask data in
  let oversold := map (fun r => xltb r (Fin 30)) (RSI data) in
  let overbought := map (fun r => xgtb r (Fin 70)) (RSI data) in
  let extreme_high :=
    map (fun c => z_above (fst c) (fst (snd c)) (snd (snd c)) 2)
        (Z_Score data) in
  let extreme_low :=
    map (fun c => z_below (fst c) (fst (snd c)) (snd (snd c)) 2)
        (Z_Score data) in
  map (fun i =>
         signal_row (nth i golden_cross false) (nth i death_cross false)
                    (nth i oversold false) (nth i overbought false)
                    (nth i extreme_low false) (nth i extreme_high false))
      (seq 0 (length (Close data))).

(** The signals of a frame: [calculate_indicators], then
    [generate_buy_sell_signals], as [generate_all_visualizations] calls
    them. *)
Definition signals (df : frame) : list (string * string) :=
  generate_buy_sell_signals (calculate_indicators df).

(** The visualizer's own [_get_technical_interpretation]. *)
Definition _get_technical_interpretation
    (golden_cross price_above_mas oversold overbought : bool) : string :=
  if oversold then "Oversold - potential buy signal"
  else if overbought then "Overbought - potential sell signal"
  else if golden_cross && price_above_mas then "Bullish trend - golden cross"
  else if negb golden_cross && negb price_above_mas
  then "Bearish trend - below MAs"
  else "Neutral technical position".

(** The technical panel of [plot_theory_summary], taken on its own (the
    panels drawn before it are not modelled): the four flags, the
    interpretation and the verdict.  [.iloc[-1]] raises [IndexError] on an
    empty column. *)
Definition technical_panel (data : Indicators)
    : result (bool * bool * bool * bool * string * bool) :=
  current_price <- iloc_last (Close data) ;;
  sma_50 <- iloc_last (SMA_50 data) ;;
  sma_200 <- iloc_last (SMA_200 data) ;;
  current_rsi <- iloc_last (RSI data) ;;
  let golden_cross := xgtb sma_50 sma_200 in
  let price_above_mas :=
    xgtb (Fin current_price) sma_50 && xgtb (Fin current_price) sma_200 in
  let oversold := xltb current_rsi (Fin 30) in
  let overbought := xgtb current_rsi (Fin 70) in
  let tech_makes_sense := price_above_mas && negb overbought in
  Ok (golden_cross, price_above_mas, oversold, overbought,
      _get_technical_interpretation
        golden_cross price_above_mas oversold overbought,
      tech_makes_sense).

End Visualizer.

(** ** [print_results] of [FinancialTheoryTester] *)

(** [d[key]] with its [KeyError]. *)
Definition getitem (key : string) (d : dict) : result pyval :=
  match lookup key d with
  | Some v => Ok v
  | None => Raise KeyError
  end.

(** The truth value of a Python object, as [if] tests it. *)
Definition bool_of (v : pyval) : bool :=
  match v with
  | PBool b => b
  | PNum (Fin q) => negb (Qeqb0 q)
  | PNum _ => true
  | PStr s => negb (String.eqb s "")
  | PNone => false
  end.

(** What is printed: for each test its theory, its interpretation and
    whether it makes sense, then the two numbers of the summary line. *)
Record Report : Type := mkReport {
  printed_tests : list (pyval * pyval * bool);
  makes_sense_count : nat;
  total_tests : nat
}.

(** [for test in tests: print(...)] *)
Fixpoint print_tests (tests : list dict)
    : result (list (pyval * pyval * bool)) :=
  match tests with
  | [] => Ok []
  | test :: rest =>
      theory <- getitem "theory" test ;;
      interpretation <- getitem "interpretation" test ;;
      makes_sense <- getitem "makes_sense" test ;;
      printed <- print_tests rest ;;
      Ok ((theory, interpretation, bool_of makes_sense) :: printed)
  end.

(** [sum(1 for t in tests if t['makes_sense'])] *)
Fixpoint count_makes_sense (tests : list dict) : result nat :=
  match tests with
  | [] => Ok 0%nat
  | t :: rest =>
      makes_sense <- getitem "makes_sense" t ;;
      n <- count_makes_sense rest ;;
      Ok (if bool_of makes_sense then S n else n)
  end.

Section PrintResults.

Variable test_efficient_market_hypothesis : option frame -> result dict.
Variable test_momentum_theory : option frame -> result dict.

(** [None] stands for the line "No tests could be run". *)
Definition print_results (fetch_data : option (frame * Info))
    : result (option Report) :=
  tests <- run_all_tests test_efficient_market_hypothesis
             test_momentum_theory fetch_data ;;
  match tests with
  | [] => Ok None
  | _ :: _ =>
      printed <- print_tests tests ;;
      count <- count_makes_sense tests ;;
      Ok (Some (mkReport printed count (length tests)))
  end.

End PrintResults.

(** A result that [print_results] can print: it holds a theory, an
    interpretation and a boolean verdict. *)
Definition printable (d : dict) : Prop :=
  exists theory interpretation makes_sense,
    lookup "theory" d = Some theory /\
    lookup "interpretation" d = Some interpretation /\
    lookup "makes_sense" d = Some (PBool makes_sense).

(** A check whose results are error dictionaries or printable, as the
    two correlation checks build them. *)
Definition reports_or_errors (check : option frame -> result dict) : Prop :=
  forall data d,
    check data = Ok d -> has_key "error" d = true \/ printable d.
(** * Properties *)

Ltac inv H := inversion H; subst; clear H.

(** ** The exception monad *)

Lemma bind_Ok {A B : Type} (m : result A) (f : A -> result B) (b : B) :
  bind m f = Ok b -> exists a, m = Ok a /\ f a = Ok b.
Proof.
  destruct m as [a|e]; simpl; intros H; [exists a; auto | discriminate].
Qed.

Lemma iloc_last_snoc {A : Type} (l : list A) (x : A) :
  iloc_last (l ++ [x]) = Ok x.
Proof. unfold iloc_last. rewrite rev_app_distr. reflexivity. Qed.

Lemma iloc_last_nonempty {A : Type} (l : list A) :
  l <> [] -> exists x, iloc_last l = Ok x.
Proof.
  intros H. destruct (exists_last H) as [l' [x ->]].
  exists x. apply iloc_last_snoc.
Qed.

(** ** Numbers *)

Lemma inject_Z_nonneg (z : Z) : (0 <= z)%Z -> 0 <= inject_Z z.
Proof. intros H. unfold Qle. simpl. lia. Qed.

(** ** Lists *)

Lemma in_firstn {A : Type} (n : nat) (l : list A) (x : A) :
  In x (firstn n l) -> In x l.
Proof.
  intros H. rewrite <- (firstn_skipn n l). apply in_or_app. now left.
Qed.

Lemma in_skipn {A : Type} (n : nat) (l : list A) (x : A) :
  In x (skipn n l) -> In x l.
Proof.
  intros H. rewrite <- (firstn_skipn n l). apply in_or_app. now right.
Qed.

(** ** Series lengths *)

Lemma rolling_length (w : nat) (agg : list Q -> Q) (s : list Q) :
  length (rolling w agg s) = length s.
Proof. unfold rolling. rewrite length_map, length_seq. reflexivity. Qed.

Lemma diff_from_length (s : list Q) : forall prev,
  length (diff_from prev s) = length s.
Proof. induction s as [|x tl IH]; intros prev; simpl; auto. Qed.

Lemma diff_length (s : list Q) : length (diff s) = length s.
Proof. destruct s; simpl; auto using diff_from_length. Qed.

Lemma calculate_rsi_length (prices : list Q) (period : nat) :
  length (calculate_rsi prices period) = length prices.
Proof.
  unfold calculate_rsi.
  rewrite length_map, length_combine, !rolling_length, !length_map, diff_length.
  apply Nat.min_id.
Qed.

Lemma loc_upto_length (df : frame) (index : nat) :
  (index < length df)%nat -> length (loc_upto df index) = S index.
Proof.
  intros H. unfold loc_upto. rewrite length_map, length_firstn. lia.
Qed.


(** ** Condition evaluation never raises inside the frame *)





Lemma loc_close_nth (df : frame) (i : nat) (row : bar) :
  nth_error df i = Some row -> loc_close df i = Ok (close row).
Proof. unfold loc_close. now intros ->. Qed.

Lemma nth_error_lt {A : Type} (l : list A) (i : nat) (x : A) :
  nth_error l i = Some x -> (i < length l)%nat.
Proof. intros H. apply nth_error_Some. congruence. Qed.



(** ** The loop *)

Lemma bind_ret {A : Type} (m : result A) : bind m (fun a => Ok a) = m.
Proof. destruct m; reflexivity. Qed.

Lemma bind_assoc {A B C : Type} (m : result A) (f : A -> result B)
    (g : B -> result C) :
  bind (bind m f) g = bind m (fun a => bind (f a) g).
Proof. destruct m; reflexivity. Qed.

Lemma loop_app (df : frame) (s : StrategySpec) (a b : list bar) :
  forall i st,
    loop df s i (a ++ b) st =
    (st' <- loop df s i a st ;; loop df s (i + length a) b st').
Proof.
  induction a as [|row a IH]; intros i st; simpl.
  - now rewrite Nat.add_0_r.
  - rewrite bind_assoc. destruct (bar_step df s i row st) as [st1|e]; simpl; auto.
    rewrite IH. now rewrite Nat.add_succ_r.
Qed.

Lemma trade_step_value (df : frame) s i row st st' :
  trade_step df s i row st = Ok st' ->
  portfolio_value st' = portfolio_value st.
Proof.
  unfold trade_step. intros H.
  destruct (in_position st); simpl in H.
  - apply bind_Ok in H as [chk [_ H]].
    destruct (fst chk); inversion H; reflexivity.
  - apply bind_Ok in H as [chk [_ H]].
    destruct (fst chk).
    + apply bind_Ok in H as [n [_ H]]. inversion H; reflexivity.
    + inversion H; reflexivity.
Qed.

Lemma bar_step_value (df : frame) s i row st st' :
  bar_step df s i row st = Ok st' ->
  portfolio_value st' =
    portfolio_value st ++ [cash st' + inject_Z (shares st') * close row].
Proof.
  unfold bar_step. intros H. apply bind_Ok in H as [mid [Hm H]].
  inversion H; subst; clear H. simpl.
  now rewrite (trade_step_value _ _ _ _ _ Hm).
Qed.

Lemma loop_value (df : frame) s rows :
  forall i st st',
    loop df s i rows st = Ok st' ->
    exists ext,
      portfolio_value st' = portfolio_value st ++ ext /\
      length ext = length rows.
Proof.
  induction rows as [|row rest IH]; intros i st st' H; simpl in H.
  - inversion H; subst. exists []. now rewrite app_nil_r.
  - apply bind_Ok in H as [st1 [H1 H]].
    apply IH in H as [ext [E L]].
    rewrite (bar_step_value _ _ _ _ _ H1) in E.
    rewrite <- app_assoc in E. eexists; split; [exact E|]. simpl. now rewrite L.
Qed.




Lemma nth_error_middle {A : Type} (pre : list A) (x : A) (post : list A) :
  nth_error (pre ++ x :: post) (length pre) = Some x.
Proof. induction pre; simpl; auto. Qed.



(** ** No look-ahead *)

Lemma loc_close_prefix (df : frame) (n i : nat) :
  (i < n)%nat -> loc_close (firstn n df) i = loc_close df i.
Proof.
  intros H. unfold loc_close. rewrite nth_error_firstn.
  destruct (Nat.ltb_spec i n); [reflexivity | lia].
Qed.

Lemma loc_upto_prefix (df : frame) (n i : nat) :
  (i < n)%nat -> loc_upto (firstn n df) i = loc_upto df i.
Proof.
  intros H. unfold loc_upto. rewrite firstn_firstn.
  now replace (Nat.min (S i) n) with (S i) by lia.
Qed.

Lemma eval_buy_prefix (df : frame) (n i : nat) p w c :
  (i < n)%nat -> eval_buy (firstn n df) i p w c = eval_buy df i p w c.
Proof. intros H. destruct c; simpl; now rewrite ?loc_upto_prefix. Qed.

Lemma eval_sell_prefix (df : frame) (n i : nat) p e c :
  (i < n)%nat -> eval_sell (firstn n df) i p e c = eval_sell df i p e c.
Proof. intros H. destruct c; simpl; now rewrite ?loc_upto_prefix. Qed.

Lemma check_buy_prefix (df : frame) (n i : nat) s w :
  (i < n)%nat ->
  check_buy_conditions (firstn n df) i s w = check_buy_conditions df i s w.
Proof.
  intros H. unfold check_buy_conditions. rewrite loc_close_prefix by assumption.
  destruct (loc_close df i) as [p|e]; simpl; auto.
  induction (buy_conditions s) as [|c rest IH]; simpl; auto.
  rewrite eval_buy_prefix by assumption. now rewrite IH.
Qed.

Lemma check_sell_prefix (df : frame) (n i : nat) s e :
  (i < n)%nat ->
  check_sell_conditions (firstn n df) i s e = check_sell_conditions df i s e.
Proof.
  intros H. unfold check_sell_conditions. rewrite loc_close_prefix by assumption.
  destruct (loc_close df i) as [p|x]; simpl; auto.
  induction (sell_conditions s) as [|c rest IH]; simpl; auto.
  rewrite eval_sell_prefix by assumption. now rewrite IH.
Qed.

Lemma bar_step_prefix (df : frame) (n i : nat) s row st :
  (i < n)%nat -> bar_step (firstn n df) s i row st = bar_step df s i row st.
Proof.
  intros H. unfold bar_step, trade_step.
  now rewrite check_buy_prefix, check_sell_prefix by assumption.
Qed.

Lemma loop_prefix (df : frame) (n : nat) s rows :
  forall i st,
    (i + length rows <= n)%nat ->
    loop (firstn n df) s i rows st = loop df s i rows st.
Proof.
  induction rows as [|row rest IH]; intros i st H; simpl in *; auto.
  rewrite bar_step_prefix by lia.
  destruct (bar_step df s i row st); simpl; auto. apply IH. lia.
Qed.

Lemma run_prefix (df : frame) (n : nat) s :
  run (firstn n df) s = run_upto df s n.
Proof.
  unfold run, run_upto. apply loop_prefix. simpl. rewrite length_firstn. lia.
Qed.

Lemma run_split (df : frame) (n : nat) s :
  run df s = (st <- run_upto df s n ;; loop df s n (skipn n df) st).
Proof.
  unfold run, run_upto.
  rewrite <- (firstn_skipn n df) at 2.
  rewrite loop_app. simpl.
  destruct (Nat.le_gt_cases n (length df)) as [L|L].
  - rewrite length_firstn. now replace (Nat.min n (length df)) with n by lia.
  - rewrite skipn_all2 by lia. simpl.
    destruct (loop df s 0 (firstn n df) (initial_state s)); reflexivity.
Qed.

(** ** Values recorded bar by bar *)

Lemma firstn_S_nth_error {A : Type} (l : list A) :
  forall i x, nth_error l i = Some x -> firstn (S i) l = firstn i l ++ [x].
Proof.
  induction l as [|a l IH]; intros [|i] x H; simpl in *; try discriminate.
  - now inversion H.
  - f_equal. now apply IH.
Qed.

Lemma run_upto_S (df : frame) s i row :
  nth_error df i = Some row ->
  run_upto df s (S i) = (st <- run_upto df s i ;; bar_step df s i row st).
Proof.
  intros H. unfold run_upto. rewrite (firstn_S_nth_error _ _ H), loop_app.
  simpl. rewrite length_firstn.
  replace (Nat.min i (length df)) with i
    by (apply nth_error_lt in H; lia).
  destruct (loop df s 0 (firstn i df) (initial_state s)) as [st|e]; simpl; auto.
  now rewrite bind_ret.
Qed.

Lemma run_upto_value (df : frame) s i row st :
  nth_error df i = Some row ->
  run_upto df s (S i) = Ok st ->
  exists prev,
    portfolio_value st =
      prev ++ [cash st + inject_Z (shares st) * close row] /\
    length prev = i.
Proof.
  intros Hi H. rewrite (run_upto_S _ _ _ Hi) in H.
  apply bind_Ok in H as [st0 [H0 H1]].
  exists (portfolio_value st0). split.
  - now apply bar_step_value in H1.
  - apply loop_value in H0 as [ext [E L]]. simpl in E.
    rewrite E, L, length_firstn. apply nth_error_lt in Hi. lia.
Qed.

Lemma run_upto_all (df : frame) s : run_upto df s (length df) = run df s.
Proof. unfold run_upto, run. now rewrite firstn_all. Qed.

Lemma nth_error_snoc {A : Type} (l : list A) (x : A) :
  nth_error (l ++ [x]) (length l) = Some x.
Proof. apply nth_error_middle. Qed.



(** ** C1: what [backtest_strategy] returns *)





(** ** C2: no look-ahead *)

(** C2.  For every price series, strategy and bar index [k]: running the
    simulator on the prefix that ends at bar [k] yields the state (cash,
    shares, in_position, entry_price, trade log, portfolio values, or the
    same exception) that the full run has after bar [k], the full run being
    that state continued over the remaining bars; and the buy and sell
    checks at bar [k] give the same answer on the prefix as on the whole
    series, so they read nothing after bar [k]; two series that share the
    bars up to [k] reach the same state at [k]. *)
Theorem prefix_run_agrees (df : frame) (s : StrategySpec) (k : nat) :
  run (firstn (S k) df) s = run_upto df s (S k) /\
  run df s =
    (st <- run_upto df s (S k) ;; loop df s (S k) (skipn (S k) df) st) /\
  (forall w,
     check_buy_conditions (firstn (S k) df) k s w =
     check_buy_conditions df k s w) /\
  (forall e,
     check_sell_conditions (firstn (S k) df) k s e =
     check_sell_conditions df k s e) /\
  (forall past bar future future',
     run_upto (past ++ bar :: future) s (S (length past)) =
     run_upto (past ++ bar :: future') s (S (length past))).
Proof.
  split; [apply run_prefix|].
  split; [apply run_split|].
  split; [intros w; apply check_buy_prefix; lia|].
  split; [intros e; apply check_sell_prefix; lia|].
  intros past bar future future'. rewrite <- !run_prefix. f_equal.
  rewrite !firstn_app, !firstn_all2 by lia.
  now replace (S (length past) - length past)%nat with 1%nat by lia.
Qed.

(** ** C3: one transition per bar, first firing condition wins *)

(** C3.  A bar changes the position at most once: the state after the
    trade decision is the state before it, or FLAT became LONG with one BUY
    appended, or LONG became FLAT with one SELL appended.  In FLAT the bar
    does not depend on the sell conditions, in LONG it does not depend on
    the buy conditions.  The buy and sell scans return the first condition
    in list order that fires, whatever follows it in the list. *)
Theorem one_transition_first_fire
    (df : frame) (s : StrategySpec) (i : nat) (row : bar) :
  (forall st st', bar_step df s i row st = Ok st' ->
     exists mid,
       trade_step df s i row st = Ok mid /\
       st' = append_value row mid /\
       (mid = st \/
        (in_position st = false /\ in_position mid = true /\
         exists t, trades mid = trades st ++ [t] /\ trade_kind t = BUY) \/
        (in_position st = true /\ in_position mid = false /\
         exists t, trades mid = trades st ++ [t] /\ trade_kind t = SELL))) /\
  (forall st s',
     in_position st = false ->
     buy_conditions s = buy_conditions s' ->
     bar_step df s i row st = bar_step df s' i row st) /\
  (forall st s',
     in_position st = true ->
     sell_conditions s = sell_conditions s' ->
     bar_step df s i row st = bar_step df s' i row st) /\
  (forall pre c post p w why,
     Forall (fun c' => eval_buy df i p w c' = Ok None) pre ->
     eval_buy df i p w c = Ok (Some why) ->
     scan_buy df i p w (pre ++ c :: post) = Ok (true, Some why)) /\
  (forall pre c post p e why,
     Forall (fun c' => eval_sell df i p e c' = Ok None) pre ->
     eval_sell df i p e c = Ok (Some why) ->
     scan_sell df i p e (pre ++ c :: post) = Ok (true, Some why)).
Proof.
  split.
  { intros st st' H. unfold bar_step in H. apply bind_Ok in H as [mid [Hm H]].
    inversion H; subst; clear H. exists mid. split; [exact Hm|].
    split; [reflexivity|].
    unfold trade_step in Hm. destruct (in_position st) eqn:P; cbn [negb] in Hm.
    - apply bind_Ok in Hm as [chk [_ Hm]]. destruct (fst chk).
      + inversion Hm; subst; clear Hm. right; right. simpl. eauto.
      + inversion Hm; subst. now left.
    - apply bind_Ok in Hm as [chk [_ Hm]]. destruct (fst chk).
      + apply bind_Ok in Hm as [n [_ Hm]]. inversion Hm; subst; clear Hm.
        right; left. simpl. eauto.
      + inversion Hm; subst. now left. }
  split.
  { intros st s' P E. unfold bar_step, trade_step, check_buy_conditions.
    now rewrite P, E. }
  split.
  { intros st s' P E. unfold bar_step, trade_step, check_sell_conditions.
    now rewrite P, E. }
  split.
  { intros pre c post p w why Hpre Hc.
    induction Hpre as [|c' pre' Hc' _ IH]; simpl.
    - now rewrite Hc.
    - now rewrite Hc'. }
  { intros pre c post p e why Hpre Hc.
    induction Hpre as [|c' pre' Hc' _ IH]; simpl.
    - now rewrite Hc.
    - now rewrite Hc'. }
Qed.

(** Bar 1 of a two-bar frame: the second buy condition is the first to
    fire; a flat state buys, an open position sells. *)
Lemma one_transition_first_fire_witness :
  let df := [mkBar 1 10; mkBar 2 11] in
  let s := mkStrategy [PriceBelow 5; PriceBelow 20; PriceBelow 30]
                      [PriceAbove 50; PriceAbove 1; PriceAbove 2] 10000 "" in
  let s' := mkStrategy [PriceBelow 5; PriceBelow 20; PriceBelow 30] [] 10000 "" in
  let s'' := mkStrategy [] [PriceAbove 50; PriceAbove 1; PriceAbove 2] 10000 "" in
  let flat := initial_state s in
  let long := mkState 0 1000 [10000] [mkTrade 1 BUY 10 1000 None] true 10 in
  (exists mid,
     trade_step df s 1 (mkBar 2 11) flat = Ok mid /\
     in_position flat = false /\ in_position mid = true /\
     exists t, trades mid = trades flat ++ [t] /\ trade_kind t = BUY) /\
  bar_step df s 1 (mkBar 2 11) flat = bar_step df s' 1 (mkBar 2 11) flat /\
  bar_step df s 1 (mkBar 2 11) long = bar_step df s'' 1 (mkBar 2 11) long /\
  scan_buy df 1 11 20 ([PriceBelow 5] ++ PriceBelow 20 :: [PriceBelow 30]) =
    Ok (true, Some (PriceIsBelow 11 20)) /\
  scan_sell df 1 11 10 ([PriceAbove 50] ++ PriceAbove 1 :: [PriceAbove 2]) =
    Ok (true, Some (PriceIsAbove 11 1)).
Proof.
  intros df s s' s'' flat long.
  destruct (one_transition_first_fire df s 1 (mkBar 2 11))
    as [Hone [Hflat [Hlong [Hbuy Hsell]]]].
  split.
  { destruct (Hone flat (append_value (mkBar 2 11)
        (mkState (10000 - inject_Z 909 * 11) 909 []
           [mkTrade 2 BUY 11 909 (Some (PriceIsBelow 11 20))] true 11)))
      as [mid [Hm [_ [E | [H | H]]]]].
    - vm_compute. reflexivity.
    - exfalso. rewrite E in Hm. vm_compute in Hm. discriminate.
    - exists mid. split; [exact Hm|]. exact H.
    - exfalso. destruct H as [H _]. discriminate. }
  split; [apply Hflat; reflexivity|].
  split; [apply Hlong; reflexivity|].
  split.
  - apply Hbuy; [repeat constructor | reflexivity].
  - apply Hsell; [repeat constructor | reflexivity].
Defined.

(** ** C5: the zero-share position *)









(** ** C6: the range of the RSI *)

Lemma Qeqb0_true (q : Q) : Qeqb0 q = true <-> q == 0.
Proof.
  unfold Qeqb0, Qeq. simpl. rewrite Z.eqb_eq. lia.
Qed.

Lemma Qeqb0_false (q : Q) : Qeqb0 q = false <-> ~ q == 0.
Proof.
  rewrite <- Qeqb0_true. destruct (Qeqb0 q); intuition congruence.
Qed.

Lemma Qpos_true (q : Q) : Qpos q = true <-> 0 < q.
Proof.
  unfold Qpos, Qlt. simpl. rewrite Z.ltb_lt. lia.
Qed.

Lemma Qneg_true (q : Q) : Qneg q = true <-> q < 0.
Proof.
  unfold Qneg, Qlt. simpl. rewrite Z.ltb_lt. lia.
Qed.

Lemma window_at_in {A : Type} (w i : nat) (s win : list A) (x : A) :
  window_at w i s = Some win -> In x win -> In x s.
Proof.
  unfold window_at. destruct (Nat.ltb (S i) w); [discriminate|].
  intros H. inv H. intros I. eapply in_skipn, in_firstn, I.
Qed.

Lemma window_at_map {A B : Type} (f : A -> B) (w i : nat) (s : list A) :
  window_at w i (map f s) = option_map (map f) (window_at w i s).
Proof.
  unfold window_at. destruct (Nat.ltb (S i) w); simpl; auto.
  now rewrite skipn_map, firstn_map.
Qed.

Lemma nth_error_rolling (w : nat) (agg : list Q -> Q) (s : list Q) (i : nat)
    (o : option Q) :
  nth_error (rolling w agg s) i = Some o ->
  (i < length s)%nat /\ o = option_map agg (window_at w i s).
Proof.
  unfold rolling. rewrite nth_error_map, nth_error_seq.
  destruct (Nat.ltb_spec i (length s)) as [L|L]; simpl; [|discriminate].
  intros H. inv H. auto.
Qed.

Lemma rolling_nth_error (w : nat) (agg : list Q -> Q) (s : list Q) (i : nat) :
  (i < length s)%nat ->
  nth_error (rolling w agg s) i = Some (option_map agg (window_at w i s)).
Proof.
  intros H. unfold rolling. rewrite nth_error_map, nth_error_seq.
  destruct (Nat.ltb_spec i (length s)); [reflexivity | lia].
Qed.

Lemma nth_error_combine {A B : Type} (l1 : list A) (l2 : list B) :
  forall i a b,
    nth_error (combine l1 l2) i = Some (a, b) <->
    nth_error l1 i = Some a /\ nth_error l2 i = Some b.
Proof.
  revert l2. induction l1 as [|x l1 IH]; intros [|y l2] [|i] a b; simpl;
    try (split; [discriminate | intros [? ?]; discriminate]).
  - split; [intros H; inv H; auto | intros [H1 H2]; inv H1; inv H2; auto].
  - apply IH.
Qed.

Lemma Qsum_nonneg (l : list Q) : Forall (fun x => 0 <= x) l -> 0 <= Qsum l.
Proof.
  induction 1 as [|x l Hx _ IH]; simpl; [apply Qle_refl|].
  change 0 with (0 + 0). now apply Qplus_le_compat.
Qed.

Lemma Qsum_zero (l : list Q) : Forall (fun x => x == 0) l -> Qsum l == 0.
Proof.
  induction 1 as [|x l Hx _ IH]; simpl; [reflexivity|].
  rewrite Hx, IH. reflexivity.
Qed.

Lemma Qsum_pos (l : list Q) :
  Forall (fun x => 0 <= x) l -> Exists (fun x => 0 < x) l -> 0 < Qsum l.
Proof.
  induction 1 as [|x l Hx Hl IH]; intros E; inv E; simpl.
  - pose proof (Qsum_nonneg Hl). lra.
  - specialize (IH H0). lra.
Qed.

Lemma Qmean_nonneg (l : list Q) : Forall (fun x => 0 <= x) l -> 0 <= Qmean l.
Proof.
  intros H. unfold Qmean, Qdiv. apply Qmult_le_0_compat.
  - now apply Qsum_nonneg.
  - apply Qinv_le_0_compat. unfold Qle. simpl. lia.
Qed.

Lemma Qmean_zero (l : list Q) : Forall (fun x => x == 0) l -> Qmean l == 0.
Proof.
  intros H. unfold Qmean, Qdiv. rewrite (Qsum_zero H). apply Qmult_0_l.
Qed.

Lemma Qmean_pos (l : list Q) :
  Forall (fun x => 0 <= x) l -> Exists (fun x => 0 < x) l -> 0 < Qmean l.
Proof.
  intros H E. unfold Qmean, Qdiv. apply Qmult_lt_0_compat.
  - now apply Qsum_pos.
  - apply Qinv_lt_0_compat. unfold Qlt. simpl.
    destruct l; [inv E | simpl; lia].
Qed.

Lemma where_pos_nonneg (d : option Q) : 0 <= where_pos d.
Proof.
  destruct d as [x|]; simpl; [|apply Qle_refl].
  destruct (Qpos x) eqn:E; [|apply Qle_refl].
  apply Qpos_true in E. lra.
Qed.

Lemma neg_where_neg_nonneg (d : option Q) : 0 <= neg_where_neg d.
Proof.
  destruct d as [x|]; simpl; [|apply Qle_refl].
  destruct (Qneg x) eqn:E; [|apply Qle_refl].
  apply Qneg_true in E. lra.
Qed.

(** The RSI of a non-negative average gain and average loss. *)
Lemma rsi_of_range (gain loss : option Q) :
  (forall g, gain = Some g -> 0 <= g) ->
  (forall l, loss = Some l -> 0 <= l) ->
  rsi_of gain loss = NaN \/
  exists q, rsi_of gain loss = Fin q /\ 0 <= q /\ q <= 100.
Proof.
  intros Hg Hl. destruct gain as [g|]; [|now left].
  destruct loss as [l|]; [|now left].
  specialize (Hg g eq_refl). specialize (Hl l eq_refl).
  unfold rsi_of. cbn [of_option xdiv].
  destruct (Qeqb0 l) eqn:El.
  - unfold inf_signed. destruct (Qeqb0 g) eqn:Eg; [now left|].
    apply Qeqb0_false in Eg.
    assert (P : Qpos g = true) by (apply Qpos_true; lra).
    rewrite P. cbn. right. eexists. split; [reflexivity|]. lra.
  - apply Qeqb0_false in El. assert (Lp : 0 < l) by lra.
    assert (R : 0 <= g / l) by (apply Qle_shift_div_l; lra).
    cbn [xadd xdiv].
    assert (N : Qeqb0 (1 + g / l) = false) by (apply Qeqb0_false; lra).
    rewrite N. cbn [xsub xopp xadd]. right. eexists. split; [reflexivity|].
    assert (Y0 : 0 <= 100 / (1 + g / l)) by (apply Qle_shift_div_l; lra).
    assert (Y1 : 100 / (1 + g / l) <= 100)
      by (apply Qle_shift_div_r; lra).
    lra.
Qed.

(** No average loss and a positive average gain saturate the RSI. *)
Lemma rsi_of_saturated (g l : Q) :
  l == 0 -> 0 < g -> rsi_of (Some g) (Some l) = Fin 100.
Proof.
  intros Hl Hg. unfold rsi_of. cbn [of_option xdiv]. unfold inf_signed.
  apply Qeqb0_true in Hl. rewrite Hl.
  assert (N : Qeqb0 g = false) by (apply Qeqb0_false; lra).
  assert (P : Qpos g = true) by (now apply Qpos_true).
  rewrite N, P. reflexivity.
Qed.

Lemma calculate_rsi_nth (prices : list Q) (period i : nat) (gain loss : option Q) :
  nth_error (rolling period Qmean (map where_pos (diff prices))) i = Some gain ->
  nth_error (rolling period Qmean (map neg_where_neg (diff prices))) i =
    Some loss ->
  nth_error (calculate_rsi prices period) i = Some (rsi_of gain loss).
Proof.
  intros Hg Hl. unfold calculate_rsi. rewrite nth_error_map.
  replace (nth_error (combine _ _) i) with (Some (gain, loss)); [reflexivity|].
  symmetry. now apply nth_error_combine.
Qed.

(** C6.  Wherever the RSI is defined (not NaN) it is a number of the closed
    interval [0, 100].  At an index where the average loss is zero and the
    average gain positive, as when the deltas of the trailing window hold
    no loss and at least one gain, the RSI is exactly 100.  The RSI lines of
    [test_technical_analysis] compute [calculate_rsi] at period 14. *)
Theorem rsi_bounded_and_saturates (prices : list Q) (period i : nat) :
  (forall x,
     nth_error (calculate_rsi prices period) i = Some x ->
     x = NaN \/ exists q, x = Fin q /\ 0 <= q /\ q <= 100) /\
  (forall g l,
     nth_error (rolling period Qmean (map where_pos (diff prices))) i =
       Some (Some g) ->
     nth_error (rolling period Qmean (map neg_where_neg (diff prices))) i =
       Some (Some l) ->
     l == 0 -> 0 < g ->
     nth_error (calculate_rsi prices period) i = Some (Fin 100)) /\
  (forall deltas,
     (i < length prices)%nat ->
     window_at period i (diff prices) = Some deltas ->
     Forall (fun d => match d with Some x => 0 <= x | None => True end)
            deltas ->
     Exists (fun d => match d with Some x => 0 < x | None => False end)
            deltas ->
     nth_error (calculate_rsi prices period) i = Some (Fin 100)) /\
  technical_rsi prices = calculate_rsi prices 14.
Proof.
  split; [|split; [|split; [|reflexivity]]].
  - intros x H. unfold calculate_rsi in H. rewrite nth_error_map in H.
    destruct (nth_error (combine _ _) i) as [[gain loss]|] eqn:E;
      [|discriminate].
    simpl in H. inv H.
    apply nth_error_combine in E as [Eg El].
    apply nth_error_rolling in Eg as [_ Eg], El as [_ El].
    apply rsi_of_range.
    + intros g Hg. rewrite Hg in Eg.
      destruct (window_at period i (map where_pos (diff prices)))
        as [win|] eqn:W; [|discriminate].
      simpl in Eg. inv Eg. apply Qmean_nonneg. apply Forall_forall.
      intros y Hy. eapply window_at_in in Hy; [|exact W].
      apply in_map_iff in Hy as [d [<- _]]. apply where_pos_nonneg.
    + intros l Hl. rewrite Hl in El.
      destruct (window_at period i (map neg_where_neg (diff prices)))
        as [win|] eqn:W; [|discriminate].
      simpl in El. inv El. apply Qmean_nonneg. apply Forall_forall.
      intros y Hy. eapply window_at_in in Hy; [|exact W].
      apply in_map_iff in Hy as [d [<- _]]. apply neg_where_neg_nonneg.
  - intros g l Hg Hl L0 G0.
    rewrite (calculate_rsi_nth _ _ _ Hg Hl). f_equal.
    now apply rsi_of_saturated.
  - intros deltas Hi W Hno Hsome.
    assert (Hg : nth_error (rolling period Qmean (map where_pos (diff prices))) i
                 = Some (Some (Qmean (map where_pos deltas)))).
    { rewrite rolling_nth_error by (now rewrite length_map, diff_length).
      now rewrite window_at_map, W. }
    assert (Hl : nth_error
                   (rolling period Qmean (map neg_where_neg (diff prices))) i
                 = Some (Some (Qmean (map neg_where_neg deltas)))).
    { rewrite rolling_nth_error by (now rewrite length_map, diff_length).
      now rewrite window_at_map, W. }
    rewrite (calculate_rsi_nth _ _ _ Hg Hl). f_equal.
    apply rsi_of_saturated.
    + apply Qmean_zero. apply Forall_forall. intros y Hy.
      apply in_map_iff in Hy as [d [<- Hd]].
      rewrite Forall_forall in Hno. specialize (Hno d Hd).
      destruct d as [x|]; simpl; [|reflexivity].
      destruct (Qneg x) eqn:E; [|reflexivity].
      apply Qneg_true in E. lra.
    + apply Qmean_pos.
      * apply Forall_forall. intros y Hy.
        apply in_map_iff in Hy as [d [<- _]]. apply where_pos_nonneg.
      * apply Exists_exists in Hsome as [d [Hd Hx]].
        apply Exists_exists. exists (where_pos d).
        split; [now apply in_map|].
        destruct d as [x|]; [|contradiction]. simpl.
        apply Qpos_true in Hx. rewrite Hx. now apply Qpos_true.
Qed.

(** Fifteen closes that rise by one each bar: the RSI is defined from
    index 13 on and is 100 there. *)
Lemma rsi_bounded_and_saturates_witness :
  let prices := [1; 2; 3; 4; 5; 6; 7; 8; 9; 10; 11; 12; 13; 14; 15] in
  nth_error (calculate_rsi prices 14) 14 = Some (Fin 100) /\
  (Fin 100 = NaN \/ exists q, Fin 100 = Fin q /\ 0 <= q /\ q <= 100).
Proof.
  intros prices.
  destruct (rsi_bounded_and_saturates prices 14 14)
    as [Hrange [_ [Hsat _]]].
  assert (H : nth_error (calculate_rsi prices 14) 14 = Some (Fin 100)).
  { apply (Hsat (repeat (Some 1) 14)).
    - simpl. lia.
    - reflexivity.
    - repeat constructor; discriminate.
    - constructor. reflexivity. }
  split; [exact H|]. exact (Hrange _ H).
Defined.

(** ** The pattern matcher is sound for the declarative reading *)

Lemma strip_prefix_app (p s rest : text) :
  strip_prefix p s = Some rest -> s = p ++ rest.
Proof.
  revert s. induction p as [|a p IH]; intros s H; simpl in *.
  - now inversion H.
  - destruct s as [|b s]; [discriminate|].
    destruct (Ascii.eqb_spec a b); [|discriminate].
    subst. f_equal. now apply IH.
Qed.

Lemma consumed_app (pre rest : text) : Re.consumed (pre ++ rest) rest = pre.
Proof.
  unfold Re.consumed. rewrite length_app.
  replace (length pre + length rest - length rest)%nat with (length pre) by lia.
  rewrite firstn_app, firstn_all, Nat.sub_diag. simpl. apply app_nil_r.
Qed.

Lemma star_sound (R : Type) (k : Re.cls) (s : text)
    (cont : text -> option R) (res : R) :
  Re.star k s cont = Some res ->
  exists pre rest,
    s = pre ++ rest /\ forallb (Re.cls_match k) pre = true /\
    cont rest = Some res.
Proof.
  induction s as [|c s IH]; simpl; intros H.
  - exists [], []. auto.
  - destruct (Re.cls_match k c) eqn:Hc.
    + destruct (Re.star k s cont) as [r|] eqn:Hs.
      * inversion H; subst. destruct (IH eq_refl) as [pre [rest [E [F C]]]].
        exists (c :: pre), rest. simpl. rewrite Hc, F, E. auto.
      * exists [], (c :: s). auto.
    + exists [], (c :: s). auto.
Qed.

Lemma match_here_sound (R : Type) (r : Re.re) :
  forall (s : text) (g : Re.captures)
         (cont : text -> Re.captures -> option R) (res : R),
    Re.match_here r s g cont = Some res ->
    exists pre rest new,
      s = pre ++ rest /\ Re.matches r pre new /\
      cont rest (new ++ g) = Some res.
Proof.
  induction r as [l|k|r1 IH1 r2 IH2|r1 IH1 r2 IH2|k|k|r1 IH1|n r1 IH1];
    intros s g cont res H; simpl in H.
  - destruct (strip_prefix l s) as [rest|] eqn:E; [|discriminate].
    exists l, rest, []. split; [now apply strip_prefix_app|].
    split; [constructor | exact H].
  - destruct s as [|c rest]; [discriminate|].
    destruct (Re.cls_match k c) eqn:Hc; [|discriminate].
    exists [c], rest, []. repeat split; auto. now constructor.
  - apply IH1 in H as [a [s1 [g1 [E1 [M1 H]]]]].
    apply IH2 in H as [b [s2 [g2 [E2 [M2 H]]]]].
    exists (a ++ b), s2, (g2 ++ g1). subst.
    rewrite <- !app_assoc. repeat split; auto. now constructor.
  - destruct (Re.match_here r1 s g cont) as [x|] eqn:E.
    + inversion H; subst. apply IH1 in E as [a [rest [new [Es [M C]]]]].
      exists a, rest, new. repeat split; auto. now apply Re.MAltL.
    + apply IH2 in H as [a [rest [new [Es [M C]]]]].
      exists a, rest, new. repeat split; auto. now apply Re.MAltR.
  - apply star_sound in H as [pre [rest [E [F C]]]].
    exists pre, rest, []. repeat split; auto. now constructor.
  - destruct s as [|c s']; [discriminate|].
    destruct (Re.cls_match k c) eqn:Hc; [|discriminate].
    apply star_sound in H as [pre [rest [E [F C]]]].
    exists (c :: pre), rest, []. subst. repeat split; auto. now constructor.
  - destruct (Re.match_here r1 s g cont) as [x|] eqn:E.
    + inversion H; subst. apply IH1 in E as [a [rest [new [Es [M C]]]]].
      exists a, rest, new. repeat split; auto. now apply Re.MOptSome.
    + exists [], s, []. repeat split; auto. constructor.
  - apply IH1 in H as [a [rest [new [Es [M C]]]]]. subst.
    rewrite consumed_app in C.
    exists a, rest, ((n, a) :: new). repeat split; auto. now constructor.
Qed.

Lemma match_at_sound (r : Re.re) (s : text) (g : Re.captures) :
  Re.match_at r s = Some g ->
  exists pre rest, s = pre ++ rest /\ Re.matches r pre g.
Proof.
  unfold Re.match_at. intros H.
  apply match_here_sound in H as [pre [rest [new [E [M C]]]]].
  rewrite app_nil_r in C. inversion C; subst. eauto.
Qed.

Lemma search_sound (r : Re.re) (s : text) (g : Re.captures) :
  Re.search r s = Some g ->
  exists skipped pre rest, s = skipped ++ pre ++ rest /\ Re.matches r pre g.
Proof.
  induction s as [|c s IH]; simpl; intros H.
  - destruct (Re.match_at r []) as [g'|] eqn:E; [|discriminate].
    inversion H; subst. apply match_at_sound in E as [pre [rest [E M]]].
    exists [], pre, rest. auto.
  - destruct (Re.match_at r (c :: s)) as [g'|] eqn:E.
    + inversion H; subst. apply match_at_sound in E as [pre [rest [E M]]].
      exists [], pre, rest. auto.
    + apply IH in H as [skipped [pre [rest [E' M]]]].
      exists (c :: skipped), pre, rest. subst. auto.
Qed.

(** [search] returns the match at the leftmost position that has one. *)
Lemma search_leftmost (r : Re.re) (s : text) (g : Re.captures) :
  Re.search r s = Some g ->
  exists k,
    (k <= length s)%nat /\
    Re.match_at r (skipn k s) = Some g /\
    forall j, (j < k)%nat -> Re.match_at r (skipn j s) = None.
Proof.
  induction s as [|c s IH]; simpl; intros H.
  - destruct (Re.match_at r []) as [g'|] eqn:E; [|discriminate].
    inversion H; subst. exists 0%nat.
    split; [simpl; lia|]. split; [exact E|]. intros j Hj. lia.
  - destruct (Re.match_at r (c :: s)) as [g'|] eqn:E.
    + inversion H; subst. exists 0%nat.
      split; [lia|]. split; [exact E|]. intros j Hj. lia.
    + apply IH in H as [k [L [M N]]]. exists (S k).
      split; [lia|]. split; [exact M|].
      intros [|j] Hj; simpl; [exact E|]. apply N. lia.
Qed.



(** ** [float] accepts what the groups capture *)

Lemma span_digits_app (a rest : text) :
  forallb is_digit a = true ->
  span_digits (a ++ rest) =
    (a ++ fst (span_digits rest), snd (span_digits rest)).
Proof.
  induction a as [|c a IH]; simpl; intros H.
  - now destruct (span_digits rest).
  - apply andb_true_iff in H as [Hc Ha]. rewrite Hc, (IH Ha). reflexivity.
Qed.

Lemma span_digits_all (a : text) :
  forallb is_digit a = true -> span_digits a = (a, []).
Proof.
  intros H. rewrite <- (app_nil_r a) at 1.
  rewrite span_digits_app by assumption. simpl. now rewrite app_nil_r.
Qed.

Lemma digits_value_nonneg (ds : text) : (0 <= digits_value ds)%Z.
Proof.
  unfold digits_value.
  assert (G : forall acc, (0 <= acc)%Z ->
    (0 <= fold_left (fun a c => (10 * a + digit_value c)%Z) ds acc)%Z).
  { induction ds as [|c ds IH]; cbn [fold_left]; intros acc Hacc; auto.
    apply IH. unfold digit_value. lia. }
  apply G. lia.
Qed.

Lemma float_of_digits (c : ascii) (a : text) :
  is_digit c = true -> forallb is_digit a = true ->
  exists q, float_of_text (c :: a) = Ok q /\ 0 <= q.
Proof.
  intros Hc Ha. unfold float_of_text.
  rewrite (@span_digits_all (c :: a)) by (simpl; now rewrite Hc, Ha).
  eexists. split; [reflexivity|].
  apply inject_Z_nonneg, digits_value_nonneg.
Qed.

Lemma one_of_dot (c : ascii) :
  Re.cls_match (Re.OneOf ["."%char]) c = true -> c = "."%char.
Proof.
  simpl. rewrite orb_false_r. intros H. now apply Ascii.eqb_eq in H.
Qed.

Lemma float_of_number (t : text) (g : Re.captures) :
  Re.matches Re.number t g ->
  g = [] /\ t <> [] /\ exists q, float_of_text t = Ok q /\ 0 <= q.
Proof.
  unfold Re.number. intros H.
  inversion H as [| |r1 r2 a b g1 g2 Hplus Hrest| | | | | | |]; subst; clear H.
  inversion Hplus as [| | | | | |k c a' Hc Ha| | |]; subst; clear Hplus.
  inversion Hrest as [| |r1 r2 o d g3 g4 Hopt Hstar| | | | | | |];
    subst; clear Hrest.
  inversion Hstar as [| | | | |k d' Hd| | | |]; subst; clear Hstar.
  change (Re.cls_match Re.Digit) with is_digit in *.
  inversion Hopt as [| | | | | | |r|r o' g' Hdot|]; subst; clear Hopt.
  - (* no point *)
    split; [reflexivity|]. split; [discriminate|].
    simpl app. apply float_of_digits; [assumption|].
    rewrite forallb_app. now rewrite Ha, Hd.
  - (* a point, then digits *)
    inversion Hdot as [|k ch Hch| | | | | | | |]; subst; clear Hdot.
    apply one_of_dot in Hch. subst.
    split; [reflexivity|]. split; [discriminate|].
    unfold float_of_text.
    rewrite (@span_digits_app (c :: a') (["."%char] ++ d))
      by (simpl; now rewrite Hc, Ha).
    change (span_digits (["."%char] ++ d)) with (@nil ascii, "."%char :: d).
    cbn [fst snd]. rewrite app_nil_r.
    change (Ascii.eqb "." ".") with true. cbv iota.
    rewrite (@span_digits_all d) by assumption.
    cbn [app].
    eexists. split; [reflexivity|].
    rewrite Qred_correct.
    apply Qle_trans with (inject_Z (digits_value (c :: a')) + 0).
    + rewrite Qplus_0_r. apply inject_Z_nonneg, digits_value_nonneg.
    + apply Qplus_le_r. apply Qle_shift_div_l.
      * unfold Qlt. simpl.
        pose proof (Z.pow_pos_nonneg 10 (Z.of_nat (length d))). lia.
      * rewrite Qmult_0_l. apply inject_Z_nonneg, digits_value_nonneg.
Qed.

(** ** The rules of [parse_strategy] never raise *)

Ltac inv_matches :=
  repeat match goal with
  | H : Re.matches Re.number _ _ |- _ =>
      apply float_of_number in H; destruct H as [? [? [? [? ?]]]]; subst
  | H : Re.matches (Re.Seq _ _) _ _ |- _ => inversion H; subst; clear H
  | H : Re.matches (Re.Group _ _) _ _ |- _ => inversion H; subst; clear H
  | H : Re.matches (Re.Lit _) _ _ |- _ => inversion H; subst; clear H
  | H : Re.matches (Re.Star _) _ _ |- _ => inversion H; subst; clear H
  | H : Re.matches (Re.Plus _) _ _ |- _ => inversion H; subst; clear H
  | H : Re.matches (Re.Class _) _ _ |- _ => inversion H; subst; clear H
  | H : Re.matches (Re.Opt _) _ _ |- _ => inversion H; subst; clear H
  | H : Re.matches (Re.Alt _ _) _ _ |- _ => inversion H; subst; clear H
  end.

Lemma group_or_nonempty (t : text) (b : option text) :
  t <> [] -> group_or (Some t) b = Some t.
Proof. destruct t; [congruence | reflexivity]. Qed.

Lemma percent_float (t : text) (m : Re.captures) :
  Re.search Re.percent_re t = Some m ->
  exists q, float (group_or (Re.group 1 m) (Re.group 2 m)) = Ok q /\ 0 <= q.
Proof.
  intros H. apply search_sound in H as [skipped [pre [rest [_ M]]]].
  unfold Re.percent_re, Re.lit in M. inv_matches; cbn [app Re.group Nat.eqb].
  - rewrite group_or_nonempty by assumption. simpl. eauto.
  - simpl. eauto.
Qed.

Lemma rsi_below_float (t : text) (m : Re.captures) :
  Re.search Re.rsi_below_re t = Some m ->
  exists q, float (Re.group 1 m) = Ok q /\ 0 <= q.
Proof.
  intros H. apply search_sound in H as [skipped [pre [rest [_ M]]]].
  unfold Re.rsi_below_re, Re.lit in M. inv_matches; simpl.
  now apply float_of_digits.
Qed.

Lemma rsi_above_float (t : text) (m : Re.captures) :
  Re.search Re.rsi_above_re t = Some m ->
  exists q, float (Re.group 1 m) = Ok q /\ 0 <= q.
Proof.
  intros H. apply search_sound in H as [skipped [pre [rest [_ M]]]].
  unfold Re.rsi_above_re, Re.lit in M. inv_matches; simpl.
  now apply float_of_digits.
Qed.

Lemma price_below_float (t : text) (m : Re.captures) :
  Re.search Re.price_below_re t = Some m ->
  exists q, float (Re.group 1 m) = Ok q /\ 0 <= q.
Proof.
  intros H. apply search_sound in H as [skipped [pre [rest [_ M]]]].
  unfold Re.price_below_re, Re.lit in M. inv_matches; simpl; eauto.
Qed.

Lemma price_above_float (t : text) (m : Re.captures) :
  Re.search Re.price_above_re t = Some m ->
  exists q, float (Re.group 1 m) = Ok q /\ 0 <= q.
Proof.
  intros H. apply search_sound in H as [skipped [pre [rest [_ M]]]].
  unfold Re.price_above_re, Re.lit in M. inv_matches; simpl; eauto.
Qed.

Lemma capital_float (t : text) (m : Re.captures) :
  Re.search Re.capital_re t = Some m ->
  exists q, float (Re.group 1 m) = Ok q /\ 0 <= q.
Proof.
  intros H. apply search_sound in H as [skipped [pre [rest [_ M]]]].
  unfold Re.capital_re, Re.lit in M. inv_matches; simpl; eauto.
Qed.

Lemma extract_percentage_ok (t : text) :
  exists o,
    extract_percentage t = Ok o /\
    (Re.search Re.percent_re t = None -> o = None).
Proof.
  unfold extract_percentage.
  destruct (Re.search Re.percent_re t) as [m|] eqn:E.
  - destruct (percent_float _ E) as [q [-> _]]. simpl.
    eexists. split; [reflexivity|]. discriminate.
  - eauto.
Qed.

Lemma dip_rule_ok (t : text) :
  exists l,
    dip_rule t = Ok l /\
    (Re.search Re.percent_re t = None -> l = []) /\
    (l = [] \/ exists p, l = [Dip p] /\ extract_percentage t = Ok (Some p)).
Proof.
  unfold dip_rule.
  destruct (contains "dip" t || contains "drop" t || contains "fall" t
            || contains "decline" t); [|eauto].
  destruct (extract_percentage_ok t) as [o [E N]]. rewrite E. cbn [bind].
  destruct o as [p|]; [|eauto].
  destruct (truthy (Some p)).
  - eexists. split; [reflexivity|]. split; eauto.
    intros H. apply N in H. discriminate.
  - eauto.
Qed.

Lemma rise_rule_ok (t : text) :
  exists l,
    rise_rule t = Ok l /\
    (Re.search Re.percent_re t = None -> l = []) /\
    (l = [] \/ exists p, l = [Rise p] /\ extract_percentage t = Ok (Some p)).
Proof.
  unfold rise_rule.
  destruct (contains "rise" t || contains "gain" t || contains "increase" t
            || contains "profit" t); [|eauto].
  destruct (extract_percentage_ok t) as [o [E N]]. rewrite E. cbn [bind].
  destruct o as [p|]; [|eauto].
  destruct (truthy (Some p)).
  - eexists. split; [reflexivity|]. split; eauto.
    intros H. apply N in H. discriminate.
  - eauto.
Qed.

Lemma rsi_below_rule_ok (t : text) :
  exists l,
    rsi_below_rule t = Ok l /\
    (Re.search Re.rsi_below_re t = None -> l = []) /\
    (l = [] \/ exists v, l = [RsiBelow v]).
Proof.
  unfold rsi_below_rule.
  destruct (contains "rsi" t && contains "below" t); [|eauto].
  destruct (Z.ltb _ _); [|eauto].
  destruct (Re.search Re.rsi_below_re t) as [m|] eqn:E; [|eauto].
  destruct (rsi_below_float _ E) as [q [-> _]]. cbn [bind].
  eexists. split; [reflexivity|]. split; [discriminate | eauto].
Qed.

Lemma price_below_rule_ok (t : text) :
  exists l,
    price_below_rule t = Ok l /\
    (Re.search Re.price_below_re t = None -> l = []) /\
    (l = [] \/ exists v, l = [PriceBelow v]).
Proof.
  unfold price_below_rule.
  destruct (contains "below" t && _); [|eauto].
  destruct (Re.search Re.price_below_re t) as [m|] eqn:E; [|eauto].
  destruct (price_below_float _ E) as [q [-> _]]. cbn [bind].
  eexists. split; [reflexivity|]. split; [discriminate | eauto].
Qed.

Lemma rsi_above_rule_ok (t : text) :
  exists l,
    rsi_above_rule t = Ok l /\
    (Re.search Re.rsi_above_re t = None -> l = []) /\
    (l = [] \/ exists v, l = [RsiAbove v]).
Proof.
  unfold rsi_above_rule.
  destruct (contains "rsi" t && contains "above" t); [|eauto].
  destruct (Re.search Re.rsi_above_re t) as [m|] eqn:E; [|eauto].
  destruct (rsi_above_float _ E) as [q [-> _]]. cbn [bind].
  eexists. split; [reflexivity|]. split; [discriminate | eauto].
Qed.

Lemma price_above_rule_ok (t : text) :
  exists l,
    price_above_rule t = Ok l /\
    (Re.search Re.price_above_re t = None -> l = []) /\
    (l = [] \/ exists v, l = [PriceAbove v]).
Proof.
  unfold price_above_rule.
  destruct (contains "above" t && _); [|eauto].
  destruct (Re.search Re.price_above_re t) as [m|] eqn:E; [|eauto].
  destruct (price_above_float _ E) as [q [-> _]]. cbn [bind].
  eexists. split; [reflexivity|]. split; [discriminate | eauto].
Qed.

Lemma capital_rule_ok (t : text) :
  exists q,
    capital_rule t = Ok q /\ 0 <= q /\
    (Re.search Re.capital_re t = None -> q = 10000).
Proof.
  unfold capital_rule.
  destruct (Re.search Re.capital_re t) as [m|] eqn:E.
  - destruct (capital_float _ E) as [q [-> Hq]].
    exists q. split; [reflexivity|]. split; [exact Hq | discriminate].
  - exists 10000. split; [reflexivity|]. split; [|reflexivity].
    unfold Qle. simpl. lia.
Qed.



(** ** C4: unparseable text and the never-entered portfolio *)




(** ** C7: the RSI example *)

(** C7.  On "Buy when RSI below 30, sell when RSI above 70, 5000 starting
    capital" the parser returns exactly one buy condition, [rsi_below(30)],
    exactly one sell condition, [rsi_above(70)], hence no price condition,
    and the capital 5000; the price rules add nothing on this text, and
    without the capital clause the capital is the default 10000. *)
Theorem parse_rsi_example :
  let strategy_text :=
    "Buy when RSI below 30, sell when RSI above 70, 5000 starting capital"%string in
  let t := lower (list_ascii_of_string strategy_text) in
  parse_strategy strategy_text =
    Ok (mkStrategy [RsiBelow 30] [RsiAbove 70] 5000 strategy_text) /\
  price_below_rule t = Ok [] /\
  price_above_rule t = Ok [] /\
  capital_rule t = Ok 5000 /\
  capital_rule
    (lower (list_ascii_of_string
              "Buy when RSI below 30, sell when RSI above 70")) = Ok 10000.
Proof. cbv zeta. repeat split; vm_compute; reflexivity. Qed.

(** ** C10: one percentage for the dip and the rise *)

Lemma extract_percentage_first (t : text) (p : Q) :
  extract_percentage t = Ok (Some p) -> first_percentage t p.
Proof.
  unfold extract_percentage, first_percentage. intros H.
  destruct (Re.search Re.percent_re t) as [m|] eqn:E; [|discriminate].
  destruct (search_leftmost _ _ E) as [k [_ [M N]]].
  exists m, k. repeat split; auto.
  destruct (float _) as [x|e]; simpl in H; [|discriminate].
  now inv H.
Qed.

(** C10.  The percentage of a dip buy condition and the percentage of a
    rise sell condition both are the number of the first percentage
    literal of the (lowercased) text, so when both conditions are
    extracted they carry the same percentage; "drops 5 percent ... rises
    10 percent" yields [dip(5)] and [rise(5)]. *)
Theorem dip_and_rise_share_percentage
    (strategy_text : string) (spec : StrategySpec) (p q : Q) :
  parse_strategy strategy_text = Ok spec ->
  let t := lower (list_ascii_of_string strategy_text) in
  (In (Dip p) (buy_conditions spec) ->
   extract_percentage t = Ok (Some p) /\ first_percentage t p) /\
  (In (Rise q) (sell_conditions spec) ->
   extract_percentage t = Ok (Some q) /\ first_percentage t q) /\
  (In (Dip p) (buy_conditions spec) ->
   In (Rise q) (sell_conditions spec) -> p = q) /\
  parse_strategy
    "Buy when price drops 5 percent, sell when it rises 10 percent" =
    Ok (mkStrategy [Dip 5] [Rise 5] 10000
          "Buy when price drops 5 percent, sell when it rises 10 percent").
Proof.
  intros H t.
  assert (Hdip : In (Dip p) (buy_conditions spec) ->
                 extract_percentage t = Ok (Some p)).
  { revert H. unfold parse_strategy. fold t.
    destruct (dip_rule_ok t) as [l1 [E1 [_ S1]]].
    destruct (rsi_below_rule_ok t) as [l2 [E2 [_ S2]]].
    destruct (price_below_rule_ok t) as [l3 [E3 [_ S3]]].
    destruct (rise_rule_ok t) as [l4 [E4 _]].
    destruct (rsi_above_rule_ok t) as [l5 [E5 _]].
    destruct (price_above_rule_ok t) as [l6 [E6 _]].
    destruct (capital_rule_ok t) as [c [E7 _]].
    rewrite E1, E2, E3, E4, E5, E6, E7. cbn [bind]. intros H. inv H.
    cbn [buy_conditions]. intros I.
    destruct S1 as [->|[x [-> Ex]]], S2 as [->|[? ->]], S3 as [->|[? ->]];
      simpl in I; intuition (try discriminate; try congruence). }
  assert (Hrise : In (Rise q) (sell_conditions spec) ->
                  extract_percentage t = Ok (Some q)).
  { revert H. unfold parse_strategy. fold t.
    destruct (dip_rule_ok t) as [l1 [E1 _]].
    destruct (rsi_below_rule_ok t) as [l2 [E2 _]].
    destruct (price_below_rule_ok t) as [l3 [E3 _]].
    destruct (rise_rule_ok t) as [l4 [E4 [_ S4]]].
    destruct (rsi_above_rule_ok t) as [l5 [E5 [_ S5]]].
    destruct (price_above_rule_ok t) as [l6 [E6 [_ S6]]].
    destruct (capital_rule_ok t) as [c [E7 _]].
    rewrite E1, E2, E3, E4, E5, E6, E7. cbn [bind]. intros H. inv H.
    cbn [sell_conditions]. intros I.
    destruct S4 as [->|[x [-> Ex]]], S5 as [->|[? ->]], S6 as [->|[? ->]];
      simpl in I; intuition (try discriminate; try congruence). }
  split; [intros I; split; [|apply extract_percentage_first]; auto|].
  split; [intros I; split; [|apply extract_percentage_first]; auto|].
  split; [|vm_compute; reflexivity].
  intros I J. apply Hdip in I. apply Hrise in J. congruence.
Qed.

(** The example text itself, with both percentages equal to 5. *)
Lemma dip_and_rise_share_percentage_witness :
  let strategy_text :=
    "Buy when price drops 5 percent, sell when it rises 10 percent"%string in
  let t := lower (list_ascii_of_string strategy_text) in
  parse_strategy strategy_text =
    Ok (mkStrategy [Dip 5] [Rise 5] 10000 strategy_text) /\
  first_percentage t 5 /\
  extract_percentage t = Ok (Some 5).
Proof.
  intros strategy_text t.
  assert (E : parse_strategy strategy_text =
              Ok (mkStrategy [Dip 5] [Rise 5] 10000 strategy_text))
    by (vm_compute; reflexivity).
  destruct (dip_and_rise_share_percentage strategy_text 5 5 E)
    as [Hdip _].
  destruct Hdip as [Hx Hf]; [simpl; auto|].
  split; [exact E|]. split; [exact Hf | exact Hx].
Defined.

(** ** C8: mean reversion with empty buckets *)

(** C8 (as amended).  When a bucket is empty (no bar with a 20-bar z-score
    above 2, or none below -2) [shows_reversion] is false: the 0 that
    stands for the empty bucket is neither negative nor positive.  When
    both buckets are empty the result reports the number 0 for each of
    them, with the interpretation "No clear mean reversion"; the code has
    no "insufficient samples" report. *)
Theorem mean_reversion_empty_buckets (df : frame) :
  let result := test_mean_reversion (Some df) in
  let extreme_high := fst (z_extremes (closes df)) in
  let extreme_low := snd (z_extremes (closes df)) in
  (any extreme_high = false \/ any extreme_low = false ->
   lookup "shows_reversion" result = Some (PBool false) /\
   lookup "makes_sense" result = Some (PBool false) /\
   lookup "interpretation" result = Some (PStr "No clear mean reversion")) /\
  (any extreme_high = false ->
   lookup "reversion_after_high" result = Some (PNum (Fin 0))) /\
  (any extreme_low = false ->
   lookup "reversion_after_low" result = Some (PNum (Fin 0))).
Proof.
  cbv zeta. unfold test_mean_reversion.
  cbn [lookup String.eqb Ascii.eqb Bool.eqb].
  split; [|split].
  - intros [H|H]; rewrite H.
    + cbn [xltb Qle_bool negb andb]. change (xltb (Fin 0) (Fin 0)) with false.
      cbn [andb]. auto.
    + change (xgtb (Fin 0) (Fin 0)) with false.
      rewrite andb_false_r. auto.
  - intros H. rewrite H. reflexivity.
  - intros H. rewrite H. reflexivity.
Qed.

(** Three bars: too few for any z-score, both buckets empty. *)
Lemma mean_reversion_empty_buckets_witness :
  let df := [mkBar 1 10; mkBar 2 11; mkBar 3 12] in
  let result := test_mean_reversion (Some df) in
  any (fst (z_extremes (closes df))) = false /\
  any (snd (z_extremes (closes df))) = false /\
  lookup "shows_reversion" result = Some (PBool false) /\
  lookup "reversion_after_high" result = Some (PNum (Fin 0)) /\
  lookup "reversion_after_low" result = Some (PNum (Fin 0)).
Proof.
  intros df result.
  assert (Hh : any (fst (z_extremes (closes df))) = false) by reflexivity.
  assert (Hl : any (snd (z_extremes (closes df))) = false) by reflexivity.
  destruct (mean_reversion_empty_buckets df) as [Hshow [Hhigh Hlow]].
  split; [exact Hh|]. split; [exact Hl|].
  split; [exact (proj1 (Hshow (or_introl Hh)))|].
  split; [exact (Hhigh Hh) | exact (Hlow Hl)].
Defined.

(** The claim as stated fails: with both buckets empty the result carries
    the number 0 for each bucket, not an "insufficient samples" report. *)
Lemma mean_reversion_reports_zero :
  let df := [mkBar 1 10; mkBar 2 11; mkBar 3 12] in
  let result := test_mean_reversion (Some df) in
  any (fst (z_extremes (closes df))) = false /\
  any (snd (z_extremes (closes df))) = false /\
  lookup "reversion_after_high" result = Some (PNum (Fin 0)) /\
  lookup "reversion_after_low" result = Some (PNum (Fin 0)) /\
  lookup "reversion_after_high" result <> Some (PStr "insufficient samples") /\
  lookup "reversion_after_low" result <> Some (PStr "insufficient samples") /\
  ~ exists key, lookup key result = Some (PStr "insufficient samples").
Proof.
  cbv zeta. repeat split; try reflexivity; try discriminate.
  intros [key H]. vm_compute in H.
  repeat match type of H with
         | (if ?b then _ else _) = _ => destruct b; try discriminate
         end.
Qed.

(** ** C9: the value-investing check *)





(** * Further properties of the simulator *)

(** ** Invariants of the loop *)

Lemma loop_invariant (df : frame) (s : StrategySpec) (P : SimState -> Prop)
    (rows : list bar) :
  (forall i row st st',
     In row rows -> trade_step df s i row st = Ok st' -> P st -> P st') ->
  (forall row st, P st -> P (append_value row st)) ->
  forall i st st', loop df s i rows st = Ok st' -> P st -> P st'.
Proof.
  intros Hstep Happ. induction rows as [|row rest IH]; intros i st st' H HP;
    simpl in H.
  - now inv H.
  - apply bind_Ok in H as [st1 [H1 H]].
    unfold bar_step in H1. apply bind_Ok in H1 as [mid [Hm H1]]. inv H1.
    eapply IH; [|exact H|].
    + intros j r a b Hin. apply Hstep. now right.
    + apply Happ. eapply Hstep; [now left | exact Hm | exact HP].
Qed.

Lemma Qsum_app (a b : list Q) : Qsum (a ++ b) == Qsum a + Qsum b.
Proof.
  induction a as [|x a IH]; simpl; [ring|]. rewrite IH. ring.
Qed.

Lemma cash_flow_snoc (log : list Trade) (t : Trade) :
  cash_flow (log ++ [t]) == cash_flow log + trade_cash_flow t.
Proof.
  unfold cash_flow. rewrite map_app, Qsum_app. simpl. ring.
Qed.

Lemma trade_step_shape (df : frame) s i row st st' :
  trade_step df s i row st = Ok st' -> log_shape st -> log_shape st'.
Proof.
  unfold trade_step, log_shape. intros H Inv.
  destruct (in_position st) eqn:P; cbn [negb] in H.
  - apply bind_Ok in H as [chk [_ H]]. destruct (fst chk).
    + inv H. cbn [in_position trades shares].
      destruct Inv as [log [b [E [R [K [S _]]]]]]. split; [|reflexivity].
      rewrite E, <- app_assoc. simpl. apply RT_snoc; auto.
    + inv H. now rewrite P.
  - apply bind_Ok in H as [chk [_ H]]. destruct (fst chk).
    + apply bind_Ok in H as [n [_ H]]. inv H.
      cbn [in_position trades shares entry_price].
      destruct Inv as [R _]. eexists. eexists. split; [reflexivity|].
      repeat split; auto.
    + inv H. now rewrite P.
Qed.

Lemma trade_step_cash (df : frame) s i row st st' (capital : Q) :
  trade_step df s i row st = Ok st' ->
  cash st == capital + cash_flow (trades st) ->
  cash st' == capital + cash_flow (trades st').
Proof.
  unfold trade_step. intros H Inv.
  destruct (in_position st); cbn [negb] in H.
  - apply bind_Ok in H as [chk [_ H]]. destruct (fst chk).
    + inv H. cbn [cash trades]. rewrite cash_flow_snoc, Inv.
      unfold trade_cash_flow. simpl. ring.
    + now inv H.
  - apply bind_Ok in H as [chk [_ H]]. destruct (fst chk).
    + apply bind_Ok in H as [n [_ H]]. inv H. cbn [cash trades].
      rewrite cash_flow_snoc, Inv. unfold trade_cash_flow. simpl. ring.
    + now inv H.
Qed.

Lemma run_upto_shape (df : frame) s n st :
  run_upto df s n = Ok st -> log_shape st.
Proof.
  unfold run_upto. intros H.
  eapply (@loop_invariant df s log_shape); [| |exact H|].
  - intros i row a b _. apply trade_step_shape.
  - intros row a. exact (fun x => x).
  - simpl. split; [constructor | reflexivity].
Qed.

Lemma run_upto_cash (df : frame) s n st :
  run_upto df s n = Ok st ->
  cash st == initial_capital s + cash_flow (trades st).
Proof.
  unfold run_upto. intros H.
  eapply (@loop_invariant df s
            (fun a => cash a == initial_capital s + cash_flow (trades a)));
    [| |exact H|].
  - intros i row a b _. apply trade_step_cash.
  - intros row a. exact (fun x => x).
  - simpl. unfold cash_flow. simpl. ring.
Qed.

(** The three things a bar can do. *)
Lemma bar_step_cases (df : frame) s i row st st' :
  bar_step df s i row st = Ok st' ->
  st' = append_value row st \/
  (in_position st = false /\
   exists why n,
     check_buy_conditions df i s 20 = Ok (true, why) /\
     py_int (xdiv (Fin (cash st)) (Fin (close row))) = Ok n /\
     st' = append_value row
             {| cash := cash st - inject_Z n * close row;
                shares := n;
                portfolio_value := portfolio_value st;
                trades := trades st ++ [mkTrade (date row) BUY (close row) n why];
                in_position := true;
                entry_price := close row |}) \/
  (in_position st = true /\
   exists why,
     check_sell_conditions df i s (entry_price st) = Ok (true, why) /\
     st' = append_value row
             {| cash := cash st + inject_Z (shares st) * close row;
                shares := 0;
                portfolio_value := portfolio_value st;
                trades := trades st ++
                  [mkTrade (date row) SELL (close row) (shares st) why];
                in_position := false;
                entry_price := entry_price st |}).
Proof.
  unfold bar_step, trade_step. intros H.
  apply bind_Ok in H as [mid [Hm H]]. inv H.
  destruct (in_position st) eqn:P; cbn [negb] in Hm.
  - apply bind_Ok in Hm as [[fired why] [Hc Hm]]. cbn [fst snd] in Hm.
    destruct fired.
    + inv Hm. right; right. split; [reflexivity|]. eauto.
    + inv Hm. now left.
  - apply bind_Ok in Hm as [[fired why] [Hc Hm]]. cbn [fst snd] in Hm.
    destruct fired.
    + apply bind_Ok in Hm as [n [Hn Hm]]. inv Hm.
      right; left. split; [reflexivity|]. exists why, n. auto.
    + inv Hm. now left.
Qed.

Lemma loop_invariant_bar (df : frame) (s : StrategySpec)
    (P : SimState -> Prop) (rows : list bar) :
  (forall i row st st',
     In row rows -> bar_step df s i row st = Ok st' -> P st -> P st') ->
  forall i st st', loop df s i rows st = Ok st' -> P st -> P st'.
Proof.
  intros Hstep. induction rows as [|row rest IH]; intros i st st' H HP;
    simpl in H.
  - now inv H.
  - apply bind_Ok in H as [st1 [H1 H]].
    eapply IH; [|exact H|].
    + intros j r a b Hin. apply Hstep. now right.
    + eapply Hstep; [now left | exact H1 | exact HP].
Qed.

Lemma backtest_strategy_Ok (df : frame) s values log final_value total_return :
  backtest_strategy df s = Ok (values, log, final_value, total_return) ->
  exists st last_bar front,
    run df s = Ok st /\ df = front ++ [last_bar] /\
    values = portfolio_value st /\ log = trades st /\
    final_value = cash st + inject_Z (shares st) * close last_bar /\
    total_return = total_return_of final_value (initial_capital s).
Proof.
  unfold backtest_strategy. fold (run df s). intros H.
  apply bind_Ok in H as [st [Hrun H]].
  apply bind_Ok in H as [fv [Hfv H]]. inv H.
  destruct df as [|b0 df0] eqn:Edf.
  { unfold run in Hrun. simpl in Hrun. inv Hrun. discriminate. }
  rewrite <- Edf in *.
  assert (Hne : df <> []) by (rewrite Edf; discriminate).
  destruct (exists_last Hne) as [front [last_bar Hdf]].
  exists st, last_bar, front. split; [exact Hrun|]. split; [exact Hdf|].
  split; [reflexivity|]. split; [reflexivity|]. split; [|reflexivity].
  assert (Hlast : nth_error df (length front) = Some last_bar)
    by (rewrite Hdf; apply nth_error_snoc).
  assert (Hfull : run_upto df s (S (length front)) = Ok st).
  { replace (S (length front)) with (length df)
      by (rewrite Hdf, length_app; simpl; lia).
    now rewrite run_upto_all. }
  destruct (run_upto_value _ _ _ Hlast Hfull) as [prev [Hpv _]].
  rewrite Hpv, iloc_last_snoc in Hfv. now inv Hfv.
Qed.

(** ** Trades are value neutral *)

Lemma run_upto_zero (df : frame) s : run_upto df s 0 = Ok (initial_state s).
Proof. reflexivity. Qed.

(** X1.  A trade does not change the value of the portfolio at the bar
    where it happens: the value recorded for bar [i] is the cash plus the
    shares held before the bar, valued at the close of bar [i], whether
    the bar buys, sells or does neither.  Hence the first recorded value
    of every run that returns is the initial capital, even when the run
    buys at the first bar. *)
Theorem trading_keeps_the_value (df : frame) (s : StrategySpec) :
  (forall i row st st',
     nth_error df i = Some row ->
     run_upto df s i = Ok st ->
     run_upto df s (S i) = Ok st' ->
     cash st' + inject_Z (shares st') * close row ==
       cash st + inject_Z (shares st) * close row /\
     exists prev v,
       portfolio_value st' = prev ++ [v] /\ length prev = i /\
       v == cash st + inject_Z (shares st) * close row) /\
  (forall values log final_value total_return,
     backtest_strategy df s = Ok (values, log, final_value, total_return) ->
     exists v rest, values = v :: rest /\ v == initial_capital s).
Proof.
  assert (Hbar : forall i row st st',
     nth_error df i = Some row ->
     run_upto df s i = Ok st ->
     run_upto df s (S i) = Ok st' ->
     cash st' + inject_Z (shares st') * close row ==
       cash st + inject_Z (shares st) * close row /\
     exists prev v,
       portfolio_value st' = prev ++ [v] /\ length prev = i /\
       v == cash st + inject_Z (shares st) * close row).
  { intros i row st st' Hi Hst Hst'.
    assert (E : cash st' + inject_Z (shares st') * close row ==
                cash st + inject_Z (shares st) * close row).
    { pose proof (run_upto_shape _ _ _ Hst) as Sh.
      rewrite (run_upto_S _ _ _ Hi), Hst in Hst'. cbn [bind] in Hst'.
      apply bar_step_cases in Hst' as [->|[[P [why [n [_ [_ ->]]]]]|[P [why [_ ->]]]]].
      - reflexivity.
      - unfold log_shape in Sh. rewrite P in Sh. destruct Sh as [_ Sh].
        cbn [append_value cash shares]. rewrite Sh. ring.
      - cbn [append_value cash shares]. ring. }
    split; [exact E|].
    destruct (run_upto_value _ _ _ Hi Hst') as [prev [Hpv Hlen]].
    exists prev. eexists. split; [exact Hpv|]. split; [exact Hlen | exact E]. }
  split; [exact Hbar|].
  intros values log final_value total_return H.
  apply backtest_strategy_Ok in H
    as [st [last_bar [front [Hrun [Hdf [-> _]]]]]].
  destruct df as [|b0 rest0] eqn:Edf.
  { destruct front; discriminate. }
  rewrite <- Edf in *.
  assert (H0 : nth_error df 0 = Some b0) by (rewrite Edf; reflexivity).
  pose proof (run_split df 1 s) as Hsplit. rewrite Hrun in Hsplit.
  symmetry in Hsplit. apply bind_Ok in Hsplit as [st1 [H1 Hrest]].
  destruct (Hbar 0%nat b0 _ _ H0 (run_upto_zero df s) H1)
    as [_ [prev [v [Hpv [Hlen Hv]]]]].
  destruct prev; [|discriminate]. simpl in Hpv.
  apply loop_value in Hrest as [ext [E _]]. rewrite Hpv in E. simpl in E.
  exists v, ext. split; [exact E|]. rewrite Hv. simpl. ring.
Qed.

(** Closes 10, 11, 12 under "buy below 100": the run buys at the first
    bar, and the first value is still the capital. *)
Lemma trading_keeps_the_value_witness :
  let df := [mkBar 1 10; mkBar 2 11; mkBar 3 12] in
  let s := mkStrategy [PriceBelow 100] [] 1005 "" in
  (exists st',
     run_upto df s 1 = Ok st' /\ in_position st' = true /\
     cash st' + inject_Z (shares st') * 10 == 1005 + inject_Z 0 * 10) /\
  exists values log final_value total_return v rest,
    backtest_strategy df s = Ok (values, log, final_value, total_return) /\
    log <> [] /\ values = v :: rest /\ v == 1005.
Proof.
  intros df s.
  destruct (trading_keeps_the_value df s) as [Hbar Hfirst].
  split.
  - assert (H1 : exists st', run_upto df s 1 = Ok st')
      by (eexists; reflexivity).
    destruct H1 as [st' H1]. exists st'. split; [exact H1|].
    split; [vm_compute in H1; inv H1; reflexivity|].
    exact (proj1 (Hbar 0%nat (mkBar 1 10) _ _ eq_refl
                    (run_upto_zero df s) H1)).
  - assert (H : exists out, backtest_strategy df s = Ok out)
      by (eexists; reflexivity).
    destruct H as [[[[values log] fv] tr] H].
    destruct (Hfirst _ _ _ _ H) as [v [rest [E Hv]]].
    exists values, log, fv, tr, v, rest. split; [exact H|].
    split; [vm_compute in H; inv H; discriminate|].
    split; [exact E | exact Hv].
Defined.

(** ** The shape of the trade log *)

Lemma round_trips_counts (log : list Trade) :
  round_trips log ->
  length (buy_trades log) = length (sell_trades log) /\
  (length (buy_trades log) + length (sell_trades log) = length log)%nat.
Proof.
  induction 1 as [|log b s _ [IH1 IH2] Kb Ks _]; [simpl; auto|].
  unfold buy_trades, sell_trades, is_buy in *.
  rewrite !filter_app, !length_app. cbn [filter]. rewrite Kb, Ks.
  cbn [negb length]. lia.
Qed.

(** X2.  The log that [backtest_strategy] returns is a sequence of round
    trips, each a BUY followed by a SELL of exactly the shares bought,
    ended by one more BUY exactly when the run finishes LONG; that last BUY
    holds the shares and the entry price of the final state.  So the BUY
    markers that [plot_backtest_results] draws are as many as the SELL
    markers, or one more when the position is still open. *)
Theorem trade_log_is_round_trips
    (df : frame) (s : StrategySpec) (values : list Q) (log : list Trade)
    (final_value : Q) (total_return : xnum) :
  backtest_strategy df s = Ok (values, log, final_value, total_return) ->
  exists st,
    run df s = Ok st /\ log = trades st /\
    (in_position st = false ->
     round_trips log /\ shares st = 0%Z /\
     length (buy_trades log) = length (sell_trades log)) /\
    (in_position st = true ->
     exists closed b,
       log = closed ++ [b] /\ round_trips closed /\
       trade_kind b = BUY /\ trade_shares b = shares st /\
       trade_price b = entry_price st /\
       length (buy_trades log) = S (length (sell_trades log))) /\
    (length (buy_trades log) + length (sell_trades log) = length log)%nat.
Proof.
  intros H.
  apply backtest_strategy_Ok in H
    as [st [last_bar [front [Hrun [_ [_ [-> _]]]]]]].
  exists st. split; [exact Hrun|]. split; [reflexivity|].
  rewrite <- run_upto_all in Hrun. apply run_upto_shape in Hrun.
  unfold log_shape in Hrun.
  destruct (in_position st).
  - destruct Hrun as [closed [b [E [R [K [Hsh Hpr]]]]]].
    destruct (round_trips_counts R) as [C1 C2].
    assert (Hb : length (buy_trades (trades st)) =
                 S (length (buy_trades closed))).
    { rewrite E. unfold buy_trades, is_buy. rewrite filter_app, length_app.
      cbn [filter]. rewrite K. cbn [length]. lia. }
    assert (Hs : length (sell_trades (trades st)) =
                 length (sell_trades closed)).
    { rewrite E. unfold sell_trades, is_buy. rewrite filter_app, length_app.
      cbn [filter]. rewrite K. cbn [negb length]. lia. }
    split; [discriminate|]. split.
    + intros _. exists closed, b. repeat split; auto. lia.
    + rewrite Hb, Hs, E, length_app. simpl. lia.
  - destruct Hrun as [R Hsh]. destruct (round_trips_counts R) as [C1 C2].
    split; [auto|]. split; [discriminate | exact C2].
Qed.

(** Four rising closes under "buy below 100000000, sell above 1": two
    closed round trips. *)
Lemma trade_log_is_round_trips_witness :
  let df := [mkBar 1 10; mkBar 2 11; mkBar 3 12; mkBar 4 13] in
  let s := mkStrategy [PriceBelow 100000000] [PriceAbove 1] 10000 "" in
  exists values log final_value total_return st,
    backtest_strategy df s = Ok (values, log, final_value, total_return) /\
    run df s = Ok st /\ log = trades st /\ length log = 4%nat /\
    in_position st = false /\
    round_trips log /\
    length (buy_trades log) = length (sell_trades log).
Proof.
  intros df s.
  assert (H : exists out, backtest_strategy df s = Ok out)
    by (eexists; reflexivity).
  destruct H as [[[[values log] fv] tr] H].
  destruct (trade_log_is_round_trips _ _ H) as [st [Hrun [E [Hflat _]]]].
  assert (P : in_position st = false).
  { vm_compute in Hrun. inv Hrun. reflexivity. }
  exists values, log, fv, tr, st.
  split; [exact H|]. split; [exact Hrun|]. split; [exact E|].
  split; [vm_compute in H; inv H; reflexivity|]. split; [exact P|].
  destruct (Hflat P) as [R [_ C]]. split; [exact R | exact C].
Defined.

(** ** The log accounts for the cash *)

(** X3.  The cash of a run is the initial capital plus the cash moved by
    the logged trades (out at each BUY, in at each SELL), so the final
    value that [backtest_strategy] returns is the initial capital plus
    those cash flows plus the open shares at the last close. *)
Theorem log_accounts_for_cash
    (df : frame) (s : StrategySpec) (values : list Q) (log : list Trade)
    (final_value : Q) (total_return : xnum) :
  backtest_strategy df s = Ok (values, log, final_value, total_return) ->
  exists st last_bar,
    run df s = Ok st /\ iloc_last df = Ok last_bar /\
    cash st == initial_capital s + cash_flow log /\
    final_value ==
      initial_capital s + cash_flow log +
      inject_Z (shares st) * close last_bar /\
    (in_position st = false ->
     final_value == initial_capital s + cash_flow log).
Proof.
  intros H.
  apply backtest_strategy_Ok in H
    as [st [last_bar [front [Hrun [Hdf [_ [-> [-> _]]]]]]]].
  exists st, last_bar. split; [exact Hrun|].
  split; [rewrite Hdf; apply iloc_last_snoc|].
  rewrite <- run_upto_all in Hrun.
  pose proof (run_upto_cash _ _ _ Hrun) as C.
  pose proof (run_upto_shape _ _ _ Hrun) as Sh.
  split; [exact C|]. split; [rewrite C; reflexivity|].
  intros P. unfold log_shape in Sh. rewrite P in Sh. destruct Sh as [_ Sh].
  rewrite Sh, C. ring.
Qed.

(** 1000 shares bought at 10 and sold at 11, 916 bought at 12 and sold at
    13: the cash flows add 1916 to the capital. *)
Lemma log_accounts_for_cash_witness :
  let df := [mkBar 1 10; mkBar 2 11; mkBar 3 12; mkBar 4 13] in
  let s := mkStrategy [PriceBelow 100000000] [PriceAbove 1] 10000 "" in
  exists values log final_value total_return,
    backtest_strategy df s = Ok (values, log, final_value, total_return) /\
    cash_flow log == 1916 /\
    final_value == 10000 + cash_flow log.
Proof.
  intros df s.
  assert (H : exists out, backtest_strategy df s = Ok out)
    by (eexists; reflexivity).
  destruct H as [[[[values log] fv] tr] H].
  destruct (log_accounts_for_cash _ _ H) as [st [lb [Hrun [_ [_ [_ Hflat]]]]]].
  exists values, log, fv, tr. split; [exact H|].
  split; [vm_compute in H; inv H; reflexivity|].
  apply Hflat. vm_compute in Hrun. inv Hrun. reflexivity.
Defined.

(** ** Trades happen at bars, one per bar at most *)

Lemma select_app {A : Type} (l1 l2 : list A) (m1 m2 : list bool) :
  length m1 = length l1 ->
  select (l1 ++ l2) (m1 ++ m2) = select l1 m1 ++ select l2 m2.
Proof.
  revert m1. induction l1 as [|x l1 IH]; intros [|b m1] H; simpl in *;
    try discriminate; auto.
  injection H as H. rewrite (IH _ H). now destruct b.
Qed.

Lemma select_length {A : Type} (l : list A) (mask : list bool) :
  (length (select l mask) <= length l)%nat.
Proof.
  revert mask. induction l as [|x l IH]; intros [|b mask]; simpl; try lia.
  specialize (IH mask). destruct b; simpl; lia.
Qed.

Lemma run_upto_at_bars (df : frame) (s : StrategySpec) (n : nat) :
  (n <= length df)%nat ->
  forall st,
    run_upto df s n = Ok st ->
    exists mask,
      length mask = n /\
      map (fun t => (trade_date t, trade_price t)) (trades st) =
      map (fun b => (date b, close b)) (select (firstn n df) mask).
Proof.
  induction n as [|n IH]; intros Hn st H.
  - rewrite run_upto_zero in H. inv H. exists []. auto.
  - destruct (nth_error df n) as [row|] eqn:Hrow;
      [|apply nth_error_None in Hrow; lia].
    rewrite (run_upto_S _ _ _ Hrow) in H.
    apply bind_Ok in H as [st0 [H0 H1]].
    destruct (IH ltac:(lia) _ H0) as [mask [Hlen Hmap]].
    rewrite (firstn_S_nth_error _ _ Hrow).
    assert (Hm : length mask = length (firstn n df))
      by (rewrite length_firstn; lia).
    apply bar_step_cases in H1
      as [->|[[P [why [k [_ [_ ->]]]]]|[P [why [_ ->]]]]].
    + exists (mask ++ [false]). rewrite length_app, select_app by exact Hm.
      simpl. rewrite app_nil_r. split; [lia | exact Hmap].
    + exists (mask ++ [true]). rewrite length_app, select_app by exact Hm.
      cbn [append_value trades length select]. rewrite !map_app, Hmap.
      split; [lia | reflexivity].
    + exists (mask ++ [true]). rewrite length_app, select_app by exact Hm.
      cbn [append_value trades length select]. rewrite !map_app, Hmap.
      split; [lia | reflexivity].
Qed.

(** X4.  Every trade of the log is made at a bar of the frame, at that
    bar's date and close, no bar makes more than one trade, and the log
    follows the order of the bars: the dates and prices of the log are
    those of the bars picked out by one boolean mask over the frame.  So
    the log is never longer than the frame. *)
Theorem trades_happen_at_bars
    (df : frame) (s : StrategySpec) (values : list Q) (log : list Trade)
    (final_value : Q) (total_return : xnum) :
  backtest_strategy df s = Ok (values, log, final_value, total_return) ->
  (exists mask,
     length mask = length df /\
     map (fun t => (trade_date t, trade_price t)) log =
     map (fun b => (date b, close b)) (select df mask)) /\
  (length log <= length df)%nat.
Proof.
  intros H.
  apply backtest_strategy_Ok in H
    as [st [last_bar [front [Hrun [_ [_ [-> _]]]]]]].
  rewrite <- run_upto_all in Hrun.
  destruct (run_upto_at_bars df s (Nat.le_refl _) Hrun) as [mask [L M]].
  rewrite firstn_all in M.
  split; [exists mask; auto|].
  rewrite <- (length_map (fun t => (trade_date t, trade_price t))), M,
    length_map.
  apply select_length.
Qed.

(** Three bars under "buy below 11, sell above 11": a BUY at the first
    bar and a SELL at the third. *)
Lemma trades_happen_at_bars_witness :
  let df := [mkBar 1 10; mkBar 2 11; mkBar 3 12] in
  let s := mkStrategy [PriceBelow 11] [PriceAbove 11] 1000 "" in
  exists values log final_value total_return mask,
    backtest_strategy df s = Ok (values, log, final_value, total_return) /\
    length mask = 3%nat /\
    map (fun t => (trade_date t, trade_price t)) log = [(1%Z, 10); (3%Z, 12)] /\
    map (fun b => (date b, close b)) (select df mask) = [(1%Z, 10); (3%Z, 12)].
Proof.
  intros df s.
  assert (H : exists out, backtest_strategy df s = Ok out)
    by (eexists; reflexivity).
  destruct H as [[[[values log] fv] tr] H].
  destruct (trades_happen_at_bars _ _ H) as [[mask [L M]] _].
  exists values, log, fv, tr, mask. split; [exact H|]. split; [exact L|].
  assert (E : map (fun t => (trade_date t, trade_price t)) log =
              [(1%Z, 10); (3%Z, 12)])
    by (vm_compute in H; inv H; reflexivity).
  split; [exact E|]. now rewrite <- M.
Defined.

(** ** A BUY spends what the cash affords *)




(** ** When [backtest_strategy] raises *)





(** ** Strategies that always fire, strategies that never sell *)




Lemma check_sell_nil (df : frame) s i e chk :
  sell_conditions s = [] ->
  check_sell_conditions df i s e = Ok chk -> chk = (false, None).
Proof.
  unfold check_sell_conditions. intros ->. intros H.
  apply bind_Ok in H as [p [_ H]]. simpl in H. now inv H.
Qed.

(** X8.  A strategy without sell conditions (what "Buy when it dips 10
    percent" parses to) never sells: the log of a run is empty, or holds
    the single BUY of a position that is still open at the end. *)
Theorem no_sell_conditions_buy_and_hold
    (df : frame) (s : StrategySpec) (values : list Q) (log : list Trade)
    (final_value : Q) (total_return : xnum) :
  sell_conditions s = [] ->
  backtest_strategy df s = Ok (values, log, final_value, total_return) ->
  exists st,
    run df s = Ok st /\
    ((in_position st = false /\ log = []) \/
     (in_position st = true /\
      exists b, log = [b] /\ trade_kind b = BUY /\
                trade_shares b = shares st)) /\
    sell_trades log = [].
Proof.
  intros Hs H.
  apply backtest_strategy_Ok in H
    as [st [last_bar [front [Hrun [_ [_ [-> _]]]]]]].
  exists st. split; [exact Hrun|].
  assert (Inv : (in_position st = false /\ trades st = []) \/
                (in_position st = true /\
                 exists b, trades st = [b] /\ trade_kind b = BUY /\
                           trade_shares b = shares st)).
  { unfold run in Hrun.
    eapply (@loop_invariant_bar df s
              (fun a => (in_position a = false /\ trades a = []) \/
                        (in_position a = true /\
                         exists b, trades a = [b] /\ trade_kind b = BUY /\
                                   trade_shares b = shares a)));
      [|exact Hrun|now left].
    intros i row a a' _ Hb Ha.
    apply bar_step_cases in Hb
      as [->|[[P [why [n [_ [_ ->]]]]]|[P [why [Hc _]]]]].
    - exact Ha.
    - right. cbn [append_value in_position trades shares].
      destruct Ha as [[_ ->]|[Ha _]]; [|congruence].
      split; [reflexivity|]. eexists. split; [reflexivity|]. auto.
    - apply (check_sell_nil _ _ _ _ Hs) in Hc. discriminate. }
  split; [exact Inv|].
  destruct Inv as [[_ ->]|[_ [b [-> [K _]]]]]; [reflexivity|].
  unfold sell_trades, is_buy. simpl. now rewrite K.
Qed.

(** "buy below 11" without a sell rule on three bars: one BUY, held. *)
Lemma no_sell_conditions_buy_and_hold_witness :
  let df := [mkBar 1 10; mkBar 2 11; mkBar 3 12] in
  let s := mkStrategy [PriceBelow 11] [] 1000 "" in
  exists values log final_value total_return st,
    backtest_strategy df s = Ok (values, log, final_value, total_return) /\
    run df s = Ok st /\ in_position st = true /\
    length log = 1%nat /\ sell_trades log = [].
Proof.
  intros df s.
  assert (H : exists out, backtest_strategy df s = Ok out)
    by (eexists; reflexivity).
  destruct H as [[[[values log] fv] tr] H].
  destruct (@no_sell_conditions_buy_and_hold df s _ _ _ _ eq_refl H)
    as [st [Hrun [_ Hsell]]].
  exists values, log, fv, tr, st. split; [exact H|]. split; [exact Hrun|].
  split; [vm_compute in Hrun; inv Hrun; reflexivity|].
  split; [vm_compute in H; inv H; reflexivity | exact Hsell].
Defined.

(** ** Indicator conditions need history *)

Lemma iloc_last_nth {A : Type} (l : list A) (n : nat) (x : A) :
  length l = S n -> nth_error l n = Some x -> iloc_last l = Ok x.
Proof.
  intros L H.
  assert (E : l = firstn n l ++ [x]).
  { rewrite <- (firstn_S_nth_error _ _ H). rewrite firstn_all2; [reflexivity|lia]. }
  rewrite E. apply iloc_last_snoc.
Qed.

Lemma window_at_short {A : Type} (w i : nat) (s : list A) :
  (S i < w)%nat -> window_at w i s = None.
Proof.
  intros H. unfold window_at.
  destruct (Nat.ltb_spec (S i) w); [reflexivity | lia].
Qed.

Lemma rolling_last_short (w : nat) (agg : list Q -> Q) (s : list Q) (n : nat) :
  length s = S n -> (S n < w)%nat -> iloc_last (rolling w agg s) = Ok None.
Proof.
  intros L H. apply iloc_last_nth with n.
  - now rewrite rolling_length.
  - rewrite rolling_nth_error by lia. now rewrite window_at_short.
Qed.

Lemma rsi_last_short (prices : list Q) (period n : nat) :
  length prices = S n -> (S n < period)%nat ->
  iloc_last (calculate_rsi prices period) = Ok NaN.
Proof.
  intros L H. apply iloc_last_nth with n.
  - now rewrite calculate_rsi_length.
  - rewrite (@calculate_rsi_nth prices period n None None).
    + reflexivity.
    + rewrite rolling_nth_error by (rewrite length_map, diff_length; lia).
      now rewrite window_at_short.
    + rewrite rolling_nth_error by (rewrite length_map, diff_length; lia).
      now rewrite window_at_short.
Qed.

Lemma quiet_loop (s : StrategySpec) (rows : list bar) :
  forall pre st,
    (forall i, (length pre <= i < length pre + length rows)%nat ->
       check_buy_conditions (pre ++ rows) i s 20 = Ok (false, None)) ->
    in_position st = false -> trades st = [] -> shares st = 0%Z ->
    exists st' ext,
      loop (pre ++ rows) s (length pre) rows st = Ok st' /\
      in_position st' = false /\ trades st' = [] /\ shares st' = 0%Z /\
      cash st' = cash st /\
      portfolio_value st' = portfolio_value st ++ ext /\
      length ext = length rows /\
      Forall (fun v => v == cash st) ext.
Proof.
  induction rows as [|row rest IH]; intros pre st Hq P T S; simpl.
  - exists st, []. rewrite app_nil_r. repeat split; auto.
  - unfold bar_step, trade_step.
    rewrite P, Hq by (simpl; lia). cbn [negb bind fst].
    destruct (IH (pre ++ [row]) (append_value row st)) as
      [st' [ext [L [P' [T' [S' [C' [V' [N' F']]]]]]]]]; auto.
    { intros i Hi. rewrite <- app_assoc. simpl. apply Hq.
      rewrite length_app in Hi. simpl in *. lia. }
    rewrite <- app_assoc, length_app, Nat.add_1_r in L. simpl in L.
    exists st', ((cash st + inject_Z (shares st) * close row) :: ext).
    split; [exact L|]. repeat split; auto.
    + rewrite V'. simpl. now rewrite <- app_assoc.
    + simpl. now rewrite N'.
    + constructor; [|exact F']. rewrite S. ring.
Qed.

(** X9.  The indicator conditions cannot fire before their window is
    full: a dip condition never fires at the first 19 bars (the rolling
    high of 20 closes is missing there), an RSI condition, buy or sell,
    never at the first 13 bars.  So a strategy whose buy conditions hold no
    price ceiling records no trade on a frame of at most 13 bars, and every
    portfolio value is the initial capital. *)
Theorem indicator_conditions_need_history (df : frame) (s : StrategySpec) :
  (forall index p percent,
     (index < length df)%nat -> (index < 19)%nat ->
     eval_buy df index p 20 (Dip percent) = Ok None) /\
  (forall index p e value,
     (index < length df)%nat -> (index < 13)%nat ->
     eval_buy df index p 20 (RsiBelow value) = Ok None /\
     eval_sell df index p e (RsiAbove value) = Ok None) /\
  (forall index,
     (index < length df)%nat -> (index < 13)%nat ->
     existsb is_price_below (buy_conditions s) = false ->
     check_buy_conditions df index s 20 = Ok (false, None)) /\
  (df <> [] -> (length df <= 13)%nat ->
   existsb is_price_below (buy_conditions s) = false ->
   exists values final_value,
     backtest_strategy df s =
       Ok (values, [], final_value,
           total_return_of final_value (initial_capital s)) /\
     length values = length df /\
     Forall (fun v => v == initial_capital s) values).
Proof.
  assert (Hdip : forall index p percent,
     (index < length df)%nat -> (index < 19)%nat ->
     eval_buy df index p 20 (Dip percent) = Ok None).
  { intros index p percent Hi H19. cbn [eval_buy].
    rewrite (@rolling_last_short 20 Qmaximum (loc_upto df index) index);
      [reflexivity | now apply loc_upto_length | lia]. }
  assert (Hrsi : forall index p e value,
     (index < length df)%nat -> (index < 13)%nat ->
     eval_buy df index p 20 (RsiBelow value) = Ok None /\
     eval_sell df index p e (RsiAbove value) = Ok None).
  { intros index p e value Hi H13. cbn [eval_buy eval_sell].
    rewrite (@rsi_last_short (loc_upto df index) 14 index);
      [split; reflexivity | now apply loc_upto_length | lia]. }
  assert (Hchk : forall index,
     (index < length df)%nat -> (index < 13)%nat ->
     existsb is_price_below (buy_conditions s) = false ->
     check_buy_conditions df index s 20 = Ok (false, None)).
  { intros index Hi H13 Hno. unfold check_buy_conditions.
    destruct (nth_error df index) as [row|] eqn:Hrow;
      [|apply nth_error_None in Hrow; lia].
    rewrite (loc_close_nth _ _ Hrow). cbn [bind].
    induction (buy_conditions s) as [|c rest IH]; [reflexivity|].
    simpl in Hno. apply orb_false_iff in Hno as [Hc Hrest].
    cbn [scan_buy].
    assert (E : eval_buy df index (close row) 20 c = Ok None).
    { destruct c; try discriminate; try reflexivity.
      - apply Hdip; [exact Hi | lia].
      - exact (proj1 (Hrsi index (close row) 0 value Hi H13)). }
    rewrite E. cbn [bind]. now apply IH. }
  split; [exact Hdip|]. split; [exact Hrsi|]. split; [exact Hchk|].
  intros Hne Hlen Hno.
  destruct (@quiet_loop s df [] (initial_state s)) as
    [st [ext [L [P [T [S [C [V [N F]]]]]]]]]; try reflexivity.
  { intros i Hi. simpl in *. apply Hchk; [lia | lia | exact Hno]. }
  simpl in L, V, C.
  destruct (exists_last Hne) as [front [last_bar Hdf]].
  assert (Hext : ext <> []).
  { intros ->. rewrite Hdf, length_app in N. simpl in N. lia. }
  destruct (exists_last Hext) as [vals [v Hv]].
  exists ext, v. unfold backtest_strategy. rewrite L. cbn [bind].
  rewrite V, Hv, iloc_last_snoc, <- Hv. cbn [bind]. rewrite T.
  split; [reflexivity|]. split; [exact N | exact F].
Qed.

(** Thirteen falling closes under a dip rule and an RSI rule: no trade. *)
Lemma indicator_conditions_need_history_witness :
  let df :=
    map (fun i => mkBar (Z.of_nat i) (inject_Z (100 - 5 * Z.of_nat i)))
        (seq 0 13) in
  let s := mkStrategy [Dip 1; RsiBelow 90] [RsiAbove 10] 10000 "" in
  check_buy_conditions df 12 s 20 = Ok (false, None) /\
  exists values final_value,
    backtest_strategy df s =
      Ok (values, [], final_value,
          total_return_of final_value (initial_capital s)) /\
    length values = length df /\
    Forall (fun v => v == initial_capital s) values.
Proof.
  intros df s.
  destruct (indicator_conditions_need_history df s) as [_ [_ [Hchk Hrun]]].
  split.
  - apply Hchk; [simpl; lia | lia | reflexivity].
  - apply Hrun; [discriminate | simpl; lia | reflexivity].
Defined.

(** ** Conditions of the other side are ignored *)

(** X10.  [check_buy_conditions] only acts on dip, price-below and
    RSI-below conditions and [check_sell_conditions] only on rise,
    price-above and RSI-above conditions: a condition of another kind in
    the list is skipped, so the check gives the same answer as on the list
    without it, and a buy list made of sell conditions never fires. *)
Theorem other_side_conditions_are_skipped
    (df : frame) (s : StrategySpec) (index : nat) :
  (forall w,
     check_buy_conditions df index s w =
     check_buy_conditions df index
       (mkStrategy (filter is_buy_kind (buy_conditions s))
                   (sell_conditions s) (initial_capital s) (description s))
       w) /\
  (forall e,
     check_sell_conditions df index s e =
     check_sell_conditions df index
       (mkStrategy (buy_conditions s)
                   (filter is_sell_kind (sell_conditions s))
                   (initial_capital s) (description s))
       e) /\
  (forall w,
     (index < length df)%nat ->
     forallb is_sell_kind (buy_conditions s) = true ->
     check_buy_conditions df index s w = Ok (false, None)) /\
  (forall e,
     (index < length df)%nat ->
     forallb is_buy_kind (sell_conditions s) = true ->
     check_sell_conditions df index s e = Ok (false, None)).
Proof.
  split; [|split; [|split]].
  - intros w. unfold check_buy_conditions. cbn [buy_conditions].
    destruct (loc_close df index) as [p|x]; [|reflexivity]. cbn [bind].
    induction (buy_conditions s) as [|c rest IH]; [reflexivity|].
    destruct c; cbn [filter is_buy_kind scan_buy]; try exact IH;
      destruct (eval_buy df index p w _) as [[why|]|x];
      cbn [bind]; auto.
  - intros e. unfold check_sell_conditions. cbn [sell_conditions].
    destruct (loc_close df index) as [p|x]; [|reflexivity]. cbn [bind].
    induction (sell_conditions s) as [|c rest IH]; [reflexivity|].
    destruct c; cbn [filter is_sell_kind scan_sell]; try exact IH;
      destruct (eval_sell df index p e _) as [[why|]|x];
      cbn [bind]; auto.
  - intros w Hi Hall. unfold check_buy_conditions.
    destruct (nth_error df index) as [row|] eqn:Hrow;
      [|apply nth_error_None in Hrow; lia].
    rewrite (loc_close_nth _ _ Hrow). cbn [bind].
    induction (buy_conditions s) as [|c rest IH]; [reflexivity|].
    simpl in Hall. apply andb_true_iff in Hall as [Hc Hrest].
    destruct c; try discriminate; cbn [scan_buy eval_buy bind]; auto.
  - intros e Hi Hall. unfold check_sell_conditions.
    destruct (nth_error df index) as [row|] eqn:Hrow;
      [|apply nth_error_None in Hrow; lia].
    rewrite (loc_close_nth _ _ Hrow). cbn [bind].
    induction (sell_conditions s) as [|c rest IH]; [reflexivity|].
    simpl in Hall. apply andb_true_iff in Hall as [Hc Hrest].
    destruct c; try discriminate; cbn [scan_sell eval_sell bind]; auto.
Qed.

(** A rise condition in the buy list and a dip condition in the sell
    list, at a bar where they would fire on their own side. *)
Lemma other_side_conditions_are_skipped_witness :
  let df := [mkBar 1 10; mkBar 2 20] in
  let s := mkStrategy [Rise 1; PriceAbove 1] [Dip 1; PriceBelow 100] 1000 "" in
  check_buy_conditions df 1 s 20 = Ok (false, None) /\
  check_sell_conditions df 1 s 10 = Ok (false, None).
Proof.
  intros df s.
  destruct (other_side_conditions_are_skipped df s 1) as [_ [_ [Hb Hs]]].
  split.
  - apply Hb; [simpl; lia | reflexivity].
  - apply Hs; [simpl; lia | reflexivity].
Defined.

(** ** Indicators read the past only *)

Lemma firstn_seq (n start len : nat) :
  firstn n (seq start len) = seq start (Nat.min n len).
Proof.
  revert start len. induction n as [|n IH]; intros start [|len]; simpl; auto.
  now rewrite IH.
Qed.

Lemma window_at_firstn {A : Type} (w i n : nat) (s : list A) :
  (i < n)%nat -> window_at w i (firstn n s) = window_at w i s.
Proof.
  intros H. unfold window_at.
  destruct (Nat.ltb_spec (S i) w) as [L|L]; [reflexivity|].
  rewrite skipn_firstn_comm, firstn_firstn.
  now replace (Nat.min w (n - (S i - w))) with w by lia.
Qed.

Lemma rolling_firstn (w : nat) (agg : list Q -> Q) (s : list Q) (n : nat) :
  rolling w agg (firstn n s) = firstn n (rolling w agg s).
Proof.
  unfold rolling. rewrite firstn_map, firstn_seq, length_firstn.
  apply map_ext_in. intros i Hi. apply in_seq in Hi.
  rewrite window_at_firstn by lia. reflexivity.
Qed.

Lemma diff_from_firstn (s : list Q) :
  forall prev n, diff_from prev (firstn n s) = firstn n (diff_from prev s).
Proof.
  induction s as [|x s IH]; intros prev [|n]; simpl; auto. now rewrite IH.
Qed.

Lemma diff_firstn (s : list Q) (n : nat) :
  diff (firstn n s) = firstn n (diff s).
Proof.
  destruct s as [|x s], n as [|n]; simpl; auto. now rewrite diff_from_firstn.
Qed.

(** X11.  The derived series are causal: a rolling aggregate, [diff] and
    [calculate_rsi] of the first [n] prices are the first [n] entries of
    the series computed on all the prices, so no entry of an indicator
    depends on a later price. *)
Theorem indicators_read_the_past_only
    (prices : list Q) (n period w : nat) (agg : list Q -> Q) :
  rolling w agg (firstn n prices) = firstn n (rolling w agg prices) /\
  diff (firstn n prices) = firstn n (diff prices) /\
  calculate_rsi (firstn n prices) period =
    firstn n (calculate_rsi prices period) /\
  technical_rsi (firstn n prices) = firstn n (technical_rsi prices).
Proof.
  assert (H : forall p, calculate_rsi (firstn n prices) p =
                        firstn n (calculate_rsi prices p)).
  { intros p. unfold calculate_rsi.
    rewrite diff_firstn, <- !firstn_map, !rolling_firstn, <- combine_firstn.
    now rewrite firstn_map. }
  split; [apply rolling_firstn|]. split; [apply diff_firstn|].
  split; [apply H|]. exact (H 14%nat).
Qed.

(** ** Where the RSI is undefined, where it is zero *)

Lemma rsi_window (prices : list Q) (period i : nat) (deltas : list (option Q)) :
  (i < length prices)%nat ->
  window_at period i (diff prices) = Some deltas ->
  nth_error (calculate_rsi prices period) i =
    Some (rsi_of (Some (Qmean (map where_pos deltas)))
                 (Some (Qmean (map neg_where_neg deltas)))).
Proof.
  intros Hi W. apply calculate_rsi_nth.
  - rewrite rolling_nth_error by (now rewrite length_map, diff_length).
    now rewrite window_at_map, W.
  - rewrite rolling_nth_error by (now rewrite length_map, diff_length).
    now rewrite window_at_map, W.
Qed.

(** X12.  The RSI is missing at every index before [period - 1], and at a
    later index when the window holds no price change at all (gain and
    loss are both zero, [0 / 0]).  When the window holds no gain and at
    least one loss the RSI is 0. *)
Theorem rsi_undefined_or_zero (prices : list Q) (period i : nat) :
  (i < length prices)%nat ->
  ((S i < period)%nat ->
   nth_error (calculate_rsi prices period) i = Some NaN) /\
  (forall deltas,
     window_at period i (diff prices) = Some deltas ->
     Forall (fun d => match d with Some x => x == 0 | None => True end)
            deltas ->
     nth_error (calculate_rsi prices period) i = Some NaN) /\
  (forall deltas,
     window_at period i (diff prices) = Some deltas ->
     Forall (fun d => match d with Some x => x <= 0 | None => True end)
            deltas ->
     Exists (fun d => match d with Some x => x < 0 | None => False end)
            deltas ->
     exists q,
       nth_error (calculate_rsi prices period) i = Some (Fin q) /\ q == 0).
Proof.
  intros Hi. split; [|split].
  - intros Hshort.
    rewrite (@calculate_rsi_nth prices period i None None); [reflexivity| |];
      rewrite rolling_nth_error by (now rewrite length_map, diff_length);
      now rewrite window_at_short.
  - intros deltas W Hflat. rewrite (rsi_window _ _ Hi W). f_equal.
    assert (G : Qmean (map where_pos deltas) == 0).
    { apply Qmean_zero, Forall_forall. intros y Hy.
      apply in_map_iff in Hy as [d [<- Hd]].
      rewrite Forall_forall in Hflat. specialize (Hflat d Hd).
      destruct d as [x|]; simpl; [|reflexivity].
      destruct (Qpos x); [exact Hflat | reflexivity]. }
    assert (L : Qmean (map neg_where_neg deltas) == 0).
    { apply Qmean_zero, Forall_forall. intros y Hy.
      apply in_map_iff in Hy as [d [<- Hd]].
      rewrite Forall_forall in Hflat. specialize (Hflat d Hd).
      destruct d as [x|]; simpl; [|reflexivity].
      destruct (Qneg x); [rewrite Hflat|]; reflexivity. }
    apply Qeqb0_true in G, L. unfold rsi_of. cbn [of_option xdiv].
    unfold inf_signed. now rewrite L, G.
  - intros deltas W Hno Hsome. rewrite (rsi_window _ _ Hi W).
    assert (G : Qmean (map where_pos deltas) == 0).
    { apply Qmean_zero, Forall_forall. intros y Hy.
      apply in_map_iff in Hy as [d [<- Hd]].
      rewrite Forall_forall in Hno. specialize (Hno d Hd).
      destruct d as [x|]; simpl; [|reflexivity].
      destruct (Qpos x) eqn:E; [|reflexivity].
      apply Qpos_true in E. lra. }
    assert (L : 0 < Qmean (map neg_where_neg deltas)).
    { apply Qmean_pos.
      - apply Forall_forall. intros y Hy.
        apply in_map_iff in Hy as [d [<- _]]. apply neg_where_neg_nonneg.
      - apply Exists_exists in Hsome as [d [Hd Hx]].
        apply Exists_exists. exists (neg_where_neg d).
        split; [now apply in_map|].
        destruct d as [x|]; [|contradiction]. simpl.
        assert (E : Qneg x = true) by now apply Qneg_true.
        rewrite E. lra. }
    set (g := Qmean (map where_pos deltas)) in *.
    set (l := Qmean (map neg_where_neg deltas)) in *.
    unfold rsi_of. cbn [of_option xdiv].
    assert (Nl : Qeqb0 l = false) by (apply Qeqb0_false; lra).
    rewrite Nl. cbn [xadd xdiv].
    assert (R : g / l == 0) by (rewrite G; field; lra).
    assert (N1 : Qeqb0 (1 + g / l) = false) by (apply Qeqb0_false; lra).
    rewrite N1. cbn [xsub xopp xadd]. eexists. split; [reflexivity|].
    rewrite R. field.
Qed.

(** Fifteen closes that fall by one each bar: missing at index 5, zero at
    index 14; sixteen equal closes: missing at index 15. *)
Lemma rsi_undefined_or_zero_witness :
  let falling :=
    [20; 19; 18; 17; 16; 15; 14; 13; 12; 11; 10; 9; 8; 7; 6] in
  let flat := repeat 7 16 in
  nth_error (calculate_rsi falling 14) 5 = Some NaN /\
  nth_error (calculate_rsi flat 14) 15 = Some NaN /\
  exists q, nth_error (calculate_rsi falling 14) 14 = Some (Fin q) /\ q == 0.
Proof.
  intros falling flat.
  assert (H5 : (5 < length falling)%nat) by (simpl; lia).
  assert (H14 : (14 < length falling)%nat) by (simpl; lia).
  assert (H15 : (15 < length flat)%nat) by (simpl; lia).
  split; [|split].
  - apply (proj1 (@rsi_undefined_or_zero falling 14 5 H5)). lia.
  - destruct (@rsi_undefined_or_zero flat 14 15 H15) as [_ [Hflat _]].
    apply (Hflat (repeat (Some (7 - 7)) 14)); [reflexivity|].
    repeat constructor.
  - destruct (@rsi_undefined_or_zero falling 14 14 H14) as [_ [_ Hzero]].
    apply (Hzero (repeat (Some (-(1))) 14)).
    + reflexivity.
    + repeat constructor; discriminate.
    + constructor. reflexivity.
Defined.

(** * Further properties of the parser *)

(** ** Precedence between the RSI rules and the price rules *)

Lemma rsi_below_excludes_price_below (t : text) (v : Q) :
  rsi_below_rule t = Ok [RsiBelow v] -> price_below_rule t = Ok [].
Proof.
  unfold rsi_below_rule, price_below_rule.
  destruct (contains "rsi" t) eqn:R; [|discriminate].
  destruct (contains "below" t) eqn:B; [|discriminate].
  cbn [andb negb orb].
  destruct (Z.ltb_spec (find "rsi" (lower t)) (find "below" (lower t)))
    as [L|L]; [|discriminate].
  intros _. rewrite Z.gtb_ltb.
  destruct (Z.ltb_spec (find "below" (lower t)) (find "rsi" (lower t)));
    [lia | reflexivity].
Qed.

(** X13.  The buy list of a parsed strategy holds, in this order, at most
    one dip condition and at most one of an RSI-below or a price-below
    condition, never both: the RSI rule needs "rsi" before "below" and
    the price rule needs the opposite.  The sell list holds at most one
    rise, one RSI-above and one price-above condition in this order, and
    here both can appear, as in "sell above 5 or rsi above 70". *)
Theorem parsed_lists_shape (strategy_text : string) (spec : StrategySpec) :
  parse_strategy strategy_text = Ok spec ->
  (exists dip threshold,
     buy_conditions spec = dip ++ threshold /\
     (dip = [] \/ exists p, dip = [Dip p]) /\
     (threshold = [] \/ (exists v, threshold = [RsiBelow v]) \/
      (exists p, threshold = [PriceBelow p]))) /\
  (forall v p,
     ~ (In (RsiBelow v) (buy_conditions spec) /\
        In (PriceBelow p) (buy_conditions spec))) /\
  (length (buy_conditions spec) <= 2)%nat /\
  (exists rise rsi price,
     sell_conditions spec = rise ++ rsi ++ price /\
     (rise = [] \/ exists p, rise = [Rise p]) /\
     (rsi = [] \/ exists v, rsi = [RsiAbove v]) /\
     (price = [] \/ exists p, price = [PriceAbove p])) /\
  (length (sell_conditions spec) <= 3)%nat /\
  parse_strategy "sell above 5 or rsi above 70" =
    Ok (mkStrategy [] [RsiAbove 70; PriceAbove 5] 10000
          "sell above 5 or rsi above 70").
Proof.
  intros H. unfold parse_strategy in H.
  set (t := lower (list_ascii_of_string strategy_text)) in *.
  destruct (dip_rule_ok t) as [l1 [E1 [_ S1]]].
  destruct (rsi_below_rule_ok t) as [l2 [E2 [_ S2]]].
  destruct (price_below_rule_ok t) as [l3 [E3 [_ S3]]].
  destruct (rise_rule_ok t) as [l4 [E4 [_ S4]]].
  destruct (rsi_above_rule_ok t) as [l5 [E5 [_ S5]]].
  destruct (price_above_rule_ok t) as [l6 [E6 [_ S6]]].
  destruct (capital_rule_ok t) as [c [E7 _]].
  rewrite E1, E2, E3, E4, E5, E6, E7 in H. cbn [bind] in H. inv H.
  cbn [buy_conditions sell_conditions].
  assert (X : l2 = [] \/ l3 = []).
  { destruct S2 as [->|[v ->]]; [now left|]. right.
    apply rsi_below_excludes_price_below in E2. congruence. }
  assert (Sdip : l1 = [] \/ exists p, l1 = [Dip p])
    by (destruct S1 as [->|[p [-> _]]]; eauto).
  assert (Srise : l4 = [] \/ exists p, l4 = [Rise p])
    by (destruct S4 as [->|[p [-> _]]]; eauto).
  split.
  { exists l1, (l2 ++ l3). split; [reflexivity|]. split; [exact Sdip|].
    destruct X as [->| ->]; [simpl | rewrite app_nil_r]; tauto. }
  split.
  { intros v p [I1 I2].
    destruct Sdip as [->|[x ->]], S2 as [->|[y ->]], S3 as [->|[z ->]],
      X as [X|X]; try discriminate; simpl in I1, I2;
      intuition discriminate. }
  split.
  { destruct Sdip as [->|[x ->]], S2 as [->|[y ->]], S3 as [->|[z ->]],
      X as [X|X]; try discriminate; simpl; lia. }
  split.
  { exists l4, l5, l6. auto. }
  split; [|vm_compute; reflexivity].
  destruct Srise as [->|[x ->]], S5 as [->|[y ->]], S6 as [->|[z ->]];
    simpl; lia.
Qed.

(** "Buy when it dips 10 percent and RSI below 30": a dip condition and
    the RSI condition, no price condition. *)
Lemma parsed_lists_shape_witness :
  let strategy_text := "Buy when it dips 10 percent and RSI below 30"%string in
  let spec := mkStrategy [Dip 10; RsiBelow 30] [] 10000 strategy_text in
  parse_strategy strategy_text = Ok spec /\
  (length (buy_conditions spec) <= 2)%nat /\
  ~ (In (RsiBelow 30) (buy_conditions spec) /\
     In (PriceBelow 30) (buy_conditions spec)).
Proof.
  intros strategy_text spec.
  assert (E : parse_strategy strategy_text = Ok spec)
    by (vm_compute; reflexivity).
  destruct (parsed_lists_shape strategy_text E) as [_ [Hx [Hl _]]].
  split; [exact E|]. split; [exact Hl | apply Hx].
Defined.

(** ** The numbers of the parsed conditions *)

Lemma extract_percentage_nonneg (t : text) (p : Q) :
  extract_percentage t = Ok (Some p) -> 0 <= p.
Proof.
  unfold extract_percentage.
  destruct (Re.search Re.percent_re t) as [m|] eqn:E; [|discriminate].
  destruct (percent_float _ E) as [q [-> Hq]]. cbn [bind].
  intros H. now inv H.
Qed.

Lemma truthy_pos (p : Q) : truthy (Some p) = true -> 0 <= p -> 0 < p.
Proof.
  unfold truthy. rewrite negb_true_iff. intros H Hp.
  apply Qeqb0_false in H. lra.
Qed.

Lemma dip_rule_range (t : text) (l : list condition) :
  dip_rule t = Ok l -> Forall number_in_range l.
Proof.
  unfold dip_rule.
  destruct (_ || _); [|intros H; inv H; constructor].
  destruct (extract_percentage t) as [[p|]|x] eqn:E; cbn [bind];
    intros H; inv H; try constructor.
  destruct (negb (Qeqb0 p)) eqn:T; constructor; [|constructor].
  simpl. apply truthy_pos; [exact T|]. now apply extract_percentage_nonneg in E.
Qed.

Lemma rise_rule_range (t : text) (l : list condition) :
  rise_rule t = Ok l -> Forall number_in_range l.
Proof.
  unfold rise_rule.
  destruct (_ || _); [|intros H; inv H; constructor].
  destruct (extract_percentage t) as [[p|]|x] eqn:E; cbn [bind];
    intros H; inv H; try constructor.
  destruct (negb (Qeqb0 p)) eqn:T; constructor; [|constructor].
  simpl. apply truthy_pos; [exact T|]. now apply extract_percentage_nonneg in E.
Qed.

Lemma rsi_below_rule_range (t : text) (l : list condition) :
  rsi_below_rule t = Ok l -> Forall number_in_range l.
Proof.
  unfold rsi_below_rule.
  destruct (_ && _); [|intros H; inv H; constructor].
  destruct (Z.ltb _ _); [|intros H; inv H; constructor].
  destruct (Re.search Re.rsi_below_re t) as [m|] eqn:E;
    [|intros H; inv H; constructor].
  destruct (rsi_below_float _ E) as [q [-> Hq]]. cbn [bind].
  intros H. inv H. repeat constructor. exact Hq.
Qed.

Lemma price_below_rule_range (t : text) (l : list condition) :
  price_below_rule t = Ok l -> Forall number_in_range l.
Proof.
  unfold price_below_rule.
  destruct (_ && _); [|intros H; inv H; constructor].
  destruct (Re.search Re.price_below_re t) as [m|] eqn:E;
    [|intros H; inv H; constructor].
  destruct (price_below_float _ E) as [q [-> Hq]]. cbn [bind].
  intros H. inv H. repeat constructor. exact Hq.
Qed.

Lemma rsi_above_rule_range (t : text) (l : list condition) :
  rsi_above_rule t = Ok l -> Forall number_in_range l.
Proof.
  unfold rsi_above_rule.
  destruct (_ && _); [|intros H; inv H; constructor].
  destruct (Re.search Re.rsi_above_re t) as [m|] eqn:E;
    [|intros H; inv H; constructor].
  destruct (rsi_above_float _ E) as [q [-> Hq]]. cbn [bind].
  intros H. inv H. repeat constructor. exact Hq.
Qed.

Lemma price_above_rule_range (t : text) (l : list condition) :
  price_above_rule t = Ok l -> Forall number_in_range l.
Proof.
  unfold price_above_rule.
  destruct (_ && _); [|intros H; inv H; constructor].
  destruct (Re.search Re.price_above_re t) as [m|] eqn:E;
    [|intros H; inv H; constructor].
  destruct (price_above_float _ E) as [q [-> Hq]]. cbn [bind].
  intros H. inv H. repeat constructor. exact Hq.
Qed.

(** X14.  No pattern of the parser reads a sign, and a percentage of zero
    is dropped by [if dip_percent:], so in every parsed strategy the dip
    and rise percentages are positive and the price and RSI levels are
    not negative; "dips 0 percent" yields no condition. *)
Theorem parsed_numbers_in_range (strategy_text : string) (spec : StrategySpec) :
  parse_strategy strategy_text = Ok spec ->
  Forall number_in_range (buy_conditions spec) /\
  Forall number_in_range (sell_conditions spec) /\
  parse_strategy "Buy when it dips 0 percent, sell when it rises 0%" =
    Ok (mkStrategy [] [] 10000
          "Buy when it dips 0 percent, sell when it rises 0%").
Proof.
  intros H. unfold parse_strategy in H.
  set (t := lower (list_ascii_of_string strategy_text)) in *.
  apply bind_Ok in H as [l1 [E1 H]]. apply bind_Ok in H as [l2 [E2 H]].
  apply bind_Ok in H as [l3 [E3 H]]. apply bind_Ok in H as [l4 [E4 H]].
  apply bind_Ok in H as [l5 [E5 H]]. apply bind_Ok in H as [l6 [E6 H]].
  apply bind_Ok in H as [c [E7 H]]. inv H.
  cbn [buy_conditions sell_conditions].
  split; [|split; [|vm_compute; reflexivity]].
  - repeat (apply Forall_app; split);
      eauto using dip_rule_range, rsi_below_rule_range, price_below_rule_range.
  - repeat (apply Forall_app; split);
      eauto using rise_rule_range, rsi_above_rule_range, price_above_rule_range.
Qed.

(** "Buy when price drops 5.5%, sell above 120.5". *)
Lemma parsed_numbers_in_range_witness :
  let strategy_text := "Buy when price drops 5.5%, sell above 120.5"%string in
  let spec := mkStrategy [Dip (11 # 2)] [PriceAbove (241 # 2)] 10000
                strategy_text in
  parse_strategy strategy_text = Ok spec /\
  Forall number_in_range (buy_conditions spec) /\
  Forall number_in_range (sell_conditions spec).
Proof.
  intros strategy_text spec.
  assert (E : parse_strategy strategy_text = Ok spec)
    by (vm_compute; reflexivity).
  destruct (parsed_numbers_in_range strategy_text E) as [Hb [Hs _]].
  split; [exact E|]. split; [exact Hb | exact Hs].
Defined.

(** * Further properties of the theory checks *)

(** ** The technical check *)

Lemma iloc_last_map {A B : Type} (f : A -> B) (l : list A) (x : A) :
  iloc_last l = Ok x -> iloc_last (map f l) = Ok (f x).
Proof.
  unfold iloc_last. rewrite <- map_rev.
  destruct (rev l); simpl; intros H; inv H. reflexivity.
Qed.

Lemma oversold_excludes_overbought (x : xnum) :
  xltb x (Fin 30) && xgtb x (Fin 70) = false.
Proof.
  destruct x as [q| | |]; try reflexivity. unfold xgtb, xltb.
  destruct (Qle_bool 30 q) eqn:A; [reflexivity|].
  destruct (Qle_bool q 70) eqn:B; [reflexivity|]. exfalso.
  apply not_true_iff_false in A, B. rewrite Qle_bool_iff in A, B. lra.
Qed.

(** X15.  On a non-empty frame of fewer than 200 bars the 200-bar average
    is missing, every comparison with it is false, and the technical check
    reports no golden cross, price not above the averages and
    [makes_sense = false]; its interpretation is the oversold or
    overbought signal, or else "Bearish trend - below MAs", whatever the
    prices do. *)
Theorem technical_check_short_history (df : frame) :
  df <> [] ->
  (length df < 200)%nat ->
  exists d,
    test_technical_analysis (Some df) = Ok d /\
    lookup "sma_200" d = Some (PNum NaN) /\
    lookup "golden_cross" d = Some (PBool false) /\
    lookup "price_above_mas" d = Some (PBool false) /\
    lookup "makes_sense" d = Some (PBool false) /\
    (lookup "interpretation" d = Some (PStr "Oversold - potential buy signal") \/
     lookup "interpretation" d =
       Some (PStr "Overbought - potential sell signal") \/
     lookup "interpretation" d = Some (PStr "Bearish trend - below MAs")).
Proof.
  intros Hne Hlen. unfold test_technical_analysis.
  assert (Hc : closes df <> []).
  { unfold closes. destruct df; [congruence | discriminate]. }
  destruct (iloc_last_nonempty Hc) as [cp Hcp]. rewrite Hcp. cbn [bind].
  assert (Hl : exists n, length (closes df) = S n /\ (S n < 200)%nat).
  { unfold closes. rewrite length_map. destruct df; [congruence|].
    simpl in *. eexists. split; [reflexivity | lia]. }
  destruct Hl as [n [Hn Hs]].
  assert (H200 : last_or (Fin 0) (map of_option (rolling 200 Qmean (closes df)))
                 = NaN).
  { unfold last_or.
    rewrite (@iloc_last_map _ _ of_option _ _
               (@rolling_last_short 200 Qmean (closes df) n Hn Hs)).
    reflexivity. }
  rewrite H200.
  eexists. split; [reflexivity|].
  cbn [lookup String.eqb Ascii.eqb Bool.eqb].
  split; [reflexivity|].
  assert (G : forall x, xgtb x NaN = false) by (intros []; reflexivity).
  rewrite !G, andb_false_r. cbn [andb].
  repeat (split; [reflexivity|]).
  unfold _get_technical_interpretation.
  destruct (xltb _ (Fin 30)); [auto|]. destruct (xgtb _ (Fin 70)); auto.
Qed.

(** Sixty rising closes. *)
Lemma technical_check_short_history_witness :
  let df := map (fun i => mkBar (Z.of_nat i) (inject_Z (100 + Z.of_nat i)))
                (seq 0 60) in
  exists d,
    test_technical_analysis (Some df) = Ok d /\
    lookup "makes_sense" d = Some (PBool false) /\
    lookup "golden_cross" d = Some (PBool false).
Proof.
  intros df.
  destruct (@technical_check_short_history df) as [d [E [_ [G [_ [M _]]]]]].
  - discriminate.
  - simpl. lia.
  - exists d. auto.
Defined.

(** X16.  The fields of the technical check agree with each other: the
    oversold and overbought flags are never both set; when
    [makes_sense] is true the interpretation is the oversold signal, the
    bullish trend or the neutral position, never the overbought signal or
    the bearish trend; and a bullish interpretation always comes with
    [makes_sense = true]. *)
Theorem technical_check_is_consistent (data : option frame) (d : dict) :
  test_technical_analysis data = Ok d ->
  has_key "error" d = false ->
  exists oversold overbought makes_sense interpretation,
    lookup "oversold" d = Some (PBool oversold) /\
    lookup "overbought" d = Some (PBool overbought) /\
    lookup "makes_sense" d = Some (PBool makes_sense) /\
    lookup "interpretation" d = Some (PStr interpretation) /\
    oversold && overbought = false /\
    (makes_sense = true ->
     interpretation = "Oversold - potential buy signal"%string \/
     interpretation = "Bullish trend - golden cross"%string \/
     interpretation = "Neutral technical position"%string) /\
    (interpretation = "Bullish trend - golden cross"%string ->
     makes_sense = true) /\
    (overbought = true -> makes_sense = false).
Proof.
  unfold test_technical_analysis. destruct data as [df|].
  - destruct (iloc_last (closes df)) as [cp|x]; [|discriminate].
    cbn [bind]. intros H _. inv H.
    set (sma_50 := last_or (Fin 0) (map of_option (rolling 50 Qmean (closes df)))).
    set (sma_200 :=
           last_or (Fin 0) (map of_option (rolling 200 Qmean (closes df)))).
    set (rsi := last_or (Fin 50) (technical_rsi (closes df))).
    set (os := xltb rsi (Fin 30)).
    set (ob := xgtb rsi (Fin 70)).
    set (gc := xgtb sma_50 sma_200).
    set (pa := xgtb (Fin cp) sma_50 && xgtb (Fin cp) sma_200).
    pose proof (oversold_excludes_overbought rsi) as X.
    fold os ob in X.
    exists os, ob, (pa && negb ob),
      (_get_technical_interpretation gc pa os ob).
    repeat (split; [reflexivity|]).
    split; [exact X|].
    unfold _get_technical_interpretation.
    clearbody os ob gc pa.
    destruct os, ob, gc, pa; simpl in X |- *; try discriminate;
      (split; [|split]); intros; try discriminate; auto.
  - intros H. inv H. discriminate.
Qed.

(** The sixty rising closes again: overbought, so no sense. *)
Lemma technical_check_is_consistent_witness :
  let df := map (fun i => mkBar (Z.of_nat i) (inject_Z (100 + Z.of_nat i)))
                (seq 0 60) in
  exists d,
    test_technical_analysis (Some df) = Ok d /\
    lookup "overbought" d = Some (PBool true) /\
    lookup "oversold" d = Some (PBool false) /\
    lookup "makes_sense" d = Some (PBool false).
Proof.
  intros df.
  assert (H : exists d, test_technical_analysis (Some df) = Ok d)
    by (eexists; reflexivity).
  destruct H as [d H].
  assert (K : has_key "error" d = false)
    by (vm_compute in H; inv H; reflexivity).
  destruct (technical_check_is_consistent _ H K)
    as [os [ob [ms [it [Eos [Eob [Ems [_ [X [_ [_ Hob]]]]]]]]]]].
  assert (B : ob = true).
  { vm_compute in H. inv H. vm_compute in Eob. now inv Eob. }
  exists d. split; [exact H|]. subst ob.
  rewrite andb_true_r in X. subst os. rewrite (Hob eq_refl) in Ems. auto.
Defined.

(** ** [run_all_tests] *)






(** ** Mean reversion on a short frame *)

Lemma rolling_short_all_none (w : nat) (agg : list Q -> Q) (s : list Q) :
  (length s < w)%nat ->
  forall o, In o (rolling w agg s) -> o = None.
Proof.
  intros H o Ho. unfold rolling in Ho.
  apply in_map_iff in Ho as [i [<- Hi]]. apply in_seq in Hi.
  rewrite window_at_short by lia. reflexivity.
Qed.

Lemma any_map_false {A : Type} (f : A -> bool) (l : list A) :
  (forall x, In x l -> f x = false) -> any (map f l) = false.
Proof.
  unfold any. induction l as [|x l IH]; intros H; simpl; [reflexivity|].
  rewrite (H x) by now left. apply IH. intros y Hy. apply H. now right.
Qed.

(** X18.  On a frame of fewer than 20 bars no z-score exists, both
    buckets are empty and the mean-reversion check returns one fixed
    verdict: both reversions 0, no reversion shown, "No clear mean
    reversion", [makes_sense = false]. *)
Theorem mean_reversion_short_history (df : frame) :
  (length df < 20)%nat ->
  test_mean_reversion (Some df) =
    [("theory"%string, PStr "Mean Reversion");
     ("reversion_after_high"%string, PNum (Fin 0));
     ("reversion_after_low"%string, PNum (Fin 0));
     ("shows_reversion"%string, PBool false);
     ("interpretation"%string, PStr "No clear mean reversion");
     ("makes_sense"%string, PBool false)].
Proof.
  intros H.
  assert (L : (length (closes df) < 20)%nat)
    by (unfold closes; now rewrite length_map).
  assert (Hh : any (fst (z_extremes (closes df))) = false).
  { unfold z_extremes. cbn [fst]. apply any_map_false.
    intros [p [m v]] Hc. apply in_combine_r in Hc. apply in_combine_l in Hc.
    apply (rolling_short_all_none _ _ L) in Hc. cbn [fst snd]. now subst. }
  assert (Hl : any (snd (z_extremes (closes df))) = false).
  { unfold z_extremes. cbn [snd]. apply any_map_false.
    intros [p [m v]] Hc. apply in_combine_r in Hc. apply in_combine_l in Hc.
    apply (rolling_short_all_none _ _ L) in Hc. cbn [fst snd]. now subst. }
  unfold test_mean_reversion. rewrite Hh, Hl. reflexivity.
Qed.

(** Nineteen bars that swing between 1 and 1000. *)
Lemma mean_reversion_short_history_witness :
  let df : frame :=
    map (fun i => mkBar (Z.of_nat i) (if Nat.even i then 1 else 1000))
        (seq 0 19) in
  lookup "shows_reversion" (test_mean_reversion (Some df)) =
    Some (PBool false) /\
  lookup "reversion_after_high" (test_mean_reversion (Some df)) =
    Some (PNum (Fin 0)).
Proof.
  intros df.
  rewrite (@mean_reversion_short_history df) by (simpl; lia).
  split; reflexivity.
Defined.

(** * The chart and [main] of the back-tester *)

Lemma select_In {A : Type} (l : list A) (mask : list bool) (x : A) :
  In x (select l mask) -> In x l.
Proof.
  revert mask. induction l as [|y l IH]; intros [|b mask] H; simpl in *;
    try contradiction.
  destruct b; [destruct H as [->|H]|]; eauto.
Qed.

Lemma backtest_values_length (df : frame) s values log final_value total_return :
  backtest_strategy df s = Ok (values, log, final_value, total_return) ->
  length values = length df /\ iloc_last values = Ok final_value.
Proof.
  intros H.
  apply backtest_strategy_Ok in H
    as [st [last_bar [front [Hrun [Hdf [-> [_ [-> _]]]]]]]].
  assert (Hlast : nth_error df (length front) = Some last_bar)
    by (rewrite Hdf; apply nth_error_snoc).
  assert (Hlen : length df = S (length front))
    by (rewrite Hdf, length_app; simpl; lia).
  assert (Hfull : run_upto df s (S (length front)) = Ok st)
    by (rewrite <- Hlen, run_upto_all; exact Hrun).
  destruct (run_upto_value _ _ _ Hlast Hfull) as [prev [Hpv Hprev]].
  rewrite Hpv. split; [|apply iloc_last_snoc].
  rewrite length_app. simpl. lia.
Qed.

Lemma plot_after_backtest (df : frame) s values log final_value total_return
    (ticker : string) :
  backtest_strategy df s = Ok (values, log, final_value, total_return) ->
  plot_backtest_results df values log ticker s =
    Ok {| buy_markers :=
            map (fun t => (trade_date t, trade_price t)) (buy_trades log);
          sell_markers :=
            map (fun t => (trade_date t, trade_price t)) (sell_trades log);
          shown_final_value := final_value;
          shown_total_return := total_return;
          box_color :=
            if xgeb total_return (Fin 0) then "green"%string
            else "red"%string;
          filename := (ticker ++ "_strategy_backtest.png")%string |}.
Proof.
  intros H. destruct (backtest_values_length _ _ H) as [L F].
  apply backtest_strategy_Ok in H
    as [st [last_bar [front [_ [_ [_ [_ [_ ->]]]]]]]].
  unfold plot_backtest_results, ax_plot, closes.
  rewrite length_map, Nat.eqb_refl. cbn [bind].
  rewrite L, Nat.eqb_refl. cbn [bind]. rewrite F. cbn [bind].
  reflexivity.
Qed.

(** X19.  Given what [backtest_strategy] returned for a frame,
    [plot_backtest_results] does not raise: the value line has as many
    points as the frame has bars.  The final value and the total return
    that it recomputes for the text box are the ones that
    [backtest_strategy] returned, and every BUY or SELL marker lies on the
    price line, at the date and the close of a bar of the frame. *)
Theorem chart_agrees_with_backtest
    (df : frame) (s : StrategySpec) (values : list Q) (log : list Trade)
    (final_value : Q) (total_return : xnum) (ticker : string) :
  backtest_strategy df s = Ok (values, log, final_value, total_return) ->
  exists chart,
    plot_backtest_results df values log ticker s = Ok chart /\
    shown_final_value chart = final_value /\
    shown_total_return chart = total_return /\
    (forall m,
       In m (buy_markers chart) \/ In m (sell_markers chart) ->
       exists b, In b df /\ m = (date b, close b)) /\
    (length (buy_markers chart) + length (sell_markers chart) =
     length log)%nat.
Proof.
  intros H. eexists. split; [exact (@plot_after_backtest _ _ _ _ _ _ ticker H)|].
  cbn [shown_final_value shown_total_return buy_markers sell_markers].
  split; [reflexivity|]. split; [reflexivity|].
  apply backtest_strategy_Ok in H
    as [st [last_bar [front [Hrun [_ [_ [-> _]]]]]]].
  rewrite <- run_upto_all in Hrun. split.
  - destruct (run_upto_at_bars df s (Nat.le_refl _) Hrun) as [mask [_ M]].
    rewrite firstn_all in M.
    assert (K : forall m,
              In m (map (fun t => (trade_date t, trade_price t)) (trades st)) ->
              exists b, In b df /\ m = (date b, close b)).
    { intros m Hm. rewrite M in Hm. apply in_map_iff in Hm as [b [<- Hb]].
      exists b. split; [exact (select_In _ _ _ Hb) | reflexivity]. }
    intros m [Hm|Hm]; apply K; apply in_map_iff in Hm as [t [<- Ht]];
      apply in_map_iff; exists t; (split; [reflexivity|]);
      unfold buy_trades, sell_trades in Ht;
      apply filter_In in Ht; tauto.
  - rewrite !length_map. unfold buy_trades, sell_trades.
    induction (trades st) as [|t l IH]; [reflexivity|].
    cbn [filter]. destruct (is_buy t); cbn [negb length]; lia.
Qed.

(** Three bars under "buy below 11, sell above 11": one marker of each
    kind, at the first and at the third bar. *)
Lemma chart_agrees_with_backtest_witness :
  let df := [mkBar 1 10; mkBar 2 11; mkBar 3 12] in
  let s := mkStrategy [PriceBelow 11] [PriceAbove 11] 100 "" in
  exists chart,
    plot_backtest_results df [100; 110; 120]
      [mkTrade 1 BUY 10 10 (Some (PriceIsBelow 10 11));
       mkTrade 3 SELL 12 10 (Some (PriceIsAbove 12 11))] "ABC" s = Ok chart /\
    shown_final_value chart = 120 /\
    buy_markers chart = [(1%Z, 10)] /\ sell_markers chart = [(3%Z, 12)].
Proof.
  intros df s.
  destruct (@chart_agrees_with_backtest df s [100; 110; 120]
              [mkTrade 1 BUY 10 10 (Some (PriceIsBelow 10 11));
               mkTrade 3 SELL 12 10 (Some (PriceIsAbove 12 11))]
              120 (total_return_of 120 100) "ABC" eq_refl)
    as [chart [E [F _]]].
  exists chart. split; [exact E|]. split; [exact F|].
  vm_compute in E. inv E. split; reflexivity.
Defined.

(** ** [main] *)





(** * The signals of the visualizer *)

(** ** Columns, row by row *)

Lemma zip_with_length {A B C : Type} (f : A -> B -> C) (a : list A) :
  forall b,
    length (Visualizer.zip_with f a b) = Nat.min (length a) (length b).
Proof.
  induction a as [|x a IH]; intros [|y b]; simpl; auto.
Qed.

Lemma nth_zip_with {A B C : Type} (f : A -> B -> C) (da : A) (db : B) (dc : C)
    (a : list A) :
  forall b i,
    (i < length a)%nat -> (i < length b)%nat ->
    nth i (Visualizer.zip_with f a b) dc = f (nth i a da) (nth i b db).
Proof.
  induction a as [|x a IH]; intros [|y b] [|i] Ha Hb; simpl in *;
    try lia; auto.
  apply IH; lia.
Qed.

Lemma zip_with_firstn {A B C : Type} (f : A -> B -> C) (a : list A) :
  forall b n,
    Visualizer.zip_with f (firstn n a) (firstn n b) =
    firstn n (Visualizer.zip_with f a b).
Proof.
  induction a as [|x a IH]; intros [|y b] [|n]; simpl; auto.
  now rewrite IH.
Qed.

Lemma shift1_length (s : list xnum) :
  length (Visualizer.shift1 s) = length s.
Proof.
  destruct s as [|x s]; [reflexivity|]. cbn [Visualizer.shift1 length].
  rewrite removelast_firstn_len, length_firstn. cbn [length]. lia.
Qed.

Lemma nth_shift1_S (s : list xnum) (i : nat) :
  (S i < length s)%nat ->
  nth (S i) (Visualizer.shift1 s) NaN = nth i s NaN.
Proof.
  intros H. destruct s as [|x s]; [simpl in H; lia|].
  cbn [Visualizer.shift1 nth].
  rewrite removelast_firstn_len, nth_firstn.
  cbn [length] in *.
  destruct (Nat.ltb_spec i (pred (S (length s)))) as [L|L];
    [reflexivity | simpl in L; lia].
Qed.

Lemma shift1_firstn (s : list xnum) (n : nat) :
  Visualizer.shift1 (firstn n s) = firstn n (Visualizer.shift1 s).
Proof.
  destruct n as [|n], s as [|x s]; try reflexivity.
  cbn [firstn Visualizer.shift1]. f_equal.
  change (x :: firstn n s) with (firstn (S n) (x :: s)).
  rewrite !removelast_firstn_len, !firstn_firstn, length_firstn.
  f_equal. cbn [length]. lia.
Qed.

Lemma rolling_nth_short (w : nat) (agg : list Q -> Q) (s : list Q) (i : nat) :
  (S i < w)%nat -> nth i (rolling w agg s) None = None.
Proof.
  intros H. destruct (Nat.ltb_spec i (length s)) as [L|L].
  - apply nth_error_nth. rewrite rolling_nth_error by exact L.
    now rewrite window_at_short.
  - apply nth_overflow. rewrite rolling_length. exact L.
Qed.

Lemma sma_nth_short (w i : nat) (prices : list Q) :
  (S i < w)%nat -> nth i (map of_option (rolling w Qmean prices)) NaN = NaN.
Proof.
  intros H. change NaN with (of_option None) at 1.
  rewrite map_nth, rolling_nth_short by exact H. reflexivity.
Qed.

Lemma shifted_sma_nth_short (w i : nat) (prices : list Q) :
  (i < w)%nat ->
  nth i (Visualizer.shift1 (map of_option (rolling w Qmean prices))) NaN =
  NaN.
Proof.
  intros H. destruct i as [|i].
  - now destruct (map of_option (rolling w Qmean prices)).
  - destruct (Nat.ltb_spec (S i)
                (length (map of_option (rolling w Qmean prices)))) as [L|L].
    + rewrite nth_shift1_S by exact L. apply sma_nth_short. exact H.
    + apply nth_overflow. rewrite shift1_length. exact L.
Qed.

Lemma xleb_NaN_r (x : xnum) : xleb x NaN = false.
Proof. now destruct x. Qed.

Lemma xgtb_not_xleb (a b : xnum) : xgtb a b = true -> xleb a b = false.
Proof.
  unfold xgtb. destruct a as [p| | |], b as [q| | |]; simpl;
    try discriminate; try reflexivity.
  destruct (Qle_bool p q); [discriminate | reflexivity].
Qed.

Lemma xltb_not_xgeb (a b : xnum) : xltb a b = true -> xgeb a b = false.
Proof.
  unfold xgeb. destruct a as [p| | |], b as [q| | |]; simpl;
    try discriminate; try reflexivity.
  destruct (Qle_bool q p); [discriminate | reflexivity].
Qed.

(** ** The columns of [calculate_indicators] *)

Lemma indicator_lengths (df : frame) :
  let data := Visualizer.calculate_indicators df in
  length (Visualizer.Close data) = length df /\
  length (Visualizer.SMA_50 data) = length df /\
  length (Visualizer.SMA_200 data) = length df /\
  length (Visualizer.RSI data) = length df /\
  length (Visualizer.Z_Score data) = length df.
Proof.
  unfold Visualizer.calculate_indicators, closes.
  cbn [Visualizer.Close Visualizer.SMA_50 Visualizer.SMA_200 Visualizer.RSI
       Visualizer.Z_Score].
  rewrite !length_map, !length_combine, !rolling_length, !length_map,
    diff_length, !length_map.
  repeat split; lia.
Qed.

Lemma indicator_rsi (df : frame) :
  Visualizer.RSI (Visualizer.calculate_indicators df) =
  calculate_rsi (closes df) 14.
Proof. reflexivity. Qed.

Lemma rsi_nth_short (df : frame) (i : nat) :
  (i < 13)%nat ->
  nth i (Visualizer.RSI (Visualizer.calculate_indicators df)) NaN = NaN.
Proof.
  intros H. rewrite indicator_rsi.
  destruct (Nat.ltb_spec i (length (closes df))) as [L|L].
  - apply nth_error_nth.
    rewrite (@calculate_rsi_nth (closes df) 14 i None None).
    + reflexivity.
    + rewrite rolling_nth_error by (now rewrite length_map, diff_length).
      now rewrite window_at_short by lia.
    + rewrite rolling_nth_error by (now rewrite length_map, diff_length).
      now rewrite window_at_short by lia.
  - apply nth_overflow. now rewrite calculate_rsi_length.
Qed.

Lemma z_nth_short (df : frame) (i : nat) (d : Q * (option Q * option Q)) :
  (i < 19)%nat -> fst (snd d) = None ->
  fst (snd (nth i (Visualizer.Z_Score (Visualizer.calculate_indicators df)) d))
  = None.
Proof.
  intros H Hd. destruct d as [p [m v]]. simpl in Hd. subst m.
  unfold Visualizer.calculate_indicators. cbn [Visualizer.Z_Score].
  rewrite combine_nth
    by (now rewrite length_combine, !rolling_length, Nat.min_id).
  rewrite combine_nth by (now rewrite !rolling_length).
  cbn [fst snd]. apply rolling_nth_short. lia.
Qed.

(** ** One row of the signals *)

Lemma signals_nth (df : frame) (i : nat) (row : string * string) :
  nth_error (Visualizer.signals df) i = Some row ->
  (i < length df)%nat /\
  row =
    let data := Visualizer.calculate_indicators df in
    Visualizer.signal_row
      (nth i (Visualizer.golden_cross_mask data) false)
      (nth i (Visualizer.death_cross_mask data) false)
      (nth i (map (fun r => xltb r (Fin 30)) (Visualizer.RSI data)) false)
      (nth i (map (fun r => xgtb r (Fin 70)) (Visualizer.RSI data)) false)
      (nth i (map (fun c => z_below (fst c) (fst (snd c)) (snd (snd c)) 2)
                  (Visualizer.Z_Score data)) false)
      (nth i (map (fun c => z_above (fst c) (fst (snd c)) (snd (snd c)) 2)
                  (Visualizer.Z_Score data)) false).
Proof.
  unfold Visualizer.signals, Visualizer.generate_buy_sell_signals.
  cbv zeta. rewrite nth_error_map, nth_error_seq.
  destruct (indicator_lengths df) as [-> _].
  destruct (Nat.ltb_spec i (length df)) as [L|L]; simpl; [|discriminate].
  intros H. inv H. auto.
Qed.

Lemma signals_length (df : frame) :
  length (Visualizer.signals df) = length df.
Proof.
  unfold Visualizer.signals, Visualizer.generate_buy_sell_signals.
  cbv zeta. rewrite length_map, length_seq.
  now destruct (indicator_lengths df) as [-> _].
Qed.

Lemma golden_cross_nth (data : Visualizer.Indicators) (i : nat) :
  (i < length (Visualizer.SMA_50 data))%nat ->
  (i < length (Visualizer.SMA_200 data))%nat ->
  nth i (Visualizer.golden_cross_mask data) false =
  xgtb (nth i (Visualizer.SMA_50 data) NaN)
       (nth i (Visualizer.SMA_200 data) NaN) &&
  xleb (nth i (Visualizer.shift1 (Visualizer.SMA_50 data)) NaN)
       (nth i (Visualizer.shift1 (Visualizer.SMA_200 data)) NaN).
Proof.
  intros H1 H2. unfold Visualizer.golden_cross_mask.
  rewrite (nth_zip_with andb false false)
    by (rewrite zip_with_length, ?shift1_length; lia).
  rewrite (nth_zip_with xgtb NaN NaN) by assumption.
  rewrite (nth_zip_with xleb NaN NaN) by (rewrite shift1_length; assumption).
  reflexivity.
Qed.

Lemma death_cross_nth (data : Visualizer.Indicators) (i : nat) :
  (i < length (Visualizer.SMA_50 data))%nat ->
  (i < length (Visualizer.SMA_200 data))%nat ->
  nth i (Visualizer.death_cross_mask data) false =
  xltb (nth i (Visualizer.SMA_50 data) NaN)
       (nth i (Visualizer.SMA_200 data) NaN) &&
  xgeb (nth i (Visualizer.shift1 (Visualizer.SMA_50 data)) NaN)
       (nth i (Visualizer.shift1 (Visualizer.SMA_200 data)) NaN).
Proof.
  intros H1 H2. unfold Visualizer.death_cross_mask.
  rewrite (nth_zip_with andb false false)
    by (rewrite zip_with_length, ?shift1_length; lia).
  rewrite (nth_zip_with xltb NaN NaN) by assumption.
  rewrite (nth_zip_with xgeb NaN NaN) by (rewrite shift1_length; assumption).
  reflexivity.
Qed.

Lemma crosses_need_history (df : frame) (i : nat) :
  (i < length df)%nat -> (i < 200)%nat ->
  let data := Visualizer.calculate_indicators df in
  nth i (Visualizer.golden_cross_mask data) false = false /\
  nth i (Visualizer.death_cross_mask data) false = false.
Proof.
  intros Hi H data.
  destruct (indicator_lengths df) as [_ [L50 [L200 _]]]. fold data in L50, L200.
  rewrite golden_cross_nth, death_cross_nth by lia.
  assert (E : nth i (Visualizer.shift1 (Visualizer.SMA_200 data)) NaN = NaN)
    by (apply shifted_sma_nth_short; exact H).
  rewrite E. unfold xgeb. cbn [xleb].
  rewrite xleb_NaN_r, !andb_false_r. auto.
Qed.

Lemma rsi_flags_need_history (df : frame) (i : nat) :
  (i < 13)%nat ->
  let data := Visualizer.calculate_indicators df in
  nth i (map (fun r => xltb r (Fin 30)) (Visualizer.RSI data)) false = false /\
  nth i (map (fun r => xgtb r (Fin 70)) (Visualizer.RSI data)) false = false.
Proof.
  intros H data. split.
  - change false with ((fun r => xltb r (Fin 30)) NaN) at 1.
    rewrite map_nth. unfold data. now rewrite rsi_nth_short.
  - change false with ((fun r => xgtb r (Fin 70)) NaN) at 1.
    rewrite map_nth. unfold data. now rewrite rsi_nth_short.
Qed.

Lemma z_flags_need_history (df : frame) (i : nat) :
  (i < 19)%nat ->
  let data := Visualizer.calculate_indicators df in
  nth i (map (fun c => z_below (fst c) (fst (snd c)) (snd (snd c)) 2)
             (Visualizer.Z_Score data)) false = false /\
  nth i (map (fun c => z_above (fst c) (fst (snd c)) (snd (snd c)) 2)
             (Visualizer.Z_Score data)) false = false.
Proof.
  intros H data.
  pose proof (@z_nth_short df i (0, (None, None)) H eq_refl) as E.
  fold data in E. split.
  - change false
      with ((fun c : Q * (option Q * option Q) =>
               z_below (fst c) (fst (snd c)) (snd (snd c)) 2)
              (0, (None, None))) at 1.
    rewrite map_nth. cbv beta. rewrite E. reflexivity.
  - change false
      with ((fun c : Q * (option Q * option Q) =>
               z_above (fst c) (fst (snd c)) (snd (snd c)) 2)
              (0, (None, None))) at 1.
    rewrite map_nth. cbv beta. rewrite E. reflexivity.
Qed.

(** X21.  The signals have one row per bar, and each indicator needs its
    history before it can give a signal: the first 13 rows are always
    [HOLD] with an empty reason, no mean-reversion signal is given before
    row 19 and no Golden Cross or Death Cross before row 200 (rows counted
    from 0). *)
Theorem signals_warm_up (df : frame) (i : nat) (row : string * string) :
  nth_error (Visualizer.signals df) i = Some row ->
  (i < length df)%nat /\
  length (Visualizer.signals df) = length df /\
  ((i < 13)%nat -> row = ("HOLD", "")%string) /\
  ((i < 19)%nat ->
   snd row <> "Mean Reversion (Low)"%string /\
   snd row <> "Mean Reversion (High)"%string) /\
  ((i < 200)%nat ->
   snd row <> "Golden Cross"%string /\ snd row <> "Death Cross"%string).
Proof.
  intros H. apply signals_nth in H as [Hi ->]. cbv zeta.
  split; [exact Hi|]. split; [apply signals_length|].
  split; [|split].
  - intros H.
    destruct (@crosses_need_history df i Hi ltac:(lia)) as [-> ->].
    destruct (@rsi_flags_need_history df i H) as [-> ->].
    destruct (@z_flags_need_history df i ltac:(lia)) as [-> ->].
    reflexivity.
  - intros H. destruct (@z_flags_need_history df i H) as [-> ->].
    destruct (nth i (Visualizer.golden_cross_mask _) false),
      (nth i (Visualizer.death_cross_mask _) false),
      (nth i (map (fun r => xltb r (Fin 30)) _) false),
      (nth i (map (fun r => xgtb r (Fin 70)) _) false);
      split; discriminate.
  - intros H. destruct (@crosses_need_history df i Hi H) as [-> ->].
    destruct (nth i (map (fun r => xltb r (Fin 30)) _) false),
      (nth i (map (fun r => xgtb r (Fin 70)) _) false),
      (nth i (map (fun c => z_below _ _ _ 2) _) false),
      (nth i (map (fun c => z_above _ _ _ 2) _) false);
      split; discriminate.
Qed.

(** Fifteen bars that fall by one each: the RSI is 0 from row 13 on, so
    row 14 is a BUY for "RSI Oversold", and row 12 is still a HOLD. *)
Lemma signals_warm_up_witness :
  let df : frame :=
    map (fun i => mkBar (Z.of_nat i) (inject_Z (100 - Z.of_nat i)))
        (seq 0 15) in
  nth_error (Visualizer.signals df) 12 = Some ("HOLD", "")%string /\
  nth_error (Visualizer.signals df) 14 = Some ("BUY", "RSI Oversold")%string.
Proof.
  intros df.
  assert (H12 : nth_error (Visualizer.signals df) 12 =
                Some (nth 12 (Visualizer.signals df) (""%string, ""%string))).
  { apply nth_error_nth'. rewrite signals_length. simpl. lia. }
  split.
  - rewrite H12. apply f_equal.
    apply (proj1 (proj2 (proj2 (signals_warm_up _ _ H12)))). lia.
  - vm_compute. reflexivity.
Defined.

(** ** Signals read the past only *)

Lemma generate_firstn (a b : Visualizer.Indicators) (n : nat) :
  Visualizer.Close a = firstn n (Visualizer.Close b) ->
  Visualizer.SMA_50 a = firstn n (Visualizer.SMA_50 b) ->
  Visualizer.SMA_200 a = firstn n (Visualizer.SMA_200 b) ->
  Visualizer.RSI a = firstn n (Visualizer.RSI b) ->
  Visualizer.Z_Score a = firstn n (Visualizer.Z_Score b) ->
  Visualizer.generate_buy_sell_signals a =
  firstn n (Visualizer.generate_buy_sell_signals b).
Proof.
  intros Hc H50 H200 Hr Hz.
  unfold Visualizer.generate_buy_sell_signals, Visualizer.golden_cross_mask,
    Visualizer.death_cross_mask.
  cbv zeta. rewrite Hc, H50, H200, Hr, Hz.
  rewrite !shift1_firstn, !zip_with_firstn, <- !firstn_map.
  rewrite length_firstn.
  rewrite (firstn_map _ n (seq 0 (length (Visualizer.Close b)))), firstn_seq.
  apply map_ext_in. intros i Hi. apply in_seq in Hi.
  rewrite !nth_firstn.
  destruct (Nat.ltb_spec i n) as [L|L]; [reflexivity | lia].
Qed.

Lemma indicators_firstn (df : frame) (n : nat) :
  let a := Visualizer.calculate_indicators (firstn n df) in
  let b := Visualizer.calculate_indicators df in
  Visualizer.Close a = firstn n (Visualizer.Close b) /\
  Visualizer.SMA_50 a = firstn n (Visualizer.SMA_50 b) /\
  Visualizer.SMA_200 a = firstn n (Visualizer.SMA_200 b) /\
  Visualizer.RSI a = firstn n (Visualizer.RSI b) /\
  Visualizer.Z_Score a = firstn n (Visualizer.Z_Score b).
Proof.
  unfold Visualizer.calculate_indicators.
  cbn [Visualizer.Close Visualizer.SMA_50 Visualizer.SMA_200 Visualizer.RSI
       Visualizer.Z_Score].
  assert (E : closes (firstn n df) = firstn n (closes df))
    by (unfold closes; now rewrite firstn_map).
  rewrite E. clear E.
  rewrite diff_firstn, <- !(firstn_map where_pos),
    <- !(firstn_map neg_where_neg), !rolling_firstn.
  rewrite !firstn_map, !combine_firstn. auto.
Qed.

(** X22.  The signals are causal: the signals computed on the first [n]
    bars of a frame are the first [n] rows of the signals computed on the
    whole frame, so no later bar changes a signal already given. *)
Theorem signals_read_the_past_only (df : frame) (n : nat) :
  Visualizer.signals (firstn n df) = firstn n (Visualizer.signals df).
Proof.
  unfold Visualizer.signals.
  destruct (indicators_firstn df n) as [Hc [H50 [H200 [Hr Hz]]]].
  now apply generate_firstn.
Qed.

(** ** Crosses *)

Lemma signal_row_reason (g d o b l h : bool) :
  (snd (Visualizer.signal_row g d o b l h) = "Golden Cross"%string ->
   g = true) /\
  (snd (Visualizer.signal_row g d o b l h) = "Death Cross"%string ->
   d = true).
Proof.
  destruct g, d, o, b, l, h; simpl; split; intros H;
    try reflexivity; discriminate.
Qed.

(** X23.  A cross is a change of side, so it cannot repeat at once: two
    consecutive rows never both carry the reason "Golden Cross", and never
    both "Death Cross". *)
Theorem crosses_do_not_repeat
    (df : frame) (i : nat) (row next : string * string) :
  nth_error (Visualizer.signals df) i = Some row ->
  nth_error (Visualizer.signals df) (S i) = Some next ->
  ~ (snd row = "Golden Cross"%string /\ snd next = "Golden Cross"%string) /\
  ~ (snd row = "Death Cross"%string /\ snd next = "Death Cross"%string).
Proof.
  intros H1 H2.
  apply signals_nth in H1 as [Hi ->]. apply signals_nth in H2 as [Hn ->].
  cbv zeta.
  destruct (indicator_lengths df) as [_ [L50 [L200 _]]].
  set (data := Visualizer.calculate_indicators df) in *.
  split; intros [R1 R2].
  - apply signal_row_reason in R1. apply signal_row_reason in R2.
    rewrite golden_cross_nth in R1, R2 by lia.
    apply andb_true_iff in R1 as [R1 _]. apply andb_true_iff in R2 as [_ R2].
    rewrite !nth_shift1_S in R2 by lia.
    apply xgtb_not_xleb in R1. congruence.
  - apply signal_row_reason in R1. apply signal_row_reason in R2.
    rewrite death_cross_nth in R1, R2 by lia.
    apply andb_true_iff in R1 as [R1 _]. apply andb_true_iff in R2 as [_ R2].
    rewrite !nth_shift1_S in R2 by lia.
    apply xltb_not_xgeb in R1. congruence.
Qed.

(** Two hundred bars at 10, then two at 20: the 50-bar average rises
    above the 200-bar average at row 200, a Golden Cross, and row 201 is
    not one. *)
Lemma crosses_do_not_repeat_witness :
  let df : frame :=
    map (fun i => mkBar (Z.of_nat i) (if Nat.ltb i 200 then 10 else 20))
        (seq 0 202) in
  nth_error (Visualizer.signals df) 200 =
    Some ("BUY", "Golden Cross")%string /\
  exists next,
    nth_error (Visualizer.signals df) 201 = Some next /\
    snd next <> "Golden Cross"%string.
Proof.
  intros df.
  assert (H1 : nth_error (Visualizer.signals df) 200 =
               Some ("BUY", "Golden Cross")%string)
    by (vm_compute; reflexivity).
  assert (H2 : nth_error (Visualizer.signals df) 201 =
               Some (nth 201 (Visualizer.signals df) (""%string, ""%string))).
  { apply nth_error_nth'. rewrite signals_length. unfold df.
    rewrite length_map, length_seq. lia. }
  split; [exact H1|].
  exists (nth 201 (Visualizer.signals df) (""%string, ""%string)).
  split; [exact H2|].
  intros R. apply (proj1 (crosses_do_not_repeat _ _ H1 H2)).
  split; [reflexivity | exact R].
Defined.

(** ** The technical panel and the technical check *)

(** X24.  The technical panel of the visualizer's summary, once
    [plot_theory_summary] reaches it, and [test_technical_analysis] of the
    tester agree on every non-empty frame: the same golden-cross,
    price-above-averages, oversold and overbought flags, the same
    interpretation and the same verdict.  On the empty frame the reads of
    the panel and the check of the tester both raise [IndexError]. *)
Theorem technical_panel_agrees (df : frame) :
  (df = [] ->
   Visualizer.technical_panel (Visualizer.calculate_indicators df) =
     Raise IndexError /\
   test_technical_analysis (Some df) = Raise IndexError) /\
  (df <> [] ->
   exists golden_cross price_above_mas oversold overbought interpretation
          makes_sense d,
     Visualizer.technical_panel (Visualizer.calculate_indicators df) =
       Ok (golden_cross, price_above_mas, oversold, overbought,
           interpretation, makes_sense) /\
     test_technical_analysis (Some df) = Ok d /\
     lookup "golden_cross" d = Some (PBool golden_cross) /\
     lookup "price_above_mas" d = Some (PBool price_above_mas) /\
     lookup "oversold" d = Some (PBool oversold) /\
     lookup "overbought" d = Some (PBool overbought) /\
     lookup "interpretation" d = Some (PStr interpretation) /\
     lookup "makes_sense" d = Some (PBool makes_sense)).
Proof.
  split; [intros ->; split; reflexivity|].
  intros Hne.
  destruct (indicator_lengths df) as [Lc [L50 [L200 [Lr _]]]].
  assert (Hlen : (0 < length df)%nat)
    by (destruct df; [congruence | simpl; lia]).
  set (data := Visualizer.calculate_indicators df) in *.
  assert (Nc : Visualizer.Close data <> [])
    by (intros E; rewrite E in Lc; simpl in Lc; lia).
  assert (N50 : Visualizer.SMA_50 data <> [])
    by (intros E; rewrite E in L50; simpl in L50; lia).
  assert (N200 : Visualizer.SMA_200 data <> [])
    by (intros E; rewrite E in L200; simpl in L200; lia).
  assert (Nr : Visualizer.RSI data <> [])
    by (intros E; rewrite E in Lr; simpl in Lr; lia).
  destruct (iloc_last_nonempty Nc) as [cp Hcp].
  destruct (iloc_last_nonempty N50) as [s50 H50].
  destruct (iloc_last_nonempty N200) as [s200 H200].
  destruct (iloc_last_nonempty Nr) as [rsi Hrsi].
  unfold Visualizer.technical_panel.
  rewrite Hcp, H50, H200, Hrsi. cbn [bind].
  unfold test_technical_analysis, last_or.
  change (closes df) with (Visualizer.Close data).
  change (map of_option (rolling 50 Qmean (Visualizer.Close data)))
    with (Visualizer.SMA_50 data).
  change (map of_option (rolling 200 Qmean (Visualizer.Close data)))
    with (Visualizer.SMA_200 data).
  change (technical_rsi (Visualizer.Close data)) with (Visualizer.RSI data).
  rewrite Hcp, H50, H200, Hrsi. cbn [bind].
  do 7 eexists. split; [reflexivity|]. split; [reflexivity|].
  repeat split; reflexivity.
Qed.

(** Three bars: both sides report no golden cross, price not above the
    averages, "Bearish trend - below MAs". *)
Lemma technical_panel_agrees_witness :
  let df := [mkBar 1 10; mkBar 2 11; mkBar 3 12] in
  Visualizer.technical_panel (Visualizer.calculate_indicators df) =
    Ok (false, false, false, false, "Bearish trend - below MAs"%string,
        false) /\
  exists d,
    test_technical_analysis (Some df) = Ok d /\
    lookup "interpretation" d = Some (PStr "Bearish trend - below MAs").
Proof.
  intros df.
  destruct (proj2 (technical_panel_agrees df) ltac:(discriminate))
    as [gc [pa [os [ob [interp [ms [d [Hp [Ht [_ [_ [_ [_ [Hi _]]]]]]]]]]]]]].
  assert (E : Visualizer.technical_panel (Visualizer.calculate_indicators df) =
              Ok (false, false, false, false,
                  "Bearish trend - below MAs"%string, false))
    by (vm_compute; reflexivity).
  split; [exact E|].
  exists d. split; [exact Ht|].
  rewrite Hi. rewrite Hp in E. inv E. reflexivity.
Defined.

(** * [print_results] *)

Lemma mean_reversion_reports (data : option frame) :
  has_key "error" (test_mean_reversion data) = true \/
  printable (test_mean_reversion data).
Proof.
  destruct data as [df|]; [right | left; reflexivity].
  unfold printable, test_mean_reversion. do 3 eexists.
  repeat split; reflexivity.
Qed.

Lemma value_investing_reports (data : option frame) (info : Info) (d : dict) :
  test_value_investing data info = Ok d ->
  has_key "error" d = true \/ printable d.
Proof.
  unfold test_value_investing.
  destruct (forwardPE info) as [pe|];
    [|intros H; inv H; left; reflexivity].
  intros H. apply bind_Ok in H as [works [_ H]]. inv H. right.
  unfold printable. do 3 eexists. repeat split; reflexivity.
Qed.

Lemma technical_analysis_reports (data : option frame) (d : dict) :
  test_technical_analysis data = Ok d ->
  has_key "error" d = true \/ printable d.
Proof.
  unfold test_technical_analysis.
  destruct data as [df|]; [|intros H; inv H; left; reflexivity].
  intros H. apply bind_Ok in H as [cp [_ H]].
  assert (E : d = ltac:(match type of H with Ok ?x = _ => exact x end))
    by congruence.
  clear H. subst d. right.
  unfold printable. do 3 eexists. repeat split; reflexivity.
Qed.

Lemma print_tests_returns (tests : list dict) :
  Forall printable tests ->
  exists printed,
    print_tests tests = Ok printed /\ length printed = length tests.
Proof.
  induction 1 as [|d tests [t [i [m [Ht [Hi Hm]]]]] _ [printed [IH L]]].
  - exists []. auto.
  - simpl. unfold getitem. rewrite Ht, Hi, Hm. cbn [bind]. rewrite IH.
    cbn [bind]. eexists. split; [reflexivity|]. simpl. now rewrite L.
Qed.

Lemma count_makes_sense_returns (tests : list dict) :
  Forall printable tests ->
  exists n, count_makes_sense tests = Ok n /\ (n <= length tests)%nat.
Proof.
  induction 1 as [|d tests [t [i [m [Ht [Hi Hm]]]]] _ [n [IH L]]].
  - exists 0%nat. auto.
  - simpl. unfold getitem. rewrite Hm. cbn [bind]. rewrite IH. cbn [bind].
    eexists. split; [reflexivity|]. simpl. destruct m; lia.
Qed.

Lemma run_all_tests_printable
    (emh momentum : option frame -> result dict)
    (fetched : option (frame * Info)) (tests : list dict) :
  reports_or_errors emh -> reports_or_errors momentum ->
  run_all_tests emh momentum fetched = Ok tests ->
  Forall printable tests /\ (length tests <= 5)%nat.
Proof.
  intros He Hm H. destruct fetched as [[df info]|];
    [|inv H; split; [constructor | simpl; lia]].
  unfold run_all_tests in H.
  apply bind_Ok in H as [e [Ee H]]. apply bind_Ok in H as [m [Em H]].
  apply bind_Ok in H as [v [Ev H]]. apply bind_Ok in H as [t [Et H]].
  assert (E : tests = filter (fun r => negb (has_key "error" r))
                        [e; m; test_mean_reversion (Some df); v; t])
    by congruence.
  clear H. subst tests. split.
  - apply Forall_forall. intros d Hd. apply filter_In in Hd as [Hin Hd].
    apply negb_true_iff in Hd.
    assert (K : has_key "error" d = true \/ printable d).
    { cbn [In] in Hin.
      destruct Hin as [<-|[<-|[<-|[<-|[<-|[]]]]]].
      - exact (He _ _ Ee).
      - exact (Hm _ _ Em).
      - apply mean_reversion_reports.
      - exact (value_investing_reports _ _ Ev).
      - exact (technical_analysis_reports _ Et). }
    destruct K as [K|K]; [congruence | exact K].
  - cbn [filter].
    destruct (negb (has_key "error" e)), (negb (has_key "error" m)),
      (negb (has_key "error" (test_mean_reversion (Some df)))),
      (negb (has_key "error" v)), (negb (has_key "error" t));
      simpl; lia.
Qed.

(** X25.  [print_results] never fails on a key of its own: when the two
    correlation checks return error dictionaries or results with a theory,
    an interpretation and a verdict, every result that [run_all_tests]
    lets through has the three keys that are printed, so an exception
    leaves [print_results] only if it leaves [run_all_tests].  A report
    has one line per test, between one and five tests, and a count of
    sensible theories that is at most the number of tests; without fetched
    data nothing is reported. *)
Theorem print_results_finds_its_keys
    (emh momentum : option frame -> result dict)
    (fetched : option (frame * Info)) :
  reports_or_errors emh -> reports_or_errors momentum ->
  print_results emh momentum None = Ok None /\
  (forall e,
     print_results emh momentum fetched = Raise e ->
     run_all_tests emh momentum fetched = Raise e) /\
  (forall tests,
     run_all_tests emh momentum fetched = Ok tests ->
     exists report, print_results emh momentum fetched = Ok report) /\
  (forall report,
     print_results emh momentum fetched = Ok (Some report) ->
     length (printed_tests report) = total_tests report /\
     (makes_sense_count report <= total_tests report)%nat /\
     (1 <= total_tests report <= 5)%nat).
Proof.
  intros He Hm. split; [reflexivity|].
  unfold print_results.
  destruct (run_all_tests emh momentum fetched) as [tests|e0] eqn:Hrun;
    cbn [bind].
  - destruct (run_all_tests_printable _ He Hm Hrun) as [Hp Hlen].
    destruct (print_tests_returns Hp) as [printed [Epr Lpr]].
    destruct (count_makes_sense_returns Hp) as [n [En Ln]].
    destruct tests as [|d tests].
    + split; [discriminate|]. split; [eauto | discriminate].
    + rewrite Epr, En. cbn [bind].
      split; [discriminate|]. split; [eauto|].
      intros report H. inv H.
      cbn [printed_tests makes_sense_count total_tests].
      simpl in Hlen |- *. simpl in Lpr, Ln. lia.
  - split; [intros e H; congruence|]. split; discriminate.
Qed.

(** Correlation checks that report insufficient data, three bars and a
    forward P/E of 10: the value and the technical results are printed
    with the mean-reversion result, and one of the three makes sense. *)
Lemma print_results_finds_its_keys_witness :
  let failing := fun _ : option frame =>
    Ok [("error"%string, PStr "Insufficient data for momentum test")] in
  let df : frame := [mkBar 1 10; mkBar 2 11; mkBar 3 12] in
  exists report,
    print_results failing failing (Some (df, mkInfo (Some 10) None)) =
      Ok (Some report) /\
    total_tests report = 3%nat /\ makes_sense_count report = 1%nat /\
    length (printed_tests report) = 3%nat.
Proof.
  intros failing df.
  assert (Hf : reports_or_errors failing).
  { intros data d H. inv H. left. reflexivity. }
  destruct (@print_results_finds_its_keys failing failing
              (Some (df, mkInfo (Some 10) None)) Hf Hf) as [_ [_ [_ H]]].
  assert (E : exists report,
             print_results failing failing
               (Some (df, mkInfo (Some 10) None)) = Ok (Some report) /\
             total_tests report = 3%nat /\ makes_sense_count report = 1%nat).
  { eexists. split; [vm_compute; reflexivity|]. split; reflexivity. }
  destruct E as [report [E [T C]]]. exists report.
  split; [exact E|]. split; [exact T|]. split; [exact C|].
  rewrite <- T. exact (proj1 (H report E)).
Defined.
